(** * omniplan.py: value conversion, task model, change tracking and commit

    A shallow embedding of [omniplan.py].  Python objects with identity
    (tasks, resources) live in a store addressed by references; the document
    is the root of that store.  Python exceptions are the [Raise] outcomes of
    a small error monad. *)

From Stdlib Require Import ZArith Lia String Ascii List DecimalString.
From stdpp Require Import gmap strings list.

Open Scope Z_scope.

(** ** Four-character codes: [struct.pack('>i', v)] and [struct.unpack('>i', s)] *)

Module FourCharacterCode.

Definition INT_MIN : Z := - 2 ^ 31.
Definition INT_MAX : Z := 2 ^ 31 - 1.

Definition chr (b : Z) : ascii := ascii_of_N (Z.to_N b).
Definition ord (c : ascii) : Z := Z.of_N (N_of_ascii c).

(** [struct.pack('>i', value)]: four bytes, most significant first, two's
    complement; [struct.error] (here [None]) outside the signed range. *)
Definition value_to_string (value : Z) : option string :=
  if (INT_MIN <=? value) && (value <=? INT_MAX) then
    let u := value mod 2 ^ 32 in
    Some (String (chr (u / 2 ^ 24))
         (String (chr ((u / 2 ^ 16) mod 256))
         (String (chr ((u / 2 ^ 8) mod 256))
         (String (chr (u mod 256)) EmptyString))))
  else None.

(** [struct.unpack('>i', string)[0]]: [struct.error] unless the string has
    exactly four bytes. *)
Definition string_to_value (s : string) : option Z :=
  match s with
  | String a (String b (String c (String d EmptyString))) =>
      let u := ord a * 2 ^ 24 + ord b * 2 ^ 16 + ord c * 2 ^ 8 + ord d in
      Some (if u <? 2 ^ 31 then u else u - 2 ^ 32)
  | _ => None
  end.

(** A printable ASCII character: space up to tilde. *)
Definition printable (c : ascii) : bool := (32 <=? ord c) && (ord c <=? 126).

Definition printable4 (s : string) : bool :=
  match s with
  | String a (String b (String c (String d EmptyString))) =>
      printable a && printable b && printable c && printable d
  | _ => false
  end.

End FourCharacterCode.

(** [FourCharacterCodeValueConverter] *)
Module FourCharacterCodeValueConverter.
Definition decode_omniplan_value (value : Z) : option string :=
  FourCharacterCode.value_to_string value.
Definition encode_omniplan_value (s : string) : option Z :=
  FourCharacterCode.string_to_value s.
End FourCharacterCodeValueConverter.

(** ** Work-day intervals *)

Module WorkDayTimeInterval.

(** An interval that holds a whole number of seconds. *)
Record t := mk { _seconds : Z }.

Definition SECONDS_PER_WORKDAY : Z := 8 * 60 * 60.

(** Python truth value of an optional number: [None] and [0] are falsy. *)
Definition truthy (x : option Z) : bool :=
  match x with
  | Some n => negb (n =? 0)
  | None => false
  end.

(** [__init__(self, seconds=None, workdays=None)] *)
Definition init (seconds workdays : option Z) : t :=
  let self := mk 0 in
  if truthy seconds then mk (default 0 seconds)
  else if truthy workdays then mk (default 0 workdays * SECONDS_PER_WORKDAY)
  else self.

Definition seconds (self : t) : Z := _seconds self.

(** [__eq__] *)
Definition eq (self other : t) : bool := _seconds self =? _seconds other.

(** [__ne__] *)
Definition ne (self other : t) : bool := negb (eq self other).

(** [days()].  The durations of this model are whole numbers of seconds, as
    the host delivers them; between integers the [/] of Python 2 is the
    division that rounds down. *)
Definition days (self : t) : Z := _seconds self / SECONDS_PER_WORKDAY.

End WorkDayTimeInterval.

Module WorkDayTimeIntervalValueConverter.
Definition decode_omniplan_value (seconds : Z) : WorkDayTimeInterval.t :=
  WorkDayTimeInterval.init (Some seconds) None.
Definition encode_omniplan_value (w : WorkDayTimeInterval.t) : Z :=
  WorkDayTimeInterval.seconds w.
End WorkDayTimeIntervalValueConverter.

(** ** Python exceptions and the error monad *)

Inductive Exn :=
| UnknownKey (key : string)         (* 'Unknown key/value pair in task data: key' *)
| MissingKeys (keys : list string)  (* 'Missing key/value pair(s) in task data: keys' *)
| KeyError
| TypeError
| AttributeError
| ValueError
| IndexError
| StructError
| OSError
| UnicodeError.                     (* [UnicodeDecodeError], [UnicodeEncodeError] *)

Inductive result (A : Type) :=
| Ok (a : A)
| Raise (e : Exn).
Arguments Ok {A} a.
Arguments Raise {A} e.

#[global] Instance result_ret : MRet result := @Ok.
#[global] Instance result_bind : MBind result :=
  fun A B f m => match m with Ok a => f a | Raise e => Raise e end.

Definition of_option {A} (e : Exn) (o : option A) : result A :=
  match o with Some a => Ok a | None => Raise e end.

Fixpoint map_result {A B} (f : A -> result B) (l : list A) : result (list B) :=
  match l with
  | [] => Ok []
  | x :: rest => y ← f x; ys ← map_result f rest; Ok (y :: ys)
  end.

(** ** Values *)

Set Warnings "-register-all".

(** What [plistlib] hands back for the host's answer: integers, text,
    booleans, naive timestamps, arrays and dictionaries (entries in iteration
    order). *)
Inductive Plist :=
| PlInt (n : Z)
| PlStr (s : string)
| PlBool (b : bool)
| PlDate (t : Z)
| PlArray (items : list Plist)
| PlDict (entries : list (string * Plist)).

(** [d[key]] on a parsed dictionary. *)
Fixpoint plist_get (key : string) (entries : list (string * Plist)) : result Plist :=
  match entries with
  | [] => Raise KeyError
  | (k, v) :: rest => if String.eqb k key then Ok v else plist_get key rest
  end.

Definition plist_item (key : string) (p : Plist) : result Plist :=
  match p with
  | PlDict entries => plist_get key entries
  | _ => Raise TypeError
  end.

Definition plist_int (p : Plist) : result Z :=
  match p with PlInt n => Ok n | _ => Raise TypeError end.

Definition plist_str (p : Plist) : result string :=
  match p with PlStr s => Ok s | _ => Raise TypeError end.

Definition plist_array (p : Plist) : result (list Plist) :=
  match p with PlArray l => Ok l | _ => Raise TypeError end.

(** Python truth value. *)
Definition plist_truthy (p : Plist) : bool :=
  match p with
  | PlInt n => negb (n =? 0)
  | PlStr s => negb (String.eqb s "")
  | PlBool b => b
  | PlDate _ => true
  | PlArray l => match l with [] => false | _ => true end
  | PlDict d => match d with [] => false | _ => true end
  end.

(** The values a task attribute holds: a wire value stored as it came, or
    one of the decoded domain values.  Custom data is a dictionary from field
    name to field value, both text. *)
Inductive PyVal :=
| PyNone
| PyWire (p : Plist)
| PyInterval (w : WorkDayTimeInterval.t)
| PyUTCDate (t : Z)
| PyCustomData (m : gmap string string).

Definition PyStr (s : string) : PyVal := PyWire (PlStr s).
Definition PyInt (n : Z) : PyVal := PyWire (PlInt n).

(** ** Text: [str(int)], [str.replace], [str.join], [str.format] *)

Definition LF : ascii := "010"%char.
Definition DQ : ascii := "034"%char.
Definition BSL : ascii := "092"%char.
Definition nl : string := String LF EmptyString.
Definition dq : string := String DQ EmptyString.

Definition str_int (n : Z) : string := NilEmpty.string_of_int (Z.to_int n).

(** [value.replace(quote, backslash quote)] *)
Fixpoint escape_quotes (s : string) : string :=
  match s with
  | EmptyString => EmptyString
  | String c rest =>
      if Ascii.eqb c DQ then String BSL (String DQ (escape_quotes rest))
      else String c (escape_quotes rest)
  end.

Definition join (sep : string) (l : list string) : string := String.concat sep l.

(** [template.format(args...)] for a byte-string template of this module,
    applied to byte strings: [{}] takes the next argument, [{{] and [}}] are
    literal braces.  Any other use of a brace raises here ([ValueError]);
    running out of arguments is an [IndexError]. *)
Fixpoint format (template : string) (args : list string) : result string :=
  match template with
  | EmptyString => Ok EmptyString
  | String c rest =>
      if Ascii.eqb c "{" then
        match rest with
        | String d rest' =>
            if Ascii.eqb d "{" then
              out ← format rest' args; Ok (String "{" out)
            else if Ascii.eqb d "}" then
              match args with
              | a :: args' => out ← format rest' args'; Ok (a ++ out)%string
              | [] => Raise IndexError
              end
            else Raise ValueError
        | EmptyString => Raise ValueError
        end
      else if Ascii.eqb c "}" then
        match rest with
        | String d rest' =>
            if Ascii.eqb d "}" then
              out ← format rest' args; Ok (String "}" out)
            else Raise ValueError
        | EmptyString => Raise ValueError
        end
      else out ← format rest args; Ok (String c out)
  end.

(** The texts of this model are byte strings ([str]), as the literals and the
    answers of the bridge are in Python 2.  Where a byte string takes the
    place of a [{}] in a unicode template (a [u"..."] literal, or the result
    of formatting one), it is first decoded with the ASCII codec, and a byte
    above 127 raises [UnicodeDecodeError]. *)
Definition ascii7 (c : ascii) : bool :=
  let 'Ascii _ _ _ _ _ _ _ b7 := c in negb b7.

Fixpoint is_ascii (s : string) : bool :=
  match s with
  | EmptyString => true
  | String c rest => ascii7 c && is_ascii rest
  end.

(** [u_template.format(args...)] *)
Fixpoint uformat (template : string) (args : list string) : result string :=
  match template with
  | EmptyString => Ok EmptyString
  | String c rest =>
      if Ascii.eqb c "{" then
        match rest with
        | String d rest' =>
            if Ascii.eqb d "{" then
              out ← uformat rest' args; Ok (String "{" out)
            else if Ascii.eqb d "}" then
              match args with
              | a :: args' =>
                  if is_ascii a then out ← uformat rest' args'; Ok (a ++ out)%string
                  else Raise UnicodeError
              | [] => Raise IndexError
              end
            else Raise ValueError
        | EmptyString => Raise ValueError
        end
      else if Ascii.eqb c "}" then
        match rest with
        | String d rest' =>
            if Ascii.eqb d "}" then
              out ← uformat rest' args; Ok (String "}" out)
            else Raise ValueError
        | EmptyString => Raise ValueError
        end
      else out ← uformat rest args; Ok (String c out)
  end.

(** No brace occurs in the text. *)
Fixpoint brace_free (s : string) : bool :=
  match s with
  | EmptyString => true
  | String c rest =>
      negb (Ascii.eqb c "{") && negb (Ascii.eqb c "}") && brace_free rest
  end.

(** ** Value converters *)

Inductive Converter :=
| WorkDayTimeIntervalVC
| CustomDataVC
| FourCharacterCodeVC
| UTCDateVC.

(** [Task.property_value_converter_map.get(property_name)] *)
Definition value_converter_for_property (property_name : string) : option Converter :=
  if String.eqb property_name "effort" then Some WorkDayTimeIntervalVC
  else if String.eqb property_name "completed_effort" then Some WorkDayTimeIntervalVC
  else if String.eqb property_name "custom_data" then Some CustomDataVC
  else if String.eqb property_name "task_type" then Some FourCharacterCodeVC
  else if String.eqb property_name "task_status" then Some FourCharacterCodeVC
  else if String.eqb property_name "ending_date" then Some UTCDateVC
  else if String.eqb property_name "starting_constraint_date" then Some UTCDateVC
  else if String.eqb property_name "starting_date" then Some UTCDateVC
  else None.

Module CustomDataValueConverter.
(** [{pair['name']: pair['value'] for pair in pairs}]: a later pair with
    the same name replaces the earlier one. *)
Fixpoint decode_pairs (pairs : list Plist) (acc : gmap string string)
  : result (gmap string string) :=
  match pairs with
  | [] => Ok acc
  | entry :: rest =>
      n ← plist_item "name" entry; n ← plist_str n;
      v ← plist_item "value" entry; v ← plist_str v;
      decode_pairs rest (<[n := v]> acc)
  end.

Definition decode_omniplan_value (pairs : Plist) : result (gmap string string) :=
  l ← plist_array pairs; decode_pairs l ∅.

Definition encode_omniplan_value (data_dict : gmap string string) : Plist :=
  PlArray (map (fun kv => PlDict [("name", PlStr (fst kv)); ("value", PlStr (snd kv))])
               (map_to_list data_dict)).
End CustomDataValueConverter.

Module UTCDateValueConverter.
Definition decode_omniplan_value (value : Plist) : result PyVal :=
  if negb (plist_truthy value) then Ok PyNone
  else match value with
       | PlDate t => Ok (PyUTCDate t)
       | PlStr _ => Raise TypeError
       | _ => Raise AttributeError
       end.
End UTCDateValueConverter.

(** [converter_class.decode_omniplan_value(value)].  An interval holds an
    integer number of seconds, so a duration that is not an integer on the
    wire is a [TypeError] here. *)
Definition decode_omniplan_value (c : Converter) (value : Plist) : result PyVal :=
  match c with
  | WorkDayTimeIntervalVC =>
      n ← plist_int value;
      Ok (PyInterval (WorkDayTimeIntervalValueConverter.decode_omniplan_value n))
  | CustomDataVC =>
      m ← CustomDataValueConverter.decode_omniplan_value value; Ok (PyCustomData m)
  | FourCharacterCodeVC =>
      match value with
      | PlInt n =>
          s ← of_option StructError (FourCharacterCodeValueConverter.decode_omniplan_value n);
          Ok (PyStr s)
      | _ => Raise StructError
      end
  | UTCDateVC => UTCDateValueConverter.decode_omniplan_value value
  end.

(** ** Objects *)

(** Object identity of a task or of a resource. *)
Definition ref := nat.

Record TaskDependency := mkTaskDependency {
  prerequisite_task : ref;
  dependent_task : ref;
  dependency_type : string
}.

Record ResourceAssignment := mkResourceAssignment {
  ra_resource : ref;
  ra_task : ref;
  ra_units : Z
}.

Inductive TaskChangeRecord :=
| SimplePropertyTaskChangeRecord (task : ref) (property_name : string) (old_value : PyVal)
| AddResourceAssignmentTaskChangeRecord (resource_assignment : ResourceAssignment)
| SetCustomDataValueTaskChangeRecord (task : ref) (name value : string).

Definition targets_document (record : TaskChangeRecord) : bool :=
  match record with
  | AddResourceAssignmentTaskChangeRecord _ => true
  | _ => false
  end.

(** A task object.  [task_parent = None] is the document; [task_attrs] holds
    the simple properties set so far; [task_change_records = None] until the
    constructor's last statement creates the list. *)
Record Task := mkTask {
  task_parent : option ref;
  task_tasks : list ref;
  task_resource_assignments : list ResourceAssignment;
  task_prerequisites : list TaskDependency;
  task_dependents : list TaskDependency;
  task_attrs : gmap string PyVal;
  task_change_records : option (list TaskChangeRecord)
}.

Record Resource := mkResource {
  res_id : Z;
  res_name : string;
  res_assignments : list ResourceAssignment
}.

(** The document together with the objects reachable from it. *)
Record OmniPlanDocument := mkDoc {
  doc_name : string;
  doc_tasks : list ref;
  custom_data_value_to_task_map : gmap string (gmap string (list ref));
  task_map : gmap Z ref;
  resource_map : gmap Z ref;
  selected_tasks : list ref;
  selected_resources : list ref;
  task_heap : gmap ref Task;
  next_task : ref;
  resource_heap : gmap ref Resource;
  next_resource : ref
}.

(** *** Field updates *)

Definition with_tasks (v : list ref) (t : Task) : Task :=
  mkTask (task_parent t) v (task_resource_assignments t) (task_prerequisites t)
         (task_dependents t) (task_attrs t) (task_change_records t).
Definition with_resource_assignments (v : list ResourceAssignment) (t : Task) : Task :=
  mkTask (task_parent t) (task_tasks t) v (task_prerequisites t)
         (task_dependents t) (task_attrs t) (task_change_records t).
Definition with_prerequisites (v : list TaskDependency) (t : Task) : Task :=
  mkTask (task_parent t) (task_tasks t) (task_resource_assignments t) v
         (task_dependents t) (task_attrs t) (task_change_records t).
Definition with_dependents (v : list TaskDependency) (t : Task) : Task :=
  mkTask (task_parent t) (task_tasks t) (task_resource_assignments t)
         (task_prerequisites t) v (task_attrs t) (task_change_records t).
Definition with_attrs (v : gmap string PyVal) (t : Task) : Task :=
  mkTask (task_parent t) (task_tasks t) (task_resource_assignments t)
         (task_prerequisites t) (task_dependents t) v (task_change_records t).
Definition with_change_records (v : option (list TaskChangeRecord)) (t : Task) : Task :=
  mkTask (task_parent t) (task_tasks t) (task_resource_assignments t)
         (task_prerequisites t) (task_dependents t) (task_attrs t) v.

Definition with_doc_tasks (v : list ref) (d : OmniPlanDocument) : OmniPlanDocument :=
  mkDoc (doc_name d) v (custom_data_value_to_task_map d) (task_map d) (resource_map d)
        (selected_tasks d) (selected_resources d) (task_heap d) (next_task d)
        (resource_heap d) (next_resource d).
Definition with_index (v : gmap string (gmap string (list ref))) (d : OmniPlanDocument)
  : OmniPlanDocument :=
  mkDoc (doc_name d) (doc_tasks d) v (task_map d) (resource_map d)
        (selected_tasks d) (selected_resources d) (task_heap d) (next_task d)
        (resource_heap d) (next_resource d).
Definition with_task_map (v : gmap Z ref) (d : OmniPlanDocument) : OmniPlanDocument :=
  mkDoc (doc_name d) (doc_tasks d) (custom_data_value_to_task_map d) v (resource_map d)
        (selected_tasks d) (selected_resources d) (task_heap d) (next_task d)
        (resource_heap d) (next_resource d).
Definition with_resource_map (v : gmap Z ref) (d : OmniPlanDocument) : OmniPlanDocument :=
  mkDoc (doc_name d) (doc_tasks d) (custom_data_value_to_task_map d) (task_map d) v
        (selected_tasks d) (selected_resources d) (task_heap d) (next_task d)
        (resource_heap d) (next_resource d).
Definition with_selection (ts rs : list ref) (d : OmniPlanDocument) : OmniPlanDocument :=
  mkDoc (doc_name d) (doc_tasks d) (custom_data_value_to_task_map d) (task_map d)
        (resource_map d) ts rs (task_heap d) (next_task d)
        (resource_heap d) (next_resource d).
Definition with_task_heap (v : gmap ref Task) (d : OmniPlanDocument) : OmniPlanDocument :=
  mkDoc (doc_name d) (doc_tasks d) (custom_data_value_to_task_map d) (task_map d)
        (resource_map d) (selected_tasks d) (selected_resources d) v (next_task d)
        (resource_heap d) (next_resource d).
Definition with_next_task (v : ref) (d : OmniPlanDocument) : OmniPlanDocument :=
  mkDoc (doc_name d) (doc_tasks d) (custom_data_value_to_task_map d) (task_map d)
        (resource_map d) (selected_tasks d) (selected_resources d) (task_heap d) v
        (resource_heap d) (next_resource d).
Definition with_resource_heap (v : gmap ref Resource) (n : ref) (d : OmniPlanDocument)
  : OmniPlanDocument :=
  mkDoc (doc_name d) (doc_tasks d) (custom_data_value_to_task_map d) (task_map d)
        (resource_map d) (selected_tasks d) (selected_resources d) (task_heap d)
        (next_task d) v n.

(** Reading and mutating the object behind a reference. *)
Definition get_task (r : ref) (d : OmniPlanDocument) : result Task :=
  of_option AttributeError (task_heap d !! r).
Definition update_task (r : ref) (f : Task -> Task) (d : OmniPlanDocument)
  : OmniPlanDocument :=
  with_task_heap (alter f r (task_heap d)) d.
Definition get_resource (r : ref) (d : OmniPlanDocument) : result Resource :=
  of_option AttributeError (resource_heap d !! r).

(** ** Task: attributes and change tracking *)

Record PropertyDescription := mkDescription {
  quoted : bool;
  applescript_property_name : option string
}.

(** [Task.mutable_simple_properties.get(property_name)] *)
Definition mutable_simple_properties (property_name : string) : option PropertyDescription :=
  if String.eqb property_name "effort" then Some (mkDescription false None)
  else if String.eqb property_name "name" then Some (mkDescription true None)
  else if String.eqb property_name "completed_effort"
       then Some (mkDescription false (Some "completed effort"))
  else None.

Definition simple_properties : list string :=
  ["completed_effort"; "ending_constraint_date"; "outline_number"; "ending_date";
   "duration"; "remaining_effort"; "effort"; "id"; "name"; "total_cost"; "priority";
   "starting_date"; "starting_constraint_date"; "prerequisites_data"; "custom_data";
   "task_type"; "task_status"].

Definition in_simple_properties (key : string) : bool :=
  existsb (String.eqb key) simple_properties.

(** [getattr(task, property_name, None)] *)
Definition getattr_or_none (t : Task) (property_name : string) : PyVal :=
  default PyNone (task_attrs t !! property_name).

(** [getattr(task, property_name)] *)
Definition getattr (t : Task) (property_name : string) : result PyVal :=
  of_option AttributeError (task_attrs t !! property_name).

(** [SimplePropertyTaskChangeRecord(task, property_name)]: reads the value the
    task holds when the record is made. *)
Definition SimplePropertyTaskChangeRecord_init (self : ref) (t : Task)
    (property_name : string) : TaskChangeRecord :=
  SimplePropertyTaskChangeRecord self property_name (getattr_or_none t property_name).

(** [add_change_record]: nothing happens while the constructor has not yet
    created the list. *)
Definition add_change_record (record : TaskChangeRecord) (t : Task) : Task :=
  match task_change_records t with
  | None => t
  | Some records => with_change_records (Some (records ++ [record])) t
  end.

(** The attributes that the constructors assign besides the entries of the
    payload.  They are the fields of [Task]; every other name is a key of
    [task_attrs]. *)
Definition structural_attributes : list string :=
  ["tasks"; "parent"; "resource_assignments"; "prerequisites"; "dependents";
   "change_records"].

(** [Task.__setattr__(self, key, value)] for a [key] that is not one of
    [structural_attributes]: a record is added when the property is mutable,
    and the value is stored.  (Assigning a structural attribute replaces the
    field; only the constructors do so, see [new_task] and [Task_init].) *)
Definition Task_setattr (self : ref) (key : string) (value : PyVal) (t : Task) : Task :=
  let t1 :=
    match mutable_simple_properties key with
    | Some _ => add_change_record (SimplePropertyTaskChangeRecord_init self t key) t
    | None => t
    end in
  with_attrs (<[key := value]> (task_attrs t1)) t1.

Definition setattr (self : ref) (key : string) (value : PyVal) (d : OmniPlanDocument)
  : OmniPlanDocument :=
  update_task self (Task_setattr self key value) d.

(** [del(self.change_records[:])] *)
Definition clear_change_records (t : Task) : Task :=
  match task_change_records t with
  | None => t
  | Some _ => with_change_records (Some []) t
  end.

Definition task_custom_data (t : Task) : result (gmap string string) :=
  v ← getattr t "custom_data";
  match v with
  | PyCustomData m => Ok m
  | _ => Raise TypeError
  end.

(** [custom_data_value(key)] *)
Definition custom_data_value (t : Task) (key : string) : result (option string) :=
  m ← task_custom_data t; Ok (m !! key).

Definition task_id (t : Task) : result Z :=
  v ← getattr t "id";
  match v with
  | PyWire (PlInt n) => Ok n
  | _ => Raise TypeError
  end.

(** ** Document: identifier index and custom-data index *)

(** One turn of the loop in [update_custom_data_value_to_task_map_for_task]:
    [setdefault(key, {}).setdefault(value, [])], then append unless present. *)
Definition register_pair (task : ref) (index : gmap string (gmap string (list ref)))
    (kv : string * string) : gmap string (gmap string (list ref)) :=
  let by_value := default ∅ (index !! kv.1) in
  let tasks := default [] (by_value !! kv.2) in
  let tasks' := if bool_decide (task ∈ tasks) then tasks else tasks ++ [task] in
  <[kv.1 := <[kv.2 := tasks']> by_value]> index.

Definition register_items (task : ref) (items : list (string * string))
    (index : gmap string (gmap string (list ref))) : gmap string (gmap string (list ref)) :=
  foldl (register_pair task) index items.

Definition update_custom_data_value_to_task_map_for_task (task : ref)
    (d : OmniPlanDocument) : result OmniPlanDocument :=
  t ← get_task task d;
  m ← task_custom_data t;
  Ok (with_index (register_items task (map_to_list m) (custom_data_value_to_task_map d)) d).

(** [tasks_for_custom_data_value(key, value)] *)
Definition index_lookup (index : gmap string (gmap string (list ref)))
    (key value : string) : list ref :=
  default [] (default ∅ (index !! key) !! value).

Definition tasks_for_custom_data_value (d : OmniPlanDocument) (key value : string)
  : list ref :=
  index_lookup (custom_data_value_to_task_map d) key value.

(** [task_for_id(id)], a [KeyError] for an unknown identifier. *)
Definition task_for_id (d : OmniPlanDocument) (id : Z) : result ref :=
  of_option KeyError (task_map d !! id).

Definition resource_for_id (d : OmniPlanDocument) (id : Z) : result ref :=
  of_option KeyError (resource_map d !! id).

(** [task_added(task)] *)
Definition task_added (task : ref) (d : OmniPlanDocument) : result OmniPlanDocument :=
  t ← get_task task d;
  id ← task_id t;
  update_custom_data_value_to_task_map_for_task task
    (with_task_map (<[id := task]> (task_map d)) d).

(** [set_custom_data_value(name, value)]: the dictionary is changed in place,
    the index is updated, and then the record is added. *)
Definition set_custom_data_value (self : ref) (name value : string)
    (d : OmniPlanDocument) : result OmniPlanDocument :=
  t ← get_task self d;
  m ← task_custom_data t;
  let d1 := update_task self
              (fun t => with_attrs (<["custom_data" := PyCustomData (<[name := value]> m)]>
                                      (task_attrs t)) t) d in
  d2 ← update_custom_data_value_to_task_map_for_task self d1;
  Ok (update_task self
        (add_change_record (SetCustomDataValueTaskChangeRecord self name value)) d2).

(** ** Task collections *)

(** [add_task(task)] on the collection [self] ([None]: the document). *)
Definition add_task (self : option ref) (task : ref) (d : OmniPlanDocument)
  : result OmniPlanDocument :=
  let d1 :=
    match self with
    | None => with_doc_tasks (doc_tasks d ++ [task]) d
    | Some r => update_task r (fun t => with_tasks (task_tasks t ++ [task]) t) d
    end in
  task_added task d1.

(** The children of a collection. *)
Definition children (d : OmniPlanDocument) (self : option ref) : list ref :=
  match self with
  | None => doc_tasks d
  | Some r => match task_heap d !! r with Some t => task_tasks t | None => [] end
  end.

(** [descendants()]: depth first, each child before its own descendants.
    The generator recursion follows references, so the traversal is given
    as many levels as there are task objects. *)
Fixpoint descendants_of (levels : nat) (heap : gmap ref Task) (cs : list ref) : list ref :=
  match levels with
  | O => []
  | S n =>
      flat_map (fun c =>
                  c :: descendants_of n heap
                         (match heap !! c with Some t => task_tasks t | None => [] end))
               cs
  end.

Definition descendants (d : OmniPlanDocument) (self : option ref) : list ref :=
  descendants_of (next_task d) (task_heap d) (children d self).

Definition all_tasks (d : OmniPlanDocument) : list ref := descendants d None.

(** ** Materializing tasks *)

Definition new_task (parent : option ref) (d : OmniPlanDocument) : ref * OmniPlanDocument :=
  let r := next_task d in
  (r, with_next_task (S r)
        (with_task_heap (<[r := mkTask parent [] [] [] [] ∅ None]> (task_heap d)) d)).

Section Materialize.
(** [Task(task_data, parent)], the recursive call. *)
Variable Task_new : Plist -> option ref -> OmniPlanDocument -> result (ref * OmniPlanDocument).

(** [add_tasks_for_task_data_list(task_data_list)] *)
Fixpoint add_tasks_for_task_data_list (self : option ref) (task_data_list : list Plist)
    (d : OmniPlanDocument) : result OmniPlanDocument :=
  match task_data_list with
  | [] => Ok d
  | task_data :: rest =>
      '(task, d1) ← Task_new task_data self d;
      d2 ← add_task self task d1;
      add_tasks_for_task_data_list self rest d2
  end.

(** The loop over [task_data.items()] in [Task.__init__]. *)
Fixpoint Task_init_items (self : ref) (items : list (string * Plist))
    (d : OmniPlanDocument) : result OmniPlanDocument :=
  match items with
  | [] => Ok d
  | (key, value) :: rest =>
      v ← match value_converter_for_property key with
          | Some c => decode_omniplan_value c value
          | None => Ok (PyWire value)
          end;
      if in_simple_properties key then
        Task_init_items self rest (setattr self key v d)
      else if String.eqb key "child_tasks" then
        d1 ← match value with
             | PlArray l => add_tasks_for_task_data_list (Some self) l d
             | PlDict [] => Ok d
             | PlStr EmptyString => Ok d
             | PlDict _ => Raise AttributeError
             | PlStr _ => Raise AttributeError
             | _ => Raise TypeError
             end;
        Task_init_items self rest d1
      else Raise (UnknownKey key)
  end.
End Materialize.

(** [simple_properties - set(task_data.keys())] *)
Definition missing_simple_properties (items : list (string * Plist)) : list string :=
  List.filter (fun p => negb (existsb (String.eqb p) (map fst items))) simple_properties.

(** [Task.__init__(self, task_data, parent)]; the result is the new object. *)
Fixpoint Task_init (task_data : Plist) (parent : option ref) (d : OmniPlanDocument)
    {struct task_data} : result (ref * OmniPlanDocument) :=
  match task_data with
  | PlDict items =>
      let '(self, d0) := new_task parent d in
      d1 ← Task_init_items Task_init self items d0;
      match missing_simple_properties items with
      | [] => Ok (self, update_task self (with_change_records (Some [])) d1)
      | missing => Raise (MissingKeys missing)
      end
  | _ => Raise AttributeError
  end.

(** ** Dependencies and resources *)

Definition add_dependent (dependency : TaskDependency) (t : Task) : Task :=
  with_dependents (task_dependents t ++ [dependency]) t.

Definition add_prerequisite (dependency : TaskDependency) (t : Task) : Task :=
  with_prerequisites (task_prerequisites t ++ [dependency]) t.

(** [dependent_tasks()] and [prerequisite_tasks()] *)
Definition dependent_tasks (t : Task) : list ref :=
  map dependent_task (task_dependents t).

Definition prerequisite_tasks (t : Task) : list ref :=
  map prerequisite_task (task_prerequisites t).

(** [TaskDependency(prerequisite_task, dependent_task, dependency_type)] *)
Definition TaskDependency_init (prerequisite dependent : ref) (type : string)
    (d : OmniPlanDocument) : OmniPlanDocument :=
  let self := mkTaskDependency prerequisite dependent type in
  update_task dependent (add_prerequisite self)
    (update_task prerequisite (add_dependent self) d).

(** Iterating a parsed value with [for x in value]. *)
Definition plist_iter (value : Plist) : result (list Plist) :=
  match value with
  | PlArray l => Ok l
  | PlDict entries => Ok (map (fun kv => PlStr (fst kv)) entries)
  | PlStr s => Ok (map (fun c => PlStr (String c EmptyString)) (list_ascii_of_string s))
  | _ => Raise TypeError
  end.

(** A parsed value used as a key of an identifier index. *)
Definition lookup_id (index : gmap Z ref) (key : Plist) : result ref :=
  match key with
  | PlInt n => of_option KeyError (index !! n)
  | PlBool b => of_option KeyError (index !! (if b then 1 else 0))
  | PlArray _ | PlDict _ => Raise TypeError
  | _ => Raise KeyError
  end.

(** The body of the inner loop of [process_dependencies]. *)
Definition process_dependency (dependency_data_item : Plist) (d : OmniPlanDocument)
  : result OmniPlanDocument :=
  p ← plist_item "prerequisite_task_id" dependency_data_item;
  prerequisite ← lookup_id (task_map d) p;
  q ← plist_item "dependent_task_id" dependency_data_item;
  dependent ← lookup_id (task_map d) q;
  ty ← plist_item "dependency_type" dependency_data_item;
  ty ← plist_int ty;
  type ← of_option StructError (FourCharacterCode.value_to_string ty);
  Ok (TaskDependency_init prerequisite dependent type d).

Fixpoint process_dependency_items (items : list Plist) (d : OmniPlanDocument)
  : result OmniPlanDocument :=
  match items with
  | [] => Ok d
  | item :: rest => d1 ← process_dependency item d; process_dependency_items rest d1
  end.

Definition prerequisites_data (t : Task) : result (list Plist) :=
  v ← getattr t "prerequisites_data";
  match v with
  | PyWire p => plist_iter p
  | _ => Raise TypeError
  end.

Fixpoint process_dependencies_of (ts : list ref) (d : OmniPlanDocument)
  : result OmniPlanDocument :=
  match ts with
  | [] => Ok d
  | task :: rest =>
      t ← get_task task d;
      items ← prerequisites_data t;
      d1 ← process_dependency_items items d;
      process_dependencies_of rest d1
  end.

(** [process_dependencies()] *)
Definition process_dependencies (d : OmniPlanDocument) : result OmniPlanDocument :=
  process_dependencies_of (all_tasks d) d.

(** [ResourceAssignment(resource, task, units)] *)
Definition ResourceAssignment_init (resource task : ref) (units : Z) (d : OmniPlanDocument)
  : ResourceAssignment * OmniPlanDocument :=
  let self := mkResourceAssignment resource task units in
  let rh := alter (fun r => mkResource (res_id r) (res_name r) (res_assignments r ++ [self]))
                  resource (resource_heap d) in
  (self,
   update_task task
     (fun t => with_resource_assignments (task_resource_assignments t ++ [self]) t)
     (with_resource_heap rh (next_resource d) d)).

(** [assigned_resources()] *)
Definition assigned_resources (t : Task) : list ref :=
  map ra_resource (task_resource_assignments t).

(** [assigned_tasks()] *)
Definition assigned_tasks (r : Resource) : list ref :=
  map ra_task (res_assignments r).

(** [assign_to_resource(resource)] *)
Definition assign_to_resource (self resource : ref) (d : OmniPlanDocument)
  : OmniPlanDocument :=
  let '(assignment, d1) := ResourceAssignment_init resource self 1 d in
  update_task self (add_change_record (AddResourceAssignmentTaskChangeRecord assignment)) d1.

Fixpoint parse_assignments (resource : ref) (items : list Plist) (d : OmniPlanDocument)
  : result OmniPlanDocument :=
  match items with
  | [] => Ok d
  | assignment_data :: rest =>
      k ← plist_item "task_id" assignment_data;
      task ← lookup_id (task_map d) k;
      u ← plist_item "units" assignment_data;
      u ← plist_int u;
      parse_assignments resource rest (ResourceAssignment_init resource task u d).2
  end.

(** [parse_resources()] over the entries of [document_data['resources']]. *)
Fixpoint parse_resources_of (items : list Plist) (d : OmniPlanDocument)
  : result OmniPlanDocument :=
  match items with
  | [] => Ok d
  | resource_data :: rest =>
      i ← plist_item "id" resource_data; id ← plist_int i;
      n ← plist_item "name" resource_data; name ← plist_str n;
      let r := next_resource d in
      let d1 := with_resource_map (<[id := r]> (resource_map d))
                  (with_resource_heap (<[r := mkResource id name []]> (resource_heap d))
                                      (S r) d) in
      a ← plist_item "task_assignments" resource_data;
      assignments ← plist_iter a;
      d2 ← parse_assignments r assignments d1;
      parse_resources_of rest d2
  end.

(** [parse_selection()] *)
Definition parse_selection (document_data : Plist) (d : OmniPlanDocument)
  : result OmniPlanDocument :=
  t ← plist_item "selected_task_ids" document_data;
  tids ← plist_iter t;
  ts ← map_result (lookup_id (task_map d)) tids;
  r ← plist_item "selected_resource_ids" document_data;
  rids ← plist_iter r;
  rs ← map_result (lookup_id (resource_map d)) rids;
  Ok (with_selection (selected_tasks d ++ ts) (selected_resources d ++ rs) d).

(** [parse_document_data()] *)
Definition parse_document_data (document_data : Plist) (d : OmniPlanDocument)
  : result OmniPlanDocument :=
  c ← plist_item "child_tasks" document_data;
  task_data_list ← plist_iter c;
  d1 ← add_tasks_for_task_data_list Task_init None task_data_list d;
  r ← plist_item "resources" document_data;
  resources ← plist_iter r;
  d2 ← parse_resources_of resources d1;
  d3 ← process_dependencies d2;
  parse_selection document_data d3.

(** [OmniPlanDocument(name)], given the payload the query bridge returned. *)
Definition OmniPlanDocument_new (name : string) : OmniPlanDocument :=
  mkDoc name [] ∅ ∅ ∅ [] [] ∅ 0%nat ∅ 0%nat.

Definition OmniPlanDocument_init (name : string) (document_data : Plist)
  : result OmniPlanDocument :=
  parse_document_data document_data (OmniPlanDocument_new name).

(** ** Rendering change records *)

Definition encode_omniplan_value (c : Converter) (value : PyVal) : result PyVal :=
  match c with
  | WorkDayTimeIntervalVC =>
      match value with
      | PyInterval w => Ok (PyInt (WorkDayTimeIntervalValueConverter.encode_omniplan_value w))
      | _ => Raise AttributeError
      end
  | CustomDataVC =>
      match value with
      | PyCustomData m => Ok (PyWire (CustomDataValueConverter.encode_omniplan_value m))
      | _ => Raise AttributeError
      end
  | FourCharacterCodeVC =>
      match value with
      | PyWire (PlStr s) =>
          v ← of_option StructError (FourCharacterCodeValueConverter.encode_omniplan_value s);
          Ok (PyInt v)
      | _ => Raise StructError
      end
  | UTCDateVC => Ok value
  end.

(** [converted_value_for_property_and_value] *)
Definition converted_value_for_property_and_value (property_name : string) (value : PyVal)
  : result PyVal :=
  match value_converter_for_property property_name with
  | Some c => encode_omniplan_value c value
  | None => Ok value
  end.

(** [applescript_value_for_property_and_value], as the text that [format]
    later inserts; the template of a quoted value is unicode. *)
Definition applescript_value_for_property_and_value (property_name : string) (value : PyVal)
  : result string :=
  let value_description := mutable_simple_properties property_name in
  v ← converted_value_for_property_and_value property_name value;
  desc ← of_option AttributeError value_description;
  if quoted desc then
    match v with
    | PyWire (PlStr s) => uformat (dq ++ "{}" ++ dq) [escape_quotes s]
    | _ => Raise AttributeError
    end
  else
    match v with
    | PyWire (PlInt n) => Ok (str_int n)
    | PyWire (PlStr s) => Ok s
    | _ => Raise TypeError
    end.

(** [applescript_name_for_property] *)
Definition applescript_name_for_property (property_name : string) : result string :=
  desc ← of_option AttributeError (mutable_simple_properties property_name);
  Ok (default property_name (applescript_property_name desc)).

Definition custom_data_template : string :=
  "make custom data entry with properties {{name:" ++ dq ++ "{}" ++ dq
  ++ ", value:" ++ dq ++ "{}" ++ dq ++ "}}".

(** [change_applescript_code()] of each kind of record; the three templates
    are byte strings.  A simple-property record renders the value the task
    holds when the record is rendered. *)
Definition change_applescript_code (d : OmniPlanDocument) (record : TaskChangeRecord)
  : result string :=
  match record with
  | SimplePropertyTaskChangeRecord task property_name _ =>
      t ← get_task task d;
      v ← getattr t property_name;
      applescript_value ← applescript_value_for_property_and_value property_name v;
      applescript_name ← applescript_name_for_property property_name;
      format "set {} to {}" [applescript_name; applescript_value]
  | AddResourceAssignmentTaskChangeRecord a =>
      r ← get_resource (ra_resource a) d;
      t ← get_task (ra_task a) d;
      id ← task_id t;
      format "assign resource {} to task {} units {}"
             [str_int (res_id r); str_int id; str_int (ra_units a)]
  | SetCustomDataValueTaskChangeRecord _ name value =>
      format custom_data_template [name; value]
  end.

(** The two wrappers are unicode templates. *)
Definition document_wrapper_template : string :=
  nl ++ "        tell document " ++ dq ++ "{}" ++ dq ++ " of application "
     ++ dq ++ "OmniPlan" ++ dq ++ nl
     ++ "            {{}}" ++ nl
     ++ "        end tell" ++ nl
     ++ "        ".

Definition task_wrapper_template : string :=
  nl ++ "            tell task {}" ++ nl
     ++ "                {{}}" ++ nl
     ++ "            end tell" ++ nl
     ++ "        ".

(** [OmniPlanDocument.applescript_target_wrapper()] *)
Definition document_applescript_target_wrapper (d : OmniPlanDocument) : result string :=
  uformat document_wrapper_template [doc_name d].

(** [Task.applescript_target_wrapper()] *)
Definition task_applescript_target_wrapper (self : ref) (d : OmniPlanDocument)
  : result string :=
  t ← get_task self d;
  id ← task_id t;
  task_target_code ← uformat task_wrapper_template [str_int id];
  w ← document_applescript_target_wrapper d;
  uformat w [task_target_code].

(** ** Commit *)

Inductive Event :=
| Printed (text : string)      (* [print] of the dry run *)
| Ran (script : string).       (* [AppleScript(script).run()] *)

(** What a call leaves behind: the objects, the effects performed in order,
    and the exception it ended with, if any. *)
Record Outcome := mkOutcome {
  state : OmniPlanDocument;
  trace : list Event;
  raised : option Exn
}.

(** The script [commit_changes] assembles from the two groups of records:
    the joined operations of each group are formatted into its wrapper. *)
Definition commit_script (self : ref) (d : OmniPlanDocument)
    (records_targeting_task records_targeting_document : list TaskChangeRecord)
  : result string :=
  task_ops ← map_result (change_applescript_code d) records_targeting_task;
  w ← task_applescript_target_wrapper self d;
  task_code ← uformat w [join nl task_ops];
  doc_ops ← map_result (change_applescript_code d) records_targeting_document;
  dw ← document_applescript_target_wrapper d;
  doc_code ← uformat dw [join nl doc_ops];
  Ok (task_code ++ doc_code)%string.

Section Commit.
(** The mutation bridge: running a script through [osascript]. *)
Variable osascript : string -> result string.

(** [commit_changes(dry_run)] *)
Definition commit_changes (dry_run : bool) (self : ref) (d : OmniPlanDocument) : Outcome :=
  match get_task self d with
  | Raise e => mkOutcome d [] (Some e)
  | Ok t =>
      match task_change_records t with
      | None => mkOutcome d [] (Some AttributeError)
      | Some change_records =>
          let records_targeting_document := List.filter targets_document change_records in
          let records_targeting_task :=
            List.filter (fun r => negb (targets_document r)) change_records in
          let d1 := update_task self clear_change_records d in
          match commit_script self d1 records_targeting_task records_targeting_document with
          | Raise e => mkOutcome d1 [] (Some e)
          | Ok code =>
              if dry_run then mkOutcome d1 [Printed code] None
              else
                match osascript code with
                | Ok _ => mkOutcome d1 [Ran code] None
                | Raise e => mkOutcome d1 [Ran code] (Some e)
                end
          end
      end
  end.
End Commit.

(** The text of a rendered scope: what the wrappers produce around [body]
    when no brace interferes. *)
Definition document_scope (name body : string) : string :=
  nl ++ "        tell document " ++ dq ++ name ++ dq ++ " of application "
     ++ dq ++ "OmniPlan" ++ dq ++ nl
     ++ "            " ++ body ++ nl
     ++ "        end tell" ++ nl
     ++ "        ".

Definition task_scope (id : Z) (body : string) : string :=
  nl ++ "            tell task " ++ str_int id ++ nl
     ++ "                " ++ body ++ nl
     ++ "            end tell" ++ nl
     ++ "        ".

(** The operations of a commit in the order in which the script lists them:
    the task scope comes first, the document scope second. *)
Definition commit_operations (d : OmniPlanDocument) (change_records : list TaskChangeRecord)
  : result (list string) :=
  task_ops ← map_result (change_applescript_code d)
                        (List.filter (fun r => negb (targets_document r)) change_records);
  doc_ops ← map_result (change_applescript_code d)
                       (List.filter targets_document change_records);
  Ok (task_ops ++ doc_ops).

(** ** A small document

    Task A (id 1) with child B (id 2), and task C (id 3); B has C as its
    prerequisite; B and C hold custom data k = X; resource R (id 7) is
    assigned to B. *)
Module Sample.

Definition task_data (id : Z) (name : string) (prerequisites custom_data child_tasks : list Plist)
  : Plist :=
  PlDict [("id", PlInt id); ("name", PlStr name); ("completed_effort", PlInt 0);
          ("duration", PlInt 28800); ("effort", PlInt 28800); ("ending_date", PlDate 100);
          ("ending_constraint_date", PlStr ""); ("outline_number", PlStr "1");
          ("priority", PlInt 0); ("remaining_effort", PlInt 28800);
          ("starting_constraint_date", PlStr ""); ("starting_date", PlDate 50);
          ("task_status", PlInt 1330664559); ("task_type", PlInt 1330664531);
          ("total_cost", PlInt 0); ("child_tasks", PlArray child_tasks);
          ("custom_data", PlArray custom_data);
          ("prerequisites_data", PlArray prerequisites)].

Definition dependency (prerequisite dependent : Z) : Plist :=
  PlDict [("dependency_type", PlInt 1330664531); ("dependent_task_id", PlInt dependent);
          ("prerequisite_task_id", PlInt prerequisite)].

Definition custom (name value : string) : Plist :=
  PlDict [("name", PlStr name); ("value", PlStr value)].

Definition document_data : Plist :=
  PlDict [("child_tasks",
           PlArray [task_data 1 "A" [] []
                      [task_data 2 "B" [dependency 3 2] [custom "k" "X"] []];
                    task_data 3 "C" [] [custom "k" "X"] []]);
          ("resources",
           PlArray [PlDict [("id", PlInt 7); ("name", PlStr "R");
                            ("task_assignments",
                             PlArray [PlDict [("task_id", PlInt 2); ("units", PlInt 1)]])]]);
          ("selected_task_ids", PlArray [PlInt 3]);
          ("selected_resource_ids", PlArray [])].

Definition empty_document : OmniPlanDocument := mkDoc "test.oplx" [] ∅ ∅ ∅ [] [] ∅ 0%nat ∅ 0%nat.

Definition blank : Task := mkTask None [] [] [] [] ∅ None.

Definition A : ref := 0%nat.
Definition B : ref := 1%nat.
Definition C : ref := 2%nat.
Definition R : ref := 0%nat.

(** The loaded document; tasks A, B, C are the objects 0, 1, 2. *)
Definition document : OmniPlanDocument :=
  Eval vm_compute in
    match OmniPlanDocument_init "test.oplx" document_data with
    | Ok d => d
    | Raise _ => empty_document
    end.

Definition task_B : Task :=
  Eval vm_compute in default blank (task_heap document !! B).

Definition task_C : Task :=
  Eval vm_compute in default blank (task_heap document !! C).


Definition osascript (script : string) : result string := Ok EmptyString.

(** A bridge whose process cannot be started. *)
Definition broken_osascript (script : string) : result string := Raise OSError.

(** B is assigned to R and then renamed; nothing is committed yet. *)
Definition edited : OmniPlanDocument :=
  Eval vm_compute in setattr B "name" (PyStr "hello") (assign_to_resource B R document).

Definition task_B_edited : Task :=
  Eval vm_compute in default blank (task_heap edited !! B).

(** B's effort is set to a text, which cannot be rendered as a duration. *)
Definition misassigned : OmniPlanDocument :=
  Eval vm_compute in setattr B "effort" (PyStr "soon") document.

Definition task_B_misassigned : Task :=
  Eval vm_compute in default blank (task_heap misassigned !! B).

(** B's custom data k is changed from X to Y. *)
Definition retagged : OmniPlanDocument :=
  Eval vm_compute in
    match set_custom_data_value B "k" "Y" document with
    | Ok d => d
    | Raise _ => empty_document
    end.

Definition task_B_retagged : Task :=
  Eval vm_compute in default blank (task_heap retagged !! B).

End Sample.

(** ** Statements about change records *)

(** The value a change record carries. *)
Definition record_value (record : TaskChangeRecord) : option PyVal :=
  match record with
  | SimplePropertyTaskChangeRecord _ _ old_value => Some old_value
  | SetCustomDataValueTaskChangeRecord _ _ value => Some (PyStr value)
  | AddResourceAssignmentTaskChangeRecord _ => None
  end.

(** "The record appended by [set_custom_data_value] carries the value the
    field had before the call." *)
Definition custom_data_record_has_old_value : Prop :=
  forall (d d' : OmniPlanDocument) (self : ref) (t t' : Task) (name value old : string),
    task_heap d !! self = Some t ->
    custom_data_value t name = Ok (Some old) ->
    set_custom_data_value self name value d = Ok d' ->
    task_heap d' !! self = Some t' ->
    exists records record,
      task_change_records t' = Some (records ++ [record])
      /\ record_value record = Some (PyStr old).

(** The text of a rendered property change. *)
Definition set_operation (applescript_name applescript_value : string) : string :=
  "set " ++ applescript_name ++ " to " ++ applescript_value.

(** ** Statements about a commit without pending records *)


(** ** Statements about the order of a commit *)

(** "The script lists one operation per record, in the order in which the
    records were made." *)
Definition commit_operations_in_recorded_order : Prop :=
  forall (d : OmniPlanDocument) (self : ref) (t : Task)
         (records : list TaskChangeRecord) (ops : list string),
    task_heap d !! self = Some t ->
    task_change_records t = Some records ->
    map_result (change_applescript_code d) records = Ok ops ->
    commit_operations d records = Ok ops.

(** ** Statements about the custom-data index *)

(** No bucket of the index lists a task twice. *)
Definition index_has_no_duplicates (d : OmniPlanDocument) : Prop :=
  forall key value : string, NoDup (tasks_for_custom_data_value d key value).

(** A constructor relates the document before it to the document after it
    by [Q] whenever it succeeds on [p]. *)
Definition constructor_preserves (Q : OmniPlanDocument -> OmniPlanDocument -> Prop)
    (Task_new : Plist -> option ref -> OmniPlanDocument -> result (ref * OmniPlanDocument))
    (p : Plist) : Prop :=
  forall parent d r d', Task_new p parent d = Ok (r, d') -> Q d d'.

(** ** What the later steps of a load leave alone *)

(** The same object before and after: same attributes and children, and
    dependency links only added at the end. *)
Definition task_frame (o o' : option Task) : Prop :=
  match o, o' with
  | None, None => True
  | Some t, Some t' =>
      task_attrs t' = task_attrs t
      /\ task_tasks t' = task_tasks t
      /\ (exists l, task_prerequisites t' = task_prerequisites t ++ l)
      /\ (exists l, task_dependents t' = task_dependents t ++ l)
  | _, _ => False
  end.

(** The same tree, identifier index and custom-data index before and after. *)
Definition frame (d d' : OmniPlanDocument) : Prop :=
  custom_data_value_to_task_map d' = custom_data_value_to_task_map d
  /\ task_map d' = task_map d
  /\ doc_tasks d' = doc_tasks d
  /\ next_task d' = next_task d
  /\ forall r, task_frame (task_heap d !! r) (task_heap d' !! r).

(** ** Statements about the constructor's errors *)

(** A key the constructor does not know. *)
Definition unknown_key (key : string) : Prop :=
  in_simple_properties key = false /\ key <> "child_tasks"%string.

(** "Whenever a required property is absent from the bag, the error names
    it." *)
Definition missing_property_is_always_named : Prop :=
  forall (items : list (string * Plist)) (parent : option ref) (d : OmniPlanDocument)
         (property : string),
    property ∈ simple_properties ->
    property ∉ map fst items ->
    exists missing,
      Task_init (PlDict items) parent d = Raise (MissingKeys missing)
      /\ property ∈ missing.

(** ** Statements about the converters *)

(** The record [{'name': key, 'value': value}]. *)
Definition custom_pair (kv : string * string) : Plist :=
  PlDict [("name"%string, PlStr kv.1); ("value"%string, PlStr kv.2)].

(** ** Statements about the loaded tree *)

(** [Task(task_data, parent)] meets the specification [Q] on [p]: parent,
    document before, new object, document after. *)
Definition constructor_meets
    (Q : option ref -> OmniPlanDocument -> ref -> OmniPlanDocument -> Prop)
    (p : Plist) : Prop :=
  forall parent d self d', Task_init p parent d = Ok (self, d') -> Q parent d self d'.

(** The task objects are exactly the references below [next_task]. *)
Definition objects_are_numbered (d : OmniPlanDocument) : Prop :=
  forall r : ref, is_Some (task_heap d !! r) <-> (r < next_task d)%nat.

(** The traversal from the children of [self] yields the objects created
    after [self], in the order of their creation, once it is given enough
    levels. *)
Definition subtree_enumerated (d : OmniPlanDocument) (self : ref) : Prop :=
  exists t,
    task_heap d !! self = Some t
    /\ forall n, (next_task d - S self <= n)%nat ->
                 descendants_of n (task_heap d) (task_tasks t)
                 = seq (S self) (next_task d - S self).

(** What the constructor guarantees about the tree when it returns. *)
Definition subtree_built (parent : option ref) (d : OmniPlanDocument) (self : ref)
    (d' : OmniPlanDocument) : Prop :=
  self = next_task d
  /\ (self < next_task d')%nat
  /\ (forall r, (r < self)%nat -> task_heap d' !! r = task_heap d !! r)
  /\ doc_tasks d' = doc_tasks d
  /\ subtree_enumerated d' self.

(** What holds of the tree while the constructor is at work. *)
Definition subtree_building (parent : option ref) (d dc : OmniPlanDocument) : Prop :=
  (S (next_task d) <= next_task dc)%nat
  /\ (forall r, (r < next_task d)%nat -> task_heap dc !! r = task_heap d !! r)
  /\ doc_tasks dc = doc_tasks d
  /\ subtree_enumerated dc (next_task d).

(** The traversal from the document yields all objects in the order of their
    creation. *)
Definition document_enumerated (d : OmniPlanDocument) : Prop :=
  forall n, (next_task d <= n)%nat ->
            descendants_of n (task_heap d) (doc_tasks d) = seq 0 (next_task d).

(** The constructor creates the object [next_task d], creates further
    objects after it, and leaves the objects created before it untouched. *)
Definition fresh_built (parent : option ref) (d : OmniPlanDocument) (self : ref)
    (d' : OmniPlanDocument) : Prop :=
  self = next_task d
  /\ (next_task d < next_task d')%nat
  /\ forall r : ref, (r < next_task d)%nat -> task_heap d' !! r = task_heap d !! r.

Definition fresh_building (parent : option ref) (d dc : OmniPlanDocument) : Prop :=
  (next_task d < next_task dc)%nat
  /\ forall r : ref, (r < next_task d)%nat -> task_heap dc !! r = task_heap d !! r.

(** ** Statements about the indices of a loaded document *)

(** The task holds the identifier [id]. *)
Definition has_id (t : Task) (id : Z) : Prop := task_id t = Ok id.

(** The task holds the custom data pair [kv]. *)
Definition has_custom_data (t : Task) (kv : string * string) : Prop :=
  exists m, task_custom_data t = Ok m /\ m !! kv.1 = Some kv.2.

(** [task_map[id]] is the task [r]; [task_map] has the key [id]. *)
Definition id_listed (d : OmniPlanDocument) (id : Z) (r : ref) : Prop :=
  task_map d !! id = Some r.

Definition id_known (d : OmniPlanDocument) (id : Z) (r : ref) : Prop :=
  is_Some (task_map d !! id).

(** The bucket of the pair [kv] lists the task [r]. *)
Definition custom_data_listed (d : OmniPlanDocument) (kv : string * string) (r : ref)
  : Prop :=
  r ∈ tasks_for_custom_data_value d kv.1 kv.2.

(** An index while the objects from [lo] on are created, starting from the
    document [d0]: what was covered stays covered, every object from [lo] on
    is covered under what it holds, and what is listed was listed in [d0] or
    is an object from [lo] on that holds the key. *)
Definition built_between {K : Type}
    (listed covers : OmniPlanDocument -> K -> ref -> Prop) (has : Task -> K -> Prop)
    (d0 : OmniPlanDocument) (lo : nat) (dc : OmniPlanDocument) : Prop :=
  (forall k r, covers d0 k r -> covers dc k r)
  /\ (forall (r : ref) t k,
        (lo <= r < next_task dc)%nat -> task_heap dc !! r = Some t -> has t k ->
        covers dc k r)
  /\ (forall k (r : ref),
        listed dc k r ->
        listed d0 k r
        \/ ((lo <= r < next_task dc)%nat
            /\ exists t, task_heap dc !! r = Some t /\ has t k)).

(** Every holder of custom data is listed under each pair it holds. *)
Definition index_lists_every_holder (d : OmniPlanDocument) : Prop :=
  forall (r : ref) t m key value,
    task_heap d !! r = Some t -> task_custom_data t = Ok m -> m !! key = Some value ->
    r ∈ tasks_for_custom_data_value d key value.

(** ** The parent chain *)

(** [root()]: follows [parent] up to the collection that has none; [None]
    is the document, whose [parent] is [None].  The recursion follows
    references, so it is given a number of levels; the result [None] means
    that the levels ran out or that an object is missing. *)
Fixpoint root_of (levels : nat) (heap : gmap ref Task) (self : option ref)
  : option (option ref) :=
  match self with
  | None => Some None
  | Some r =>
      match levels with
      | O => None
      | S n =>
          match heap !! r with
          | Some t => root_of n heap (task_parent t)
          | None => None
          end
      end
  end.

(** [root()] and [document()] of a collection of the document [d]. *)
Definition root (d : OmniPlanDocument) (self : option ref) : option (option ref) :=
  root_of (next_task d) (task_heap d) self.

Definition document (d : OmniPlanDocument) (self : option ref) : option (option ref) :=
  root d self.

(** [level()]: [0] without a parent, else [self.parent.level() + 1]. *)
Fixpoint level_of (levels : nat) (heap : gmap ref Task) (self : option ref) : option nat :=
  match self with
  | None => Some 0%nat
  | Some r =>
      match levels with
      | O => None
      | S n =>
          match heap !! r with
          | Some t =>
              match level_of n heap (task_parent t) with
              | Some l => Some (l + 1)%nat
              | None => None
              end
          | None => None
          end
      end
  end.

Definition level (d : OmniPlanDocument) (self : option ref) : option nat :=
  level_of (next_task d) (task_heap d) self.

(** The same object as far as the tree goes: same parent, same children. *)
Definition same_links (o o' : option Task) : Prop :=
  match o, o' with
  | None, None => True
  | Some t, Some t' => task_parent t' = task_parent t /\ task_tasks t' = task_tasks t
  | _, _ => False
  end.

(** The collection [p] is the document (when [lo] is [0]) or an object from
    [lo - 1] on and below [next]. *)
Definition parent_in_range (lo next : nat) (p : option ref) : Prop :=
  match p with
  | Some q => (lo <= S q)%nat /\ (q < next)%nat
  | None => lo = 0%nat
  end.

(** The tree among the objects from [lo] on: each one is listed by the
    collection that is its parent, an object created before it; and what a
    collection lists is an object whose parent it is. *)
Definition tree_between (lo : nat) (dc : OmniPlanDocument) : Prop :=
  (forall r : ref,
     (lo <= r < next_task dc)%nat ->
     exists t, task_heap dc !! r = Some t
               /\ r ∈ children dc (task_parent t)
               /\ parent_in_range lo r (task_parent t))
  /\ (forall p (c : ref),
        parent_in_range lo (next_task dc) p -> c ∈ children dc p ->
        (c < next_task dc)%nat
        /\ exists t, task_heap dc !! c = Some t /\ task_parent t = p).

(** What the constructor guarantees about the links of the new object and
    of the objects below it. *)
Definition task_built (parent : option ref) (d : OmniPlanDocument) (self : ref)
    (d' : OmniPlanDocument) : Prop :=
  (exists t, task_heap d' !! self = Some t /\ task_parent t = parent)
  /\ doc_tasks d' = doc_tasks d
  /\ tree_between (S self) d'.

(** The same parents before and after. *)
Definition same_parents (d d' : OmniPlanDocument) : Prop :=
  forall r : ref, task_parent <$> task_heap d' !! r = task_parent <$> task_heap d !! r.

(** * Theorems *)

Section FourCC_facts.
Import FourCharacterCode.

Lemma ord_range c : 0 <= ord c < 256.
Proof.
  unfold ord. pose proof (N_ascii_bounded c). lia.
Qed.

Lemma ord_chr b : 0 <= b < 256 -> ord (chr b) = b.
Proof.
  intros Hb. unfold ord, chr.
  rewrite N_ascii_embedding by lia. lia.
Qed.

Lemma chr_ord c : chr (ord c) = c.
Proof.
  unfold ord, chr. rewrite N2Z.id. apply ascii_N_embedding.
Qed.

(** Packing a value of the signed range and unpacking the bytes gives the
    value back. *)
Lemma unpack_pack v s :
  value_to_string v = Some s -> string_to_value s = Some v.
Proof.
  unfold value_to_string, INT_MIN, INT_MAX.
  destruct (_ && _) eqn:Hr; [|discriminate].
  apply andb_true_iff in Hr as [Hlo Hhi].
  apply Z.leb_le in Hlo, Hhi.
  intros [= <-]. cbn [string_to_value].
  set (u := v mod 2 ^ 32).
  assert (Hu : 0 <= u < 2 ^ 32) by (apply Z.mod_pos_bound; lia).
  rewrite !ord_chr.
  2-5: clear -Hu; Z.div_mod_to_equations; lia.
  f_equal.
  assert (Hsum : u / 2 ^ 24 * 2 ^ 24 + (u / 2 ^ 16) mod 256 * 2 ^ 16
                 + (u / 2 ^ 8) mod 256 * 2 ^ 8 + u mod 256 = u)
    by (clear -Hu; Z.div_mod_to_equations; lia).
  rewrite Hsum.
  destruct (u <? 2 ^ 31) eqn:Hs;
    [apply Z.ltb_lt in Hs | apply Z.ltb_ge in Hs];
    subst u; Z.div_mod_to_equations; lia.
Qed.

(** Unpacking any four bytes and packing the value gives the bytes back. *)
Lemma pack_unpack s v :
  string_to_value s = Some v -> value_to_string v = Some s.
Proof.
  destruct s as [|a [|b [|c [|d [|]]]]]; try discriminate.
  cbn [string_to_value]. intros [= <-].
  pose proof (ord_range a). pose proof (ord_range b).
  pose proof (ord_range c). pose proof (ord_range d).
  set (u := ord a * 2 ^ 24 + ord b * 2 ^ 16 + ord c * 2 ^ 8 + ord d).
  assert (Hu : 0 <= u < 2 ^ 32) by (subst u; lia).
  set (v := if u <? 2 ^ 31 then u else u - 2 ^ 32).
  assert (Hv : - 2 ^ 31 <= v <= 2 ^ 31 - 1 /\ v mod 2 ^ 32 = u).
  { subst v. destruct (u <? 2 ^ 31) eqn:Hs;
      [apply Z.ltb_lt in Hs | apply Z.ltb_ge in Hs];
      (split; [lia|]); Z.div_mod_to_equations; lia. }
  destruct Hv as [Hv Hm].
  unfold value_to_string, INT_MIN, INT_MAX.
  replace ((- 2 ^ 31 <=? v) && (v <=? 2 ^ 31 - 1)) with true
    by (symmetry; apply andb_true_iff; split; apply Z.leb_le; lia).
  rewrite Hm.
  replace (u / 2 ^ 24) with (ord a)
    by (subst u; clear -H H0 H1 H2; Z.div_mod_to_equations; lia).
  replace ((u / 2 ^ 16) mod 256) with (ord b)
    by (subst u; clear -H H0 H1 H2; Z.div_mod_to_equations; lia).
  replace ((u / 2 ^ 8) mod 256) with (ord c)
    by (subst u; clear -H H0 H1 H2; Z.div_mod_to_equations; lia).
  replace (u mod 256) with (ord d)
    by (subst u; clear -H H0 H1 H2; Z.div_mod_to_equations; lia).
  now rewrite !chr_ord.
Qed.

Lemma printable4_unpacks s :
  printable4 s = true -> exists v, string_to_value s = Some v.
Proof.
  destruct s as [|a [|b [|c [|d [|]]]]]; try discriminate.
  intros _. eexists. reflexivity.
Qed.

End FourCC_facts.

(** C7: four-character-code conversion is an exact inverse pair.  The value
    1330664531 decodes to "OPTS" and "OPTS" encodes to 1330664531; every
    value [v] that is the code of four printable characters is decoded and
    encoded back to [v]; every string [s] of four printable characters is
    encoded and decoded back to [s]. *)
Theorem four_character_code_inverse_pair :
  FourCharacterCodeValueConverter.decode_omniplan_value 1330664531 = Some "OPTS"%string
  /\ FourCharacterCodeValueConverter.encode_omniplan_value "OPTS" = Some 1330664531
  /\ (forall (v : Z) (s : string),
         FourCharacterCode.printable4 s = true ->
         FourCharacterCodeValueConverter.encode_omniplan_value s = Some v ->
         FourCharacterCodeValueConverter.decode_omniplan_value v
           ≫= FourCharacterCodeValueConverter.encode_omniplan_value = Some v)
  /\ (forall s : string,
         FourCharacterCode.printable4 s = true ->
         FourCharacterCodeValueConverter.encode_omniplan_value s
           ≫= FourCharacterCodeValueConverter.decode_omniplan_value = Some s).
Proof.
  unfold FourCharacterCodeValueConverter.decode_omniplan_value,
    FourCharacterCodeValueConverter.encode_omniplan_value.
  split; [reflexivity|]. split; [reflexivity|]. split.
  - intros v s _ Hs.
    rewrite (pack_unpack _ _ Hs). cbn. exact Hs.
  - intros s Hp.
    destruct (printable4_unpacks _ Hp) as [v Hv].
    rewrite Hv. cbn. exact (pack_unpack _ _ Hv).
Qed.

Lemma four_character_code_inverse_pair_witness :
  FourCharacterCodeValueConverter.decode_omniplan_value 1330664531
    ≫= FourCharacterCodeValueConverter.encode_omniplan_value = Some 1330664531
  /\ FourCharacterCodeValueConverter.encode_omniplan_value "OPTm"
       ≫= FourCharacterCodeValueConverter.decode_omniplan_value = Some "OPTm"%string.
Proof.
  destruct four_character_code_inverse_pair as (_ & _ & Hv & Hs).
  split.
  - apply (Hv 1330664531 "OPTS"%string); reflexivity.
  - apply (Hs "OPTm"%string); reflexivity.
Defined.

(** C10: a falsy [seconds] argument counts as absent.  With nonzero
    [workdays = w], [seconds = 0] or no [seconds] gives [w * 28800] seconds;
    [seconds = 0] alone gives 0; a nonzero [seconds] wins over any
    [workdays]. *)
Theorem falsy_seconds_is_absent (w : Z) (Hw : w <> 0) :
  WorkDayTimeInterval.seconds (WorkDayTimeInterval.init (Some 0) (Some w)) = w * 28800
  /\ WorkDayTimeInterval.seconds (WorkDayTimeInterval.init None (Some w)) = w * 28800
  /\ WorkDayTimeInterval.seconds (WorkDayTimeInterval.init (Some 0) None) = 0
  /\ (forall (s : Z) (workdays : option Z),
         s <> 0 ->
         WorkDayTimeInterval.seconds (WorkDayTimeInterval.init (Some s) workdays) = s).
Proof.
  unfold WorkDayTimeInterval.init, WorkDayTimeInterval.seconds,
    WorkDayTimeInterval.truthy, WorkDayTimeInterval.SECONDS_PER_WORKDAY.
  assert (Hwb : (w =? 0) = false) by (apply Z.eqb_neq; exact Hw).
  cbn [Z.eqb negb default]. rewrite Hwb. cbn.
  repeat split; try lia.
  intros s workdays Hs.
  assert (Hsb : (s =? 0) = false) by (apply Z.eqb_neq; exact Hs).
  rewrite Hsb. reflexivity.
Qed.

Lemma falsy_seconds_is_absent_witness :
  WorkDayTimeInterval.seconds (WorkDayTimeInterval.init (Some 0) (Some 3)) = 3 * 28800
  /\ WorkDayTimeInterval.seconds (WorkDayTimeInterval.init None (Some 3)) = 3 * 28800
  /\ WorkDayTimeInterval.seconds (WorkDayTimeInterval.init (Some 0) None) = 0
  /\ (forall (s : Z) (workdays : option Z),
         s <> 0 ->
         WorkDayTimeInterval.seconds (WorkDayTimeInterval.init (Some s) workdays) = s).
Proof.
  apply (falsy_seconds_is_absent 3). lia.
Defined.

(** ** The object store *)

Lemma get_task_Some d r t : task_heap d !! r = Some t -> get_task r d = Ok t.
Proof. unfold get_task. intros ->. reflexivity. Qed.

Lemma get_task_Ok d r t : get_task r d = Ok t -> task_heap d !! r = Some t.
Proof. unfold get_task. destruct (task_heap d !! r); cbn; congruence. Qed.

Lemma task_heap_update_task_eq d r f :
  task_heap (update_task r f d) !! r = f <$> task_heap d !! r.
Proof. cbn. apply lookup_alter_eq. Qed.

Lemma task_heap_update_task_ne d r r' f :
  r <> r' -> task_heap (update_task r f d) !! r' = task_heap d !! r'.
Proof. intros Hne. cbn. now apply lookup_alter_ne. Qed.

Lemma add_change_record_Some record t records :
  task_change_records t = Some records ->
  add_change_record record t = with_change_records (Some (records ++ [record])) t.
Proof. unfold add_change_record. intros ->. reflexivity. Qed.

Lemma task_custom_data_attrs t m :
  task_attrs t !! "custom_data"%string = Some (PyCustomData m) -> task_custom_data t = Ok m.
Proof. unfold task_custom_data, getattr. intros ->. reflexivity. Qed.

Lemma task_custom_data_inv t m :
  task_custom_data t = Ok m -> task_attrs t !! "custom_data"%string = Some (PyCustomData m).
Proof.
  unfold task_custom_data, getattr.
  destruct (task_attrs t !! "custom_data"%string) as [[]|]; cbn; congruence.
Qed.

(** The index update never fails on a task that holds custom data, and it
    touches nothing but the index. *)
Lemma update_index_Ok d task t m :
  task_heap d !! task = Some t ->
  task_custom_data t = Ok m ->
  update_custom_data_value_to_task_map_for_task task d
  = Ok (with_index (register_items task (map_to_list m) (custom_data_value_to_task_map d)) d).
Proof.
  intros Ht Hm. unfold update_custom_data_value_to_task_map_for_task.
  rewrite (get_task_Some _ _ _ Ht). cbn. rewrite Hm. reflexivity.
Qed.

(** What [set_custom_data_value] computes on a task that holds custom data. *)
Lemma set_custom_data_value_Ok d self t m name value :
  task_heap d !! self = Some t ->
  task_custom_data t = Ok m ->
  let t1 := with_attrs (<["custom_data"%string := PyCustomData (<[name := value]> m)]>
                          (task_attrs t)) t in
  let d1 := update_task self (fun t => with_attrs
              (<["custom_data"%string := PyCustomData (<[name := value]> m)]> (task_attrs t)) t) d in
  set_custom_data_value self name value d
  = Ok (update_task self
          (add_change_record (SetCustomDataValueTaskChangeRecord self name value))
          (with_index (register_items self (map_to_list (<[name := value]> m))
                                      (custom_data_value_to_task_map d)) d1))
  /\ task_heap d1 !! self = Some t1.
Proof.
  intros Ht Hm t1 d1.
  assert (Ht1 : task_heap d1 !! self = Some t1).
  { subst d1. rewrite task_heap_update_task_eq, Ht. reflexivity. }
  split; [|exact Ht1].
  unfold set_custom_data_value.
  rewrite (get_task_Some _ _ _ Ht). cbn [mbind result_bind].
  rewrite Hm. cbn [mbind result_bind]. fold d1.
  rewrite (update_index_Ok d1 self t1 (<[name := value]> m) Ht1).
  - reflexivity.
  - apply task_custom_data_attrs. subst t1. cbn. apply lookup_insert_eq.
Qed.

(** C1 (as amended): on a constructed task, setting a mutable simple property
    appends one record that holds the value the task had for that property
    before the assignment ([None] when it had none), and then installs the
    new value; [set_custom_data_value] installs the new value and appends one
    record that holds the field name and the new value. *)
Theorem tracked_mutation_record
    (d : OmniPlanDocument) (self : ref) (t : Task) (records : list TaskChangeRecord)
    (Ht : task_heap d !! self = Some t)
    (Hrecords : task_change_records t = Some records) :
  (forall (key : string) (value : PyVal),
      key ∈ ["effort"; "name"; "completed_effort"]%string ->
      exists t',
        task_heap (setattr self key value d) !! self = Some t'
        /\ task_change_records t'
           = Some (records ++ [SimplePropertyTaskChangeRecord self key (getattr_or_none t key)])
        /\ task_attrs t' !! key = Some value)
  /\ (forall (name value : string) (m : gmap string string),
         task_custom_data t = Ok m ->
         exists d' t',
           set_custom_data_value self name value d = Ok d'
           /\ task_heap d' !! self = Some t'
           /\ task_change_records t'
              = Some (records ++ [SetCustomDataValueTaskChangeRecord self name value])
           /\ task_custom_data t' = Ok (<[name := value]> m)).
Proof.
  split.
  - intros key value Hkey.
    exists (Task_setattr self key value t). split.
    + unfold setattr. rewrite task_heap_update_task_eq, Ht. reflexivity.
    + assert (Hm : is_Some (mutable_simple_properties key)).
      { rewrite !elem_of_cons in Hkey.
        destruct Hkey as [-> | [-> | [-> | H]]]; [eexists; reflexivity ..|].
        now apply elem_of_nil in H. }
      destruct Hm as [desc Hdesc].
      unfold Task_setattr. rewrite Hdesc.
      rewrite (add_change_record_Some _ _ _ Hrecords). cbn.
      split; [reflexivity | apply lookup_insert_eq].
  - intros name value m Hm.
    destruct (set_custom_data_value_Ok d self t m name value Ht Hm) as [Hset Ht1].
    eexists. eexists. split; [exact Hset|].
    rewrite task_heap_update_task_eq. cbn [task_heap with_index].
    rewrite Ht1. cbn [fmap option_fmap option_map].
    split; [reflexivity|].
    rewrite (add_change_record_Some _ _ records) by exact Hrecords.
    split; [reflexivity|].
    apply task_custom_data_attrs. cbn. apply lookup_insert_eq.
Qed.

Lemma sample_document_loaded :
  OmniPlanDocument_init "test.oplx" Sample.document_data = Ok Sample.document.
Proof. vm_compute. reflexivity. Qed.

Lemma sample_task_B : task_heap Sample.document !! Sample.B = Some Sample.task_B.
Proof. vm_compute. reflexivity. Qed.

Lemma sample_task_B_edited : task_heap Sample.edited !! Sample.B = Some Sample.task_B_edited.
Proof. vm_compute. reflexivity. Qed.

Lemma sample_retagged :
  set_custom_data_value Sample.B "k" "Y" Sample.document = Ok Sample.retagged.
Proof. vm_compute. reflexivity. Qed.

Lemma sample_task_B_retagged :
  task_heap Sample.retagged !! Sample.B = Some Sample.task_B_retagged.
Proof. vm_compute. reflexivity. Qed.

Lemma tracked_mutation_record_witness :
  exists t',
    task_heap (setattr Sample.B "effort"
                 (PyInterval (WorkDayTimeInterval.init None (Some 2))) Sample.document)
      !! Sample.B = Some t'
    /\ task_change_records t'
       = Some ([] ++ [SimplePropertyTaskChangeRecord Sample.B "effort"
                        (getattr_or_none Sample.task_B "effort")])
    /\ task_attrs t' !! "effort"%string
       = Some (PyInterval (WorkDayTimeInterval.init None (Some 2))).
Proof.
  refine (proj1 (tracked_mutation_record Sample.document Sample.B Sample.task_B []
                   sample_task_B _) "effort"%string _ _).
  - reflexivity.
  - constructor.
Defined.

(** C1, as stated, fails for [set_custom_data_value]: task B of the sample
    document holds k = X; after setting k to Y its record holds Y. *)
Lemma custom_data_record_has_new_value : ~ custom_data_record_has_old_value.
Proof.
  intros H.
  assert (Hold : custom_data_value Sample.task_B "k" = Ok (Some "X"%string))
    by (vm_compute; reflexivity).
  destruct (H Sample.document Sample.retagged Sample.B Sample.task_B Sample.task_B_retagged
              "k"%string "Y"%string "X"%string
              sample_task_B Hold sample_retagged sample_task_B_retagged)
    as (records & record & Hrs & Hval).
  change (Some [SetCustomDataValueTaskChangeRecord Sample.B "k" "Y"]
          = Some (records ++ [record])) in Hrs.
  injection Hrs as Hrs.
  destruct records as [|r0 [|r1 rest]]; cbn in Hrs.
  - injection Hrs as <-. cbn in Hval. discriminate.
  - discriminate.
  - destruct rest; discriminate.
Qed.

(** ** Formatting *)

#[local] Arguments String.append !s1 s2 : simpl nomatch.
#[local] Arguments str_int : simpl never.

Lemma append_assoc (s t u : string) : ((s ++ t) ++ u = s ++ (t ++ u))%string.
Proof. induction s as [|c s IH]; cbn; [reflexivity | now rewrite IH]. Qed.

Lemma format_app_brace_free s t args :
  brace_free s = true ->
  format (s ++ t) args = out ← format t args; Ok (s ++ out)%string.
Proof.
  induction s as [|c s IH]; intros Hs.
  - cbn. destruct (format t args); reflexivity.
  - cbn in Hs. apply andb_true_iff in Hs as [Hc Hs].
    apply andb_true_iff in Hc as [Hl Hr].
    apply negb_true_iff in Hl, Hr.
    cbn [append format]. rewrite Hl, Hr, (IH Hs).
    destruct (format t args); reflexivity.
Qed.

(** On ASCII arguments a unicode template formats as a byte template. *)
Lemma uformat_ascii template args :
  forallb is_ascii args = true -> uformat template args = format template args.
Proof.
  assert (H : forall n template, (String.length template <= n)%nat ->
              forall args, forallb is_ascii args = true ->
                           uformat template args = format template args).
  { clear. induction n as [|n IH]; intros template Hlen args Hargs.
    - destruct template; [reflexivity | cbn in Hlen; lia].
    - destruct template as [|c rest]; [reflexivity|]. cbn [uformat format].
      cbn [String.length] in Hlen.
      destruct (Ascii.eqb c "{").
      + destruct rest as [|d rest']; [reflexivity|]. cbn [String.length] in Hlen.
        destruct (Ascii.eqb d "{"); [rewrite IH by (try assumption; lia); reflexivity|].
        destruct (Ascii.eqb d "}"); [|reflexivity].
        destruct args as [|a args']; [reflexivity|].
        cbn [forallb] in Hargs. apply andb_true_iff in Hargs as [Ha Hargs'].
        rewrite Ha, IH by (try assumption; lia). reflexivity.
      + destruct (Ascii.eqb c "}").
        * destruct rest as [|d rest']; [reflexivity|]. cbn [String.length] in Hlen.
          destruct (Ascii.eqb d "}"); [|reflexivity].
          rewrite IH by (try assumption; lia). reflexivity.
        * rewrite IH by (try assumption; lia). reflexivity. }
  intros Hargs. exact (H _ template (le_n _) args Hargs).
Qed.

Lemma is_ascii_app s t : is_ascii (s ++ t) = is_ascii s && is_ascii t.
Proof.
  induction s as [|c s IH]; cbn; [reflexivity|]. now rewrite IH, andb_assoc.
Qed.

Lemma is_ascii_string_of_uint u : is_ascii (NilEmpty.string_of_uint u) = true.
Proof. induction u; cbn; auto. Qed.

Lemma is_ascii_str_int n : is_ascii (str_int n) = true.
Proof.
  unfold str_int. destruct (Z.to_int n); cbn; apply is_ascii_string_of_uint.
Qed.

Lemma is_ascii_escape_quotes s : is_ascii (escape_quotes s) = is_ascii s.
Proof.
  induction s as [|c s IH]; cbn; [reflexivity|].
  destruct (Ascii.eqb_spec c DQ) as [->|_]; cbn; now rewrite IH.
Qed.

Lemma is_ascii_join l : forallb is_ascii l = true -> is_ascii (join nl l) = true.
Proof.
  unfold join. induction l as [|x l IH]; cbn [forallb String.concat]; [reflexivity|].
  intros H. apply andb_true_iff in H as [Hx Hl].
  destruct l as [|y l']; [exact Hx|].
  rewrite !is_ascii_app, Hx, (IH Hl). reflexivity.
Qed.

Lemma is_ascii_document_scope name body :
  is_ascii name = true -> is_ascii body = true ->
  is_ascii (document_scope name body) = true.
Proof.
  intros Hn Hb. unfold document_scope.
  repeat (rewrite is_ascii_app; cbn [is_ascii ascii7 negb andb nl dq LF DQ]).
  now rewrite Hn, Hb.
Qed.

Lemma is_ascii_task_scope id body :
  is_ascii body = true -> is_ascii (task_scope id body) = true.
Proof.
  intros Hb. unfold task_scope.
  repeat (rewrite is_ascii_app; cbn [is_ascii ascii7 negb andb nl dq LF DQ]).
  now rewrite is_ascii_str_int, Hb.
Qed.

Lemma brace_free_string_of_uint u : brace_free (NilEmpty.string_of_uint u) = true.
Proof. induction u; cbn; auto. Qed.

Lemma brace_free_str_int n : brace_free (str_int n) = true.
Proof.
  unfold str_int. destruct (Z.to_int n); cbn; apply brace_free_string_of_uint.
Qed.

Lemma brace_free_app s t :
  brace_free s = true -> brace_free t = true -> brace_free (s ++ t) = true.
Proof.
  induction s as [|c s IH]; cbn; [auto|].
  intros Hs Ht. apply andb_true_iff in Hs as [Hc Hs].
  rewrite Hc. cbn. auto.
Qed.

(** The document wrapper, and what it gives around a body. *)
Lemma document_wrapper_scope d :
  brace_free (doc_name d) = true ->
  is_ascii (doc_name d) = true ->
  exists w, document_applescript_target_wrapper d = Ok w
            /\ forall body,
                 is_ascii body = true ->
                 uformat w [body] = Ok (document_scope (doc_name d) body).
Proof.
  intros Hname Hascii. eexists. split.
  - unfold document_applescript_target_wrapper.
    rewrite uformat_ascii by (cbn [forallb]; now rewrite Hascii).
    cbn. reflexivity.
  - intros body Hbody.
    rewrite uformat_ascii by (cbn [forallb]; now rewrite Hbody).
    unfold document_scope. cbn.
    rewrite (format_app_brace_free _ _ _ Hname). cbn. reflexivity.
Qed.

(** The task wrapper nests the task scope inside the document scope. *)
Lemma task_wrapper_scope d self t id :
  task_heap d !! self = Some t ->
  task_id t = Ok id ->
  brace_free (doc_name d) = true ->
  is_ascii (doc_name d) = true ->
  exists w, task_applescript_target_wrapper self d = Ok w
            /\ forall body,
                 is_ascii body = true ->
                 uformat w [body] = Ok (document_scope (doc_name d) (task_scope id body)).
Proof.
  intros Ht Hid Hname Hascii.
  pose proof (brace_free_str_int id) as Hi.
  pose proof (is_ascii_str_int id) as Hai.
  assert (Htarget : uformat task_wrapper_template [str_int id]
                    = Ok (nl ++ "            tell task " ++ str_int id ++ nl
                             ++ "                {}" ++ nl
                             ++ "            end tell" ++ nl
                             ++ "        ")%string).
  { rewrite uformat_ascii by (cbn [forallb]; now rewrite Hai).
    cbn. reflexivity. }
  eexists. split.
  - unfold task_applescript_target_wrapper, document_applescript_target_wrapper.
    rewrite (get_task_Some _ _ _ Ht). cbn [mbind result_bind]. rewrite Hid.
    cbn [mbind result_bind]. rewrite Htarget. cbn [mbind result_bind].
    rewrite (uformat_ascii document_wrapper_template)
      by (cbn [forallb]; now rewrite Hascii).
    cbn. rewrite uformat_ascii.
    + cbn. rewrite (format_app_brace_free _ _ _ Hname). cbn. reflexivity.
    + repeat first [ rewrite is_ascii_app
                   | progress cbn [forallb is_ascii ascii7 negb andb] ].
      now rewrite Hai.
  - intros body Hbody.
    rewrite uformat_ascii by (cbn [forallb]; now rewrite Hbody).
    unfold document_scope, task_scope. cbn.
    rewrite (format_app_brace_free _ _ _ Hname). cbn.
    rewrite append_assoc, (format_app_brace_free _ _ _ Hi). cbn.
    repeat (rewrite append_assoc; cbn). reflexivity.
Qed.

(** ** Commit *)

Lemma map_result_ext {A B} (f g : A -> result B) l :
  (forall x, f x = g x) -> map_result f l = map_result g l.
Proof.
  intros Hfg. induction l as [|x l IH]; cbn; [reflexivity|].
  now rewrite Hfg, IH.
Qed.

Lemma map_result_length {A B} (f : A -> result B) l ys :
  map_result f l = Ok ys -> length ys = length l.
Proof.
  revert ys. induction l as [|x l IH]; cbn; intros ys H.
  - injection H as <-. reflexivity.
  - destruct (f x); cbn in H; [|discriminate].
    destruct (map_result f l) as [ys'|]; cbn in H; [|discriminate].
    injection H as <-. cbn. now rewrite (IH ys' eq_refl).
Qed.

Lemma task_attrs_clear t : task_attrs (clear_change_records t) = task_attrs t.
Proof. unfold clear_change_records. destruct (task_change_records t); reflexivity. Qed.

Lemma task_id_attrs t t' : task_attrs t' = task_attrs t -> task_id t' = task_id t.
Proof. unfold task_id, getattr. now intros ->. Qed.

Lemma get_task_clear r self d :
  get_task r (update_task self clear_change_records d)
  = match get_task r d with
    | Ok t => Ok (if decide (self = r) then clear_change_records t else t)
    | Raise e => Raise e
    end.
Proof.
  unfold get_task. destruct (decide (self = r)) as [->|Hne].
  - rewrite task_heap_update_task_eq. destruct (task_heap d !! r); reflexivity.
  - rewrite task_heap_update_task_ne by exact Hne.
    destruct (task_heap d !! r); reflexivity.
Qed.

(** Rendering reads attributes only, so clearing the pending list does not
    change what a record renders to. *)
Lemma change_applescript_code_clear self d record :
  change_applescript_code (update_task self clear_change_records d) record
  = change_applescript_code d record.
Proof.
  destruct record as [task property_name old | a | task name value]; cbn [change_applescript_code].
  - rewrite get_task_clear. destruct (get_task task d) as [t|]; [|reflexivity].
    cbn [mbind result_bind]. unfold getattr.
    destruct (decide (self = task)); [|reflexivity].
    now rewrite task_attrs_clear.
  - unfold get_resource. cbn [resource_heap update_task with_task_heap].
    destruct (resource_heap d !! ra_resource a); [|reflexivity].
    cbn [of_option mbind result_bind].
    rewrite get_task_clear. destruct (get_task (ra_task a) d) as [t|]; [|reflexivity].
    cbn [mbind result_bind].
    destruct (decide (self = ra_task a)); [|reflexivity].
    now rewrite (task_id_attrs t (clear_change_records t) (task_attrs_clear t)).
  - reflexivity.
Qed.

Lemma commit_changes_eq osascript dry_run self d t records :
  task_heap d !! self = Some t ->
  task_change_records t = Some records ->
  commit_changes osascript dry_run self d
  = let d1 := update_task self clear_change_records d in
    match commit_script self d1
            (List.filter (fun r => negb (targets_document r)) records)
            (List.filter targets_document records) with
    | Raise e => mkOutcome d1 [] (Some e)
    | Ok code =>
        if dry_run then mkOutcome d1 [Printed code] None
        else match osascript code with
             | Ok _ => mkOutcome d1 [Ran code] None
             | Raise e => mkOutcome d1 [Ran code] (Some e)
             end
    end.
Proof.
  intros Ht Hrecords. unfold commit_changes.
  rewrite (get_task_Some _ _ _ Ht), Hrecords. reflexivity.
Qed.

(** Whatever the bridge answers, a commit leaves the document with the
    task's pending list cleared and nothing else changed. *)
Lemma commit_changes_state osascript dry_run self d t records :
  task_heap d !! self = Some t ->
  task_change_records t = Some records ->
  state (commit_changes osascript dry_run self d)
  = update_task self clear_change_records d.
Proof.
  intros Ht Hrecords. rewrite (commit_changes_eq _ _ _ _ _ _ Ht Hrecords). cbv zeta.
  destruct (commit_script _ _ _ _); [|reflexivity].
  destruct dry_run; [reflexivity|]. destruct (osascript a); reflexivity.
Qed.

(** Every effect of a commit carries the script built from the records that
    were pending when it started. *)
Lemma commit_changes_trace osascript dry_run self d t records event :
  task_heap d !! self = Some t ->
  task_change_records t = Some records ->
  event ∈ trace (commit_changes osascript dry_run self d) ->
  exists code,
    (event = Ran code \/ event = Printed code)
    /\ commit_script self (update_task self clear_change_records d)
         (List.filter (fun r => negb (targets_document r)) records)
         (List.filter targets_document records) = Ok code.
Proof.
  intros Ht Hrecords. rewrite (commit_changes_eq _ _ _ _ _ _ Ht Hrecords). cbv zeta.
  destruct (commit_script _ _ _ _) as [code|]; cbn.
  - destruct dry_run; [|destruct (osascript code)]; cbn;
      intros Hin; apply list_elem_of_singleton in Hin; subst event; eauto.
  - intros Hin. now apply elem_of_nil in Hin.
Qed.

Lemma commit_script_Ok d self t id rt rd task_ops doc_ops :
  task_heap d !! self = Some t ->
  task_id t = Ok id ->
  brace_free (doc_name d) = true ->
  is_ascii (doc_name d) = true ->
  map_result (change_applescript_code d) rt = Ok task_ops ->
  map_result (change_applescript_code d) rd = Ok doc_ops ->
  forallb is_ascii task_ops = true ->
  forallb is_ascii doc_ops = true ->
  commit_script self d rt rd
  = Ok (document_scope (doc_name d) (task_scope id (join nl task_ops))
        ++ document_scope (doc_name d) (join nl doc_ops))%string.
Proof.
  intros Ht Hid Hname Hascii Hrt Hrd Hat Had.
  destruct (task_wrapper_scope d self t id Ht Hid Hname Hascii) as (w & Hw & Hfw).
  destruct (document_wrapper_scope d Hname Hascii) as (dw & Hdw & Hfdw).
  unfold commit_script.
  rewrite Hrt. cbn [mbind result_bind]. rewrite Hw. cbn [mbind result_bind].
  rewrite (Hfw _ (is_ascii_join _ Hat)). cbn [mbind result_bind].
  rewrite Hrd. cbn [mbind result_bind].
  rewrite Hdw. cbn [mbind result_bind]. rewrite (Hfdw _ (is_ascii_join _ Had)).
  reflexivity.
Qed.

(** The script a commit sends when both groups of records render. *)
Lemma commit_changes_script osascript d self t id records task_ops doc_ops :
  task_heap d !! self = Some t ->
  task_change_records t = Some records ->
  task_id t = Ok id ->
  brace_free (doc_name d) = true ->
  is_ascii (doc_name d) = true ->
  map_result (change_applescript_code d)
             (List.filter (fun r => negb (targets_document r)) records) = Ok task_ops ->
  map_result (change_applescript_code d)
             (List.filter targets_document records) = Ok doc_ops ->
  forallb is_ascii task_ops = true ->
  forallb is_ascii doc_ops = true ->
  trace (commit_changes osascript false self d)
  = [Ran (document_scope (doc_name d) (task_scope id (join nl task_ops))
          ++ document_scope (doc_name d) (join nl doc_ops))%string].
Proof.
  intros Ht Hrecords Hid Hname Hascii Hrt Hrd Hat Had.
  rewrite (commit_changes_eq _ _ _ _ _ _ Ht Hrecords). cbv zeta.
  set (d1 := update_task self clear_change_records d).
  assert (Ht1 : task_heap d1 !! self = Some (clear_change_records t)).
  { subst d1. rewrite task_heap_update_task_eq, Ht. reflexivity. }
  rewrite (commit_script_Ok d1 self (clear_change_records t) id _ _ task_ops doc_ops Ht1).
  - destruct (osascript _); reflexivity.
  - now rewrite (task_id_attrs t _ (task_attrs_clear t)).
  - exact Hname.
  - exact Hascii.
  - rewrite <- Hrt. apply map_result_ext. intros r. apply change_applescript_code_clear.
  - rewrite <- Hrd. apply map_result_ext. intros r. apply change_applescript_code_clear.
  - exact Hat.
  - exact Had.
Qed.



(** C2: [commit_changes] empties the task's pending list whatever the bridge
    does: for every bridge and both values of [dry_run] the document after
    the call is the one before it with that list cleared, and whatever a later
    commit prints or sends is the script rendered from no record at all. *)
Theorem commit_consumes_records_once
    (osascript : string -> result string) (dry_run : bool)
    (d : OmniPlanDocument) (self : ref) (t : Task) (records : list TaskChangeRecord)
    (Ht : task_heap d !! self = Some t)
    (Hrecords : task_change_records t = Some records) :
  let o := commit_changes osascript dry_run self d in
  (exists t', task_heap (state o) !! self = Some t' /\ task_change_records t' = Some [])
  /\ state o = update_task self clear_change_records d
  /\ (forall (osascript' : string -> result string) (dry_run' : bool) (event : Event),
         event ∈ trace (commit_changes osascript' dry_run' self (state o)) ->
         exists code,
           (event = Ran code \/ event = Printed code)
           /\ commit_script self (update_task self clear_change_records (state o)) [] []
              = Ok code).
Proof.
  intros o. subst o.
  rewrite (commit_changes_state _ _ _ _ _ _ Ht Hrecords).
  assert (Ht1 : task_heap (update_task self clear_change_records d) !! self
                = Some (clear_change_records t)).
  { rewrite task_heap_update_task_eq, Ht. reflexivity. }
  assert (Hclear : task_change_records (clear_change_records t) = Some []).
  { unfold clear_change_records. rewrite Hrecords. reflexivity. }
  split; [eauto|]. split; [reflexivity|].
  intros osascript' dry_run' event Hin.
  exact (commit_changes_trace _ _ _ _ _ _ _ Ht1 Hclear Hin).
Qed.

Lemma commit_consumes_records_once_witness :
  let o := commit_changes Sample.broken_osascript false Sample.B Sample.edited in
  exists t', task_heap (state o) !! Sample.B = Some t'
             /\ task_change_records t' = Some [].
Proof.
  refine (proj1 (commit_consumes_records_once Sample.broken_osascript false
                   Sample.edited Sample.B Sample.task_B_edited _
                   sample_task_B_edited _)).
  reflexivity.
Defined.




(** ** Order of the rendered operations *)

Lemma filter_all_task_scoped records :
  forallb (fun r => negb (targets_document r)) records = true ->
  List.filter (fun r => negb (targets_document r)) records = records
  /\ List.filter targets_document records = [].
Proof.
  induction records as [|r records IH]; cbn; [auto|].
  intros H. apply andb_true_iff in H as [Hr Hrest].
  destruct (IH Hrest) as [IH1 IH2].
  rewrite Hr. apply negb_true_iff in Hr. rewrite Hr.
  split; [now rewrite IH1 | exact IH2].
Qed.

Lemma filter_partition_length {A} (p : A -> bool) l :
  (length (List.filter (fun x => negb (p x)) l) + length (List.filter p l))%nat = length l.
Proof.
  induction l as [|x l IH]; cbn; [reflexivity|].
  destruct (p x); cbn; lia.
Qed.

Lemma append_nil_r (s : string) : (s ++ "")%string = s.
Proof. induction s as [|c s IH]; cbn; [reflexivity | now rewrite IH]. Qed.

(** A mutable property renders as one [set] operation of its current value. *)
Lemma render_simple_property d task t key old value text :
  task_heap d !! task = Some t ->
  key ∈ ["effort"; "name"; "completed_effort"]%string ->
  task_attrs t !! key = Some value ->
  applescript_value_for_property_and_value key value = Ok text ->
  exists applescript_name,
    applescript_name_for_property key = Ok applescript_name
    /\ change_applescript_code d (SimplePropertyTaskChangeRecord task key old)
       = Ok (set_operation applescript_name text).
Proof.
  intros Ht Hkey Hv Htext.
  assert (Hname : exists n, applescript_name_for_property key = Ok n).
  { rewrite !elem_of_cons in Hkey.
    destruct Hkey as [-> | [-> | [-> | H]]]; [eexists; reflexivity ..|].
    now apply elem_of_nil in H. }
  destruct Hname as [n Hn]. exists n. split; [exact Hn|].
  cbn [change_applescript_code].
  rewrite (get_task_Some _ _ _ Ht). cbn [mbind result_bind].
  unfold getattr. rewrite Hv. cbn [of_option mbind result_bind].
  rewrite Htext. cbn [mbind result_bind]. rewrite Hn. cbn.
  unfold set_operation. cbn. now rewrite append_nil_r.
Qed.

(** What a mutable property renders to is ASCII text: digits, or a text that
    the unicode template has accepted. *)
Lemma applescript_value_is_ascii key value text :
  key ∈ ["effort"; "name"; "completed_effort"]%string ->
  applescript_value_for_property_and_value key value = Ok text ->
  is_ascii text = true.
Proof.
  intros Hkey. rewrite !elem_of_cons in Hkey.
  destruct Hkey as [-> | [-> | [-> | H]]]; [| | | now apply elem_of_nil in H];
    unfold applescript_value_for_property_and_value,
      converted_value_for_property_and_value; cbn.
  - destruct value as [| p | w | u | m]; cbn; try discriminate.
    intros [= <-]. apply is_ascii_str_int.
  - destruct value as [| p | w | u | m]; cbn; try discriminate.
    destruct p as [n | s | b | t | l | entries]; cbn; try discriminate.
    destruct (is_ascii (escape_quotes s)) eqn:Hs; cbn; [|discriminate].
    intros [= <-]. cbn. rewrite is_ascii_app, Hs. reflexivity.
  - destruct value as [| p | w | u | m]; cbn; try discriminate.
    intros [= <-]. apply is_ascii_str_int.
Qed.

Lemma applescript_name_is_ascii key applescript_name :
  key ∈ ["effort"; "name"; "completed_effort"]%string ->
  applescript_name_for_property key = Ok applescript_name ->
  is_ascii applescript_name = true.
Proof.
  intros Hkey. rewrite !elem_of_cons in Hkey.
  destruct Hkey as [-> | [-> | [-> | H]]]; [| | | now apply elem_of_nil in H];
    intros [= <-]; reflexivity.
Qed.

Lemma is_ascii_set_operation applescript_name text :
  is_ascii applescript_name = true -> is_ascii text = true ->
  is_ascii (set_operation applescript_name text) = true.
Proof.
  intros Hn Ht. unfold set_operation.
  repeat first [ rewrite is_ascii_app | progress cbn [is_ascii ascii7 negb andb] ].
  now rewrite Hn, Ht.
Qed.

(** Two assignments in a row to the same mutable property. *)
Lemma setattr_twice d self t records key v1 v2 :
  task_heap d !! self = Some t ->
  task_change_records t = Some records ->
  key ∈ ["effort"; "name"; "completed_effort"]%string ->
  exists t2,
    task_heap (setattr self key v2 (setattr self key v1 d)) !! self = Some t2
    /\ task_change_records t2
       = Some (records ++ [SimplePropertyTaskChangeRecord self key (getattr_or_none t key);
                           SimplePropertyTaskChangeRecord self key v1])
    /\ task_attrs t2 = <[key := v2]> (<[key := v1]> (task_attrs t)).
Proof.
  intros Ht Hrecords Hkey.
  assert (Hm : is_Some (mutable_simple_properties key)).
  { rewrite !elem_of_cons in Hkey.
    destruct Hkey as [-> | [-> | [-> | H]]]; [eexists; reflexivity ..|].
    now apply elem_of_nil in H. }
  destruct Hm as [desc Hdesc].
  exists (Task_setattr self key v2 (Task_setattr self key v1 t)). split.
  - unfold setattr. rewrite !task_heap_update_task_eq, Ht. reflexivity.
  - unfold Task_setattr. rewrite Hdesc.
    rewrite (add_change_record_Some _ t records Hrecords). cbn.
    unfold SimplePropertyTaskChangeRecord_init, getattr_or_none. cbn.
    rewrite lookup_insert_eq. cbn. rewrite <- app_assoc. split; reflexivity.
Qed.

(** C4 (as amended): the operations of a commit are one per record, none
    merged: first the task-scoped records in the order in which they were
    made, then the document-scoped ones in the order in which they were made;
    when every record is task-scoped this is the recorded order.  On a task
    with an integer identifier, in a document whose name is ASCII text
    without braces, the script sent holds these operations in this order
    whenever they are ASCII text.  Assigning a mutable property twice on a
    clean task leaves two records, the first with the value held before
    either assignment, and the commit renders two operations. *)
Theorem commit_operations_keep_order_within_scope
    (d : OmniPlanDocument) (self : ref) (t : Task) (id : Z)
    (records : list TaskChangeRecord)
    (Ht : task_heap d !! self = Some t)
    (Hrecords : task_change_records t = Some records)
    (Hid : task_id t = Ok id)
    (Hname : brace_free (doc_name d) = true)
    (Hascii : is_ascii (doc_name d) = true) :
  (forall task_ops doc_ops : list string,
      map_result (change_applescript_code d)
                 (List.filter (fun r => negb (targets_document r)) records) = Ok task_ops ->
      map_result (change_applescript_code d)
                 (List.filter targets_document records) = Ok doc_ops ->
      (forallb is_ascii (task_ops ++ doc_ops) = true ->
       forall osascript : string -> result string,
          trace (commit_changes osascript false self d)
          = [Ran (document_scope (doc_name d) (task_scope id (join nl task_ops))
                  ++ document_scope (doc_name d) (join nl doc_ops))%string])
      /\ commit_operations d records = Ok (task_ops ++ doc_ops)
      /\ length (task_ops ++ doc_ops) = length records
      /\ (forallb (fun r => negb (targets_document r)) records = true ->
          map_result (change_applescript_code d) records = Ok (task_ops ++ doc_ops)))
  /\ (forall (key : string) (v1 v2 : PyVal) (text : string),
         records = [] ->
         key ∈ ["effort"; "name"; "completed_effort"]%string ->
         applescript_value_for_property_and_value key v2 = Ok text ->
         let d2 := setattr self key v2 (setattr self key v1 d) in
         exists (t2 : Task) (applescript_name : string),
           task_heap d2 !! self = Some t2
           /\ task_change_records t2
              = Some [SimplePropertyTaskChangeRecord self key (getattr_or_none t key);
                      SimplePropertyTaskChangeRecord self key v1]
           /\ applescript_name_for_property key = Ok applescript_name
           /\ forall osascript : string -> result string,
                trace (commit_changes osascript false self d2)
                = [Ran (document_scope (doc_name d)
                          (task_scope id (join nl [set_operation applescript_name text;
                                                   set_operation applescript_name text]))
                        ++ document_scope (doc_name d) "")%string]).
Proof.
  split.
  - intros task_ops doc_ops Htask Hdoc. split; [|split; [|split]].
    + intros Hops osascript.
      rewrite forallb_app in Hops. apply andb_true_iff in Hops as [Hat Had].
      exact (commit_changes_script osascript d self t id records task_ops doc_ops
               Ht Hrecords Hid Hname Hascii Htask Hdoc Hat Had).
    + unfold commit_operations. rewrite Htask. cbn [mbind result_bind].
      rewrite Hdoc. reflexivity.
    + rewrite length_app, (map_result_length _ _ _ Htask), (map_result_length _ _ _ Hdoc).
      apply filter_partition_length.
    + intros Hall. destruct (filter_all_task_scoped records Hall) as [H1 H2].
      rewrite H1 in Htask. rewrite H2 in Hdoc. injection Hdoc as <-.
      now rewrite app_nil_r.
  - intros key v1 v2 text -> Hkey Htext d2.
    destruct (setattr_twice d self t [] key v1 v2 Ht Hrecords Hkey) as (t2 & Ht2 & Hrs2 & Hattrs2).
    fold d2 in Ht2.
    assert (Hv2 : task_attrs t2 !! key = Some v2)
      by (rewrite Hattrs2; apply lookup_insert_eq).
    destruct (render_simple_property d2 self t2 key (getattr_or_none t key) v2 text
                Ht2 Hkey Hv2 Htext) as (an & Han & Hop1).
    destruct (render_simple_property d2 self t2 key v1 v2 text
                Ht2 Hkey Hv2 Htext) as (an' & Han' & Hop2).
    rewrite Han in Han'. injection Han' as <-.
    exists t2, an. split; [exact Ht2|]. split; [exact Hrs2|]. split; [exact Han|].
    intros osascript.
    assert (Hne : key <> "id"%string).
    { intros ->. rewrite !elem_of_cons in Hkey.
      destruct Hkey as [H | [H | [H | H]]]; try discriminate;
        try (now apply elem_of_nil in H). }
    assert (Hid2 : task_id t2 = Ok id).
    { rewrite <- Hid. unfold task_id, getattr. rewrite Hattrs2.
      now rewrite !lookup_insert_ne by exact Hne. }
    assert (Htask : map_result (change_applescript_code d2)
                      (List.filter (fun r => negb (targets_document r))
                         [SimplePropertyTaskChangeRecord self key (getattr_or_none t key);
                          SimplePropertyTaskChangeRecord self key v1])
                    = Ok [set_operation an text; set_operation an text]).
    { cbn [List.filter targets_document negb map_result].
      rewrite Hop1, Hop2. reflexivity. }
    assert (Hdoc : map_result (change_applescript_code d2)
                     (List.filter targets_document
                        [SimplePropertyTaskChangeRecord self key (getattr_or_none t key);
                         SimplePropertyTaskChangeRecord self key v1])
                   = Ok []) by reflexivity.
    assert (Hname2 : brace_free (doc_name d2) = true) by exact Hname.
    assert (Hascii2 : is_ascii (doc_name d2) = true) by exact Hascii.
    assert (Hop : is_ascii (set_operation an text) = true).
    { apply is_ascii_set_operation;
        [exact (applescript_name_is_ascii key an Hkey Han)
        | exact (applescript_value_is_ascii key v2 text Hkey Htext)]. }
    assert (Hat : forallb is_ascii [set_operation an text; set_operation an text] = true)
      by (cbn [forallb]; now rewrite Hop).
    pose proof (commit_changes_script osascript d2 self t2 id _ _ _
                  Ht2 Hrs2 Hid2 Hname2 Hascii2 Htask Hdoc Hat eq_refl) as Hscript.
    change (doc_name d2) with (doc_name d) in Hscript.
    exact Hscript.
Qed.

Lemma commit_operations_keep_order_within_scope_witness :
  commit_operations Sample.edited
    [AddResourceAssignmentTaskChangeRecord (mkResourceAssignment Sample.R Sample.B 1);
     SimplePropertyTaskChangeRecord Sample.B "name" (PyStr "B")]
  = Ok ([set_operation "name" (dq ++ "hello" ++ dq)]
        ++ ["assign resource 7 to task 2 units 1"%string]).
Proof.
  refine (proj1 (proj2 (proj1 (commit_operations_keep_order_within_scope
                                 Sample.edited Sample.B Sample.task_B_edited 2 _
                                 sample_task_B_edited _ _ _ _) _ _ _ _))).
  - reflexivity.
  - reflexivity.
  - reflexivity.
  - reflexivity.
  - vm_compute. reflexivity.
  - vm_compute. reflexivity.
Defined.

(** C4, as stated, fails when a document-scoped record precedes a
    task-scoped one: B is assigned to R and then renamed, and the script lists
    the renaming first. *)
Lemma commit_operations_not_in_recorded_order : ~ commit_operations_in_recorded_order.
Proof.
  intros H.
  assert (Hrecords : task_change_records Sample.task_B_edited
                     = Some [AddResourceAssignmentTaskChangeRecord
                               (mkResourceAssignment Sample.R Sample.B 1);
                             SimplePropertyTaskChangeRecord Sample.B "name" (PyStr "B")])
    by reflexivity.
  assert (Hrecorded :
            map_result (change_applescript_code Sample.edited)
              [AddResourceAssignmentTaskChangeRecord (mkResourceAssignment Sample.R Sample.B 1);
               SimplePropertyTaskChangeRecord Sample.B "name" (PyStr "B")]
            = Ok ["assign resource 7 to task 2 units 1"%string;
                  set_operation "name" (dq ++ "hello" ++ dq)])
    by (vm_compute; reflexivity).
  pose proof (H Sample.edited Sample.B Sample.task_B_edited _ _
                sample_task_B_edited Hrecords Hrecorded) as Hbad.
  assert (Hactual :
            commit_operations Sample.edited
              [AddResourceAssignmentTaskChangeRecord (mkResourceAssignment Sample.R Sample.B 1);
               SimplePropertyTaskChangeRecord Sample.B "name" (PyStr "B")]
            = Ok [set_operation "name" (dq ++ "hello" ++ dq);
                  "assign resource 7 to task 2 units 1"%string])
    by (vm_compute; reflexivity).
  rewrite Hactual in Hbad. discriminate Hbad.
Qed.

(** ** The custom-data index *)

Lemma index_lookup_register_pair task index kv key value :
  index_lookup (register_pair task index kv) key value
  = if decide (kv = (key, value)) then
      if bool_decide (task ∈ index_lookup index key value)
      then index_lookup index key value
      else index_lookup index key value ++ [task]
    else index_lookup index key value.
Proof.
  destruct kv as [k v]. unfold index_lookup, register_pair. cbn [fst snd].
  destruct (decide (k = key)) as [->|Hk].
  - rewrite lookup_insert_eq. cbn [from_option id].
    destruct (decide (v = value)) as [->|Hv].
    + rewrite lookup_insert_eq. cbn [from_option id].
      rewrite decide_True by reflexivity. reflexivity.
    + rewrite lookup_insert_ne by exact Hv.
      rewrite decide_False by congruence. reflexivity.
  - rewrite lookup_insert_ne by exact Hk.
    rewrite decide_False by congruence. reflexivity.
Qed.

Lemma elem_of_register_pair task index kv key value x :
  x ∈ index_lookup (register_pair task index kv) key value
  <-> x ∈ index_lookup index key value \/ (x = task /\ kv = (key, value)).
Proof.
  rewrite index_lookup_register_pair.
  destruct (decide (kv = (key, value))) as [->|Hne].
  - destruct (bool_decide (task ∈ index_lookup index key value)) eqn:Hin.
    + apply bool_decide_eq_true in Hin. split; [auto|].
      intros [H | [-> _]]; assumption.
    + rewrite elem_of_app, list_elem_of_singleton. split.
      * intros [H | ->]; auto.
      * intros [H | [-> _]]; auto.
  - split; [auto|]. intros [H | [_ H]]; [exact H | contradiction].
Qed.

Lemma NoDup_register_pair task index kv key value :
  NoDup (index_lookup index key value) ->
  NoDup (index_lookup (register_pair task index kv) key value).
Proof.
  intros Hnd. rewrite index_lookup_register_pair.
  destruct (decide (kv = (key, value))); [|exact Hnd].
  destruct (bool_decide (task ∈ index_lookup index key value)) eqn:Hin; [exact Hnd|].
  apply bool_decide_eq_false in Hin.
  apply NoDup_app. split; [exact Hnd|]. split.
  - intros x Hx Hx'. apply list_elem_of_singleton in Hx'. subst x. contradiction.
  - apply NoDup_singleton.
Qed.

(** Registering a pair under which the task is already listed changes
    nothing. *)
Lemma register_pair_present task index kv :
  task ∈ index_lookup index kv.1 kv.2 -> register_pair task index kv = index.
Proof.
  unfold index_lookup, register_pair. intros Hin.
  destruct (index !! kv.1) as [by_value|] eqn:Hk; cbn [from_option id] in *.
  - destruct (by_value !! kv.2) as [tasks|] eqn:Hv; cbn [from_option id] in *.
    + rewrite bool_decide_eq_true_2 by exact Hin.
      rewrite (insert_id by_value _ _ Hv). apply insert_id. exact Hk.
    + now apply elem_of_nil in Hin.
  - rewrite lookup_empty in Hin. now apply elem_of_nil in Hin.
Qed.

Lemma elem_of_register_items task items : forall index key value x,
  x ∈ index_lookup (register_items task items index) key value
  <-> x ∈ index_lookup index key value \/ (x = task /\ (key, value) ∈ items).
Proof.
  unfold register_items.
  induction items as [|kv items IH]; intros index key value x; cbn [foldl].
  - split; [auto|]. intros [H | [_ H]]; [exact H | now apply elem_of_nil in H].
  - rewrite IH, elem_of_register_pair, elem_of_cons. split.
    + intros [[H | [-> ->]] | [-> H]]; auto.
    + intros [H | [-> [<- | H]]]; auto.
Qed.

Lemma NoDup_register_items task items : forall index key value,
  NoDup (index_lookup index key value) ->
  NoDup (index_lookup (register_items task items index) key value).
Proof.
  unfold register_items.
  induction items as [|kv items IH]; intros index key value Hnd; cbn [foldl].
  - exact Hnd.
  - apply IH. apply NoDup_register_pair. exact Hnd.
Qed.

Lemma register_items_present task items : forall index,
  (forall kv, kv ∈ items -> task ∈ index_lookup index kv.1 kv.2) ->
  register_items task items index = index.
Proof.
  unfold register_items.
  induction items as [|kv items IH]; intros index Hall; cbn [foldl]; [reflexivity|].
  rewrite register_pair_present by (apply Hall; constructor).
  apply IH. intros kv' Hin. apply Hall. now constructor.
Qed.

Lemma register_items_idempotent task items index :
  register_items task items (register_items task items index)
  = register_items task items index.
Proof.
  apply register_items_present. intros [k v] Hin. cbn [fst snd].
  apply elem_of_register_items. right. split; [reflexivity | exact Hin].
Qed.

(** The document after an index update. *)
Lemma update_index_inv d task d' :
  update_custom_data_value_to_task_map_for_task task d = Ok d' ->
  exists t m,
    task_heap d !! task = Some t
    /\ task_custom_data t = Ok m
    /\ d' = with_index (register_items task (map_to_list m)
                                       (custom_data_value_to_task_map d)) d.
Proof.
  unfold update_custom_data_value_to_task_map_for_task, get_task.
  destruct (task_heap d !! task) as [t|]; cbn; [|discriminate].
  destruct (task_custom_data t) as [m|] eqn:Hm; cbn; [|discriminate].
  intros [= <-]. exists t, m. auto.
Qed.

Lemma tasks_for_after_update d task t m key value x :
  task_heap d !! task = Some t ->
  task_custom_data t = Ok m ->
  x ∈ index_lookup (register_items task (map_to_list m) (custom_data_value_to_task_map d))
        key value
  <-> x ∈ tasks_for_custom_data_value d key value \/ (x = task /\ m !! key = Some value).
Proof.
  intros _ _. rewrite elem_of_register_items, elem_of_map_to_list. reflexivity.
Qed.

(** ** Induction over parsed values *)

Lemma Plist_nested_ind (P : Plist -> Prop)
    (HInt : forall n, P (PlInt n))
    (HStr : forall s, P (PlStr s))
    (HBool : forall b, P (PlBool b))
    (HDate : forall t, P (PlDate t))
    (HArray : forall l, Forall P l -> P (PlArray l))
    (HDict : forall entries, Forall (fun kv => P kv.2) entries -> P (PlDict entries)) :
  forall p, P p.
Proof.
  fix IH 1. intros [n | s | b | t | l | entries].
  - apply HInt.
  - apply HStr.
  - apply HBool.
  - apply HDate.
  - apply HArray. induction l as [|x l IHl]; constructor; [apply IH | exact IHl].
  - apply HDict. induction entries as [|[k v] entries IHe]; constructor;
      [apply IH | exact IHe].
Qed.

(** A relation between the document before and after a step that holds
    across the primitive steps of materialization also holds across
    [Task.__init__], children included. *)
Section Materialize_preserves.
Variable Q : OmniPlanDocument -> OmniPlanDocument -> Prop.
Abbreviation init_preserves := (constructor_preserves Q).
Hypothesis Q_refl : forall d, Q d d.
Hypothesis Q_trans : forall a b c, Q a b -> Q b c -> Q a c.
Hypothesis Q_new_task : forall parent d, Q d (new_task parent d).2.
Hypothesis Q_setattr : forall self key v d, Q d (setattr self key v d).
Hypothesis Q_add_task : forall self task d d', add_task self task d = Ok d' -> Q d d'.
Hypothesis Q_finish :
  forall self d, Q d (update_task self (with_change_records (Some [])) d).

Lemma add_tasks_preserves Task_new self l :
  Forall (init_preserves Task_new) l ->
  forall d d', add_tasks_for_task_data_list Task_new self l d = Ok d' -> Q d d'.
Proof.
  induction 1 as [|p l Hp Hl IH]; intros d d'; cbn [add_tasks_for_task_data_list].
  - intros [= <-]. apply Q_refl.
  - destruct (Task_new p self d) as [[task d1]|] eqn:Hnew; cbn; [|discriminate].
    destruct (add_task self task d1) as [d2|] eqn:Hadd; cbn; [|discriminate].
    intros Hrest.
    apply (Q_trans _ d1); [exact (Hp _ _ _ _ Hnew)|].
    apply (Q_trans _ d2); [exact (Q_add_task _ _ _ _ Hadd)|].
    exact (IH _ _ Hrest).
Qed.

Lemma Task_init_items_preserves Task_new self items :
  Forall (fun kv => match kv.2 with
                    | PlArray l => Forall (init_preserves Task_new) l
                    | _ => True
                    end) items ->
  forall d d', Task_init_items Task_new self items d = Ok d' -> Q d d'.
Proof.
  induction 1 as [|[key value] items Hkv Hitems IH]; intros d d'; cbn [Task_init_items].
  - intros [= <-]. apply Q_refl.
  - destruct (match value_converter_for_property key with
              | Some c => decode_omniplan_value c value
              | None => Ok (PyWire value)
              end) as [v|]; cbn [mbind result_bind]; [|discriminate].
    destruct (in_simple_properties key).
    + intros Hrest. apply (Q_trans _ (setattr self key v d)); [apply Q_setattr|].
      exact (IH _ _ Hrest).
    + destruct (String.eqb key "child_tasks"); [|discriminate].
      cbn [snd] in Hkv.
      destruct value as [n | s | b | t | l | entries]; cbn [mbind result_bind];
        try discriminate.
      * destruct s; cbn [mbind result_bind]; [|discriminate]. apply IH.
      * destruct (add_tasks_for_task_data_list Task_new (Some self) l d) as [d1|] eqn:Hadd;
          cbn [mbind result_bind]; [|discriminate].
        intros Hrest. apply (Q_trans _ d1); [|exact (IH _ _ Hrest)].
        exact (add_tasks_preserves Task_new (Some self) l Hkv _ _ Hadd).
      * destruct entries; cbn [mbind result_bind]; [|discriminate]. apply IH.
Qed.

Lemma Task_init_preserves : forall p, init_preserves Task_init p.
Proof.
  intros p.
  cut (init_preserves Task_init p
       /\ match p with
          | PlArray l => Forall (init_preserves Task_init) l
          | _ => True
          end); [tauto|].
  induction p as [n | s | b | t | l IHl | entries IHe] using Plist_nested_ind;
    try (split; [intros parent d r d' H; discriminate H | exact I]).
  - split; [intros parent d r d' H; discriminate H|].
    eapply Forall_impl; [exact IHl|]. intros p' [H _]. exact H.
  - split; [|exact I].
    intros parent d r d'. cbn [Task_init].
    destruct (new_task parent d) as [self d0] eqn:Hnew.
    destruct (Task_init_items Task_init self entries d0) as [d1|] eqn:Hitems;
      cbn [mbind result_bind]; [|discriminate].
    destruct (missing_simple_properties entries); [|discriminate].
    intros [= <- <-].
    apply (Q_trans _ d0).
    { pose proof (Q_new_task parent d) as H. rewrite Hnew in H. exact H. }
    apply (Q_trans _ d1); [|apply Q_finish].
    apply (Task_init_items_preserves Task_init self entries); [|exact Hitems].
    eapply Forall_impl; [exact IHe|]. intros [k v] [_ H]. exact H.
Qed.

End Materialize_preserves.

(** The index is changed by [update_custom_data_value_to_task_map_for_task]
    alone, and that keeps every bucket free of duplicates. *)
Lemma update_index_no_duplicates d task d' :
  index_has_no_duplicates d ->
  update_custom_data_value_to_task_map_for_task task d = Ok d' ->
  index_has_no_duplicates d'.
Proof.
  intros Hnd Hupd key value.
  destruct (update_index_inv _ _ _ Hupd) as (t & m & _ & _ & ->).
  unfold tasks_for_custom_data_value. cbn [custom_data_value_to_task_map with_index].
  apply NoDup_register_items. apply Hnd.
Qed.

Lemma task_added_no_duplicates d task d' :
  index_has_no_duplicates d -> task_added task d = Ok d' -> index_has_no_duplicates d'.
Proof.
  unfold task_added. intros Hnd.
  destruct (get_task task d) as [t|]; cbn [mbind result_bind]; [|discriminate].
  destruct (task_id t) as [id|]; cbn [mbind result_bind]; [|discriminate].
  apply update_index_no_duplicates. exact Hnd.
Qed.

Lemma add_task_no_duplicates self task d d' :
  index_has_no_duplicates d -> add_task self task d = Ok d' -> index_has_no_duplicates d'.
Proof.
  unfold add_task. intros Hnd. apply task_added_no_duplicates.
  destruct self; exact Hnd.
Qed.

Lemma set_custom_data_value_no_duplicates d self name value d' :
  index_has_no_duplicates d ->
  set_custom_data_value self name value d = Ok d' ->
  index_has_no_duplicates d'.
Proof.
  unfold set_custom_data_value. intros Hnd.
  destruct (get_task self d) as [t|]; cbn [mbind result_bind]; [|discriminate].
  destruct (task_custom_data t) as [m|]; cbn [mbind result_bind]; [|discriminate].
  destruct (update_custom_data_value_to_task_map_for_task self _) as [d2|] eqn:Hupd;
    cbn [mbind result_bind]; [|discriminate].
  intros [= <-] k v.
  match type of Hupd with
  | update_custom_data_value_to_task_map_for_task _ ?d1 = _ =>
      assert (Hnd1 : index_has_no_duplicates d1) by exact Hnd;
      exact (update_index_no_duplicates d1 self d2 Hnd1 Hupd k v)
  end.
Qed.

(** Materializing a task tree goes through [task_added] only. *)
Lemma Task_init_no_duplicates p parent d r d' :
  Task_init p parent d = Ok (r, d') ->
  index_has_no_duplicates d -> index_has_no_duplicates d'.
Proof.
  apply (Task_init_preserves
           (fun d d' => index_has_no_duplicates d -> index_has_no_duplicates d')); auto.
  intros self task d0 d0' Hadd Hnd. exact (add_task_no_duplicates _ _ _ _ Hnd Hadd).
Qed.

(** ** Steps that keep the tree and the indices *)

Ltac ok_inv H :=
  repeat match type of H with
         | mbind _ ?m = Ok _ =>
             let E := fresh "E" in
             destruct m eqn:E; cbn [mbind result_bind] in H; [|discriminate H]
         end.

Lemma task_frame_refl o : task_frame o o.
Proof.
  destruct o as [t|]; cbn; [|exact I].
  repeat split; try reflexivity; exists []; now rewrite app_nil_r.
Qed.

Lemma task_frame_trans o1 o2 o3 : task_frame o1 o2 -> task_frame o2 o3 -> task_frame o1 o3.
Proof.
  destruct o1 as [t1|], o2 as [t2|], o3 as [t3|]; cbn; try tauto.
  intros (Ha & Hc & [l1 Hp] & [l2 Hd]) (Ha' & Hc' & [l1' Hp'] & [l2' Hd']).
  repeat split; try congruence.
  - exists (l1 ++ l1'). rewrite Hp', Hp. now rewrite app_assoc.
  - exists (l2 ++ l2'). rewrite Hd', Hd. now rewrite app_assoc.
Qed.

Lemma frame_refl d : frame d d.
Proof. repeat split; try reflexivity. intros r. apply task_frame_refl. Qed.

Lemma frame_trans d1 d2 d3 : frame d1 d2 -> frame d2 d3 -> frame d1 d3.
Proof.
  intros (H1 & H2 & H3 & H4 & H5) (H1' & H2' & H3' & H4' & H5').
  repeat split; try congruence.
  intros r. exact (task_frame_trans _ _ _ (H5 r) (H5' r)).
Qed.

Lemma frame_update_task d r f :
  (forall t, task_frame (Some t) (Some (f t))) -> frame d (update_task r f d).
Proof.
  intros Hf. repeat split; try reflexivity.
  intros r'. destruct (decide (r = r')) as [<-|Hne].
  - rewrite task_heap_update_task_eq.
    destruct (task_heap d !! r) as [t|]; cbn [fmap option_fmap option_map]; [apply Hf | exact I].
  - rewrite task_heap_update_task_ne by exact Hne. apply task_frame_refl.
Qed.

Lemma frame_TaskDependency_init d p q ty : frame d (TaskDependency_init p q ty d).
Proof.
  unfold TaskDependency_init.
  eapply frame_trans; apply frame_update_task; intros t; cbn;
    repeat split; try reflexivity; try (exists []; now rewrite app_nil_r); eauto.
Qed.

Lemma frame_ResourceAssignment_init d resource task units :
  frame d (ResourceAssignment_init resource task units d).2.
Proof.
  unfold ResourceAssignment_init. cbn [snd].
  eapply frame_trans; [|apply frame_update_task].
  - repeat split; try reflexivity. intros r. apply task_frame_refl.
  - intros t. cbn. repeat split; try reflexivity; exists []; now rewrite app_nil_r.
Qed.

Lemma frame_process_dependency item d d' :
  process_dependency item d = Ok d' -> frame d d'.
Proof.
  unfold process_dependency. intros H. ok_inv H.
  injection H as <-. apply frame_TaskDependency_init.
Qed.

Lemma frame_process_dependency_items items : forall d d',
  process_dependency_items items d = Ok d' -> frame d d'.
Proof.
  induction items as [|item items IH]; intros d d' H; cbn [process_dependency_items] in H.
  - injection H as <-. apply frame_refl.
  - ok_inv H. eapply frame_trans; [exact (frame_process_dependency _ _ _ E)|].
    exact (IH _ _ H).
Qed.

Lemma frame_process_dependencies_of ts : forall d d',
  process_dependencies_of ts d = Ok d' -> frame d d'.
Proof.
  induction ts as [|task ts IH]; intros d d' H; cbn [process_dependencies_of] in H.
  - injection H as <-. apply frame_refl.
  - ok_inv H. eapply frame_trans; [exact (frame_process_dependency_items _ _ _ E1)|].
    exact (IH _ _ H).
Qed.

Lemma frame_parse_assignments resource items : forall d d',
  parse_assignments resource items d = Ok d' -> frame d d'.
Proof.
  induction items as [|item items IH]; intros d d' H; cbn [parse_assignments] in H.
  - injection H as <-. apply frame_refl.
  - ok_inv H. eapply frame_trans; [apply frame_ResourceAssignment_init|].
    exact (IH _ _ H).
Qed.

Lemma frame_parse_resources_of items : forall d d',
  parse_resources_of items d = Ok d' -> frame d d'.
Proof.
  induction items as [|item items IH]; intros d d' H; cbn [parse_resources_of] in H.
  - injection H as <-. apply frame_refl.
  - ok_inv H. cbv zeta in H. ok_inv H.
    eapply frame_trans; [|exact (IH _ _ H)].
    eapply frame_trans; [|exact (frame_parse_assignments _ _ _ _ E5)].
    repeat split; try reflexivity. intros r. apply task_frame_refl.
Qed.

Lemma frame_parse_selection data d d' : parse_selection data d = Ok d' -> frame d d'.
Proof.
  unfold parse_selection. intros H. ok_inv H. injection H as <-.
  repeat split; try reflexivity. intros r. apply task_frame_refl.
Qed.

(** The traversal reads the children only. *)
Lemma descendants_of_frame levels heap heap' :
  (forall r, task_frame (heap !! r) (heap' !! r)) ->
  forall cs, descendants_of levels heap' cs = descendants_of levels heap cs.
Proof.
  intros Hframe. induction levels as [|n IH]; intros cs; cbn [descendants_of]; [reflexivity|].
  induction cs as [|c cs IHcs]; cbn [flat_map]; [reflexivity|].
  rewrite IHcs. f_equal. f_equal. rewrite IH. f_equal.
  specialize (Hframe c).
  destruct (heap !! c) as [t|], (heap' !! c) as [t'|]; cbn in Hframe; tauto.
Qed.

Lemma all_tasks_frame d d' : frame d d' -> all_tasks d' = all_tasks d.
Proof.
  intros (_ & _ & Hdoc & Hnext & Hheap).
  unfold all_tasks, descendants. cbn [children].
  rewrite Hdoc, Hnext. now apply descendants_of_frame.
Qed.

Lemma frame_no_duplicates d d' :
  frame d d' -> index_has_no_duplicates d -> index_has_no_duplicates d'.
Proof.
  intros (Hidx & _) Hnd key value.
  unfold tasks_for_custom_data_value. rewrite Hidx. apply Hnd.
Qed.

(** Every loaded document has an index without duplicates. *)
Lemma OmniPlanDocument_init_no_duplicates name data d :
  OmniPlanDocument_init name data = Ok d -> index_has_no_duplicates d.
Proof.
  unfold OmniPlanDocument_init, parse_document_data. intros H. ok_inv H.
  assert (H0 : index_has_no_duplicates (OmniPlanDocument_new name)).
  { intros key value. unfold tasks_for_custom_data_value, index_lookup. cbn.
    rewrite lookup_empty. cbn. rewrite lookup_empty. apply NoDup_nil_2. }
  assert (H1 : index_has_no_duplicates a1).
  { revert H0.
    apply (add_tasks_preserves
             (fun d d' => index_has_no_duplicates d -> index_has_no_duplicates d')
             (fun d Hd => Hd)
             (fun a b c Hab Hbc Ha => Hbc (Hab Ha))
             (fun self task d d' Hadd Hnd => add_task_no_duplicates _ _ _ _ Hnd Hadd)
             Task_init None a0); [|exact E1].
    apply Forall_forall. intros p _ parent d0 r d0' Hinit.
    exact (Task_init_no_duplicates _ _ _ _ _ Hinit). }
  apply (frame_no_duplicates a5); [exact (frame_parse_selection _ _ _ H)|].
  apply (frame_no_duplicates a4).
  { unfold process_dependencies in E5. exact (frame_process_dependencies_of _ _ _ E5). }
  apply (frame_no_duplicates a1); [exact (frame_parse_resources_of _ _ _ E4) | exact H1].
Qed.

(** A task added to a document is listed under every pair it holds. *)
Lemma task_added_lists d task d' :
  task_added task d = Ok d' ->
  exists t m,
    task_heap d !! task = Some t
    /\ task_custom_data t = Ok m
    /\ forall key value, m !! key = Some value ->
                         task ∈ tasks_for_custom_data_value d' key value.
Proof.
  unfold task_added. intros H. ok_inv H.
  apply get_task_Ok in E.
  destruct (update_index_inv _ _ _ H) as (t & m & Ht & Hm & ->).
  cbn [task_heap with_task_map] in Ht. rewrite E in Ht. injection Ht as <-.
  exists a, m. split; [exact E|]. split; [exact Hm|].
  intros key value Hkv. unfold tasks_for_custom_data_value.
  cbn [custom_data_value_to_task_map with_index with_task_map].
  apply elem_of_register_items. right. split; [reflexivity|].
  now apply elem_of_map_to_list.
Qed.

(** C3: a task listed under (name, X) that sets the field to Y is listed
    under both (name, X) and (name, Y) afterwards; no entry of any bucket is
    ever removed by the call. *)
Theorem stale_bucket_after_custom_data_change
    (d : OmniPlanDocument) (self : ref) (t : Task) (name X Y : string)
    (Ht : task_heap d !! self = Some t)
    (Hholds : custom_data_value t name = Ok (Some X))
    (Hlisted : self ∈ tasks_for_custom_data_value d name X) :
  exists d',
    set_custom_data_value self name Y d = Ok d'
    /\ self ∈ tasks_for_custom_data_value d' name X
    /\ self ∈ tasks_for_custom_data_value d' name Y
    /\ (forall key value x,
           x ∈ tasks_for_custom_data_value d key value ->
           x ∈ tasks_for_custom_data_value d' key value).
Proof.
  unfold custom_data_value in Hholds.
  destruct (task_custom_data t) as [m|] eqn:Hm; cbn in Hholds; [|discriminate].
  destruct (set_custom_data_value_Ok d self t m name Y Ht Hm) as [Hset _].
  eexists. split; [exact Hset|].
  unfold tasks_for_custom_data_value.
  cbn [custom_data_value_to_task_map update_task with_task_heap with_index].
  split; [|split].
  - apply elem_of_register_items. left. exact Hlisted.
  - apply elem_of_register_items. right. split; [reflexivity|].
    apply elem_of_map_to_list. apply lookup_insert_eq.
  - intros key value x Hx. apply elem_of_register_items. left. exact Hx.
Qed.

Lemma stale_bucket_after_custom_data_change_witness :
  exists d',
    set_custom_data_value Sample.B "k" "Y" Sample.document = Ok d'
    /\ Sample.B ∈ tasks_for_custom_data_value d' "k" "X"
    /\ Sample.B ∈ tasks_for_custom_data_value d' "k" "Y"
    /\ (forall key value x,
           x ∈ tasks_for_custom_data_value Sample.document key value ->
           x ∈ tasks_for_custom_data_value d' key value).
Proof.
  apply (stale_bucket_after_custom_data_change Sample.document Sample.B Sample.task_B
           "k" "X" "Y" sample_task_B).
  - vm_compute. reflexivity.
  - change (Sample.B ∈ [Sample.B; Sample.C]). constructor.
Defined.

(** C8: a lookup in the custom-data index gives a list, empty in a new
    document, that never lists a task twice: this holds for every loaded
    document and is kept by every index update and every
    [set_custom_data_value].  Registering a task again with unchanged custom
    data changes nothing, and after two different tasks that hold the same
    pair have registered, the lookup lists both, each once. *)
Theorem index_lookup_without_duplicates :
  (forall name key value,
      tasks_for_custom_data_value (OmniPlanDocument_new name) key value = [])
  /\ (forall name data d,
         OmniPlanDocument_init name data = Ok d -> index_has_no_duplicates d)
  /\ (forall d task d',
         index_has_no_duplicates d ->
         update_custom_data_value_to_task_map_for_task task d = Ok d' ->
         index_has_no_duplicates d')
  /\ (forall d self name value d',
         index_has_no_duplicates d ->
         set_custom_data_value self name value d = Ok d' ->
         index_has_no_duplicates d')
  /\ (forall d task d',
         update_custom_data_value_to_task_map_for_task task d = Ok d' ->
         update_custom_data_value_to_task_map_for_task task d' = Ok d')
  /\ (forall d d1 d2 task1 task2 t1 t2 key value,
         index_has_no_duplicates d ->
         task1 <> task2 ->
         task_heap d !! task1 = Some t1 ->
         custom_data_value t1 key = Ok (Some value) ->
         task_heap d !! task2 = Some t2 ->
         custom_data_value t2 key = Ok (Some value) ->
         update_custom_data_value_to_task_map_for_task task1 d = Ok d1 ->
         update_custom_data_value_to_task_map_for_task task2 d1 = Ok d2 ->
         task1 ∈ tasks_for_custom_data_value d2 key value
         /\ task2 ∈ tasks_for_custom_data_value d2 key value
         /\ NoDup (tasks_for_custom_data_value d2 key value)).
Proof.
  split; [|split; [|split; [|split; [|split]]]].
  - intros name key value. unfold tasks_for_custom_data_value, index_lookup. cbn.
    rewrite lookup_empty. cbn. now rewrite lookup_empty.
  - exact OmniPlanDocument_init_no_duplicates.
  - exact update_index_no_duplicates.
  - exact set_custom_data_value_no_duplicates.
  - intros d task d' Hupd.
    destruct (update_index_inv _ _ _ Hupd) as (t & m & Ht & Hm & ->).
    rewrite (update_index_Ok _ task t m); [|exact Ht | exact Hm].
    cbn [custom_data_value_to_task_map with_index].
    rewrite register_items_idempotent. reflexivity.
  - intros d d1 d2 task1 task2 t1 t2 key value Hnd Hne Ht1 Hv1 Ht2 Hv2 Hu1 Hu2.
    assert (Hnd2 : index_has_no_duplicates d2).
    { eapply update_index_no_duplicates; [|exact Hu2].
      eapply update_index_no_duplicates; [exact Hnd | exact Hu1]. }
    destruct (update_index_inv _ _ _ Hu1) as (t1' & m1 & Ht1' & Hm1 & ->).
    rewrite Ht1 in Ht1'. injection Ht1' as <-.
    destruct (update_index_inv _ _ _ Hu2) as (t2' & m2 & Ht2' & Hm2 & ->).
    cbn [task_heap with_index] in Ht2'. rewrite Ht2 in Ht2'. injection Ht2' as <-.
    unfold custom_data_value in Hv1, Hv2. rewrite Hm1 in Hv1. rewrite Hm2 in Hv2.
    cbn in Hv1, Hv2. injection Hv1 as Hv1. injection Hv2 as Hv2.
    split; [|split; [|apply Hnd2]];
      unfold tasks_for_custom_data_value;
      cbn [custom_data_value_to_task_map with_index].
    + apply elem_of_register_items. left.
      apply elem_of_register_items. right. split; [reflexivity|].
      now apply elem_of_map_to_list.
    + apply elem_of_register_items. right. split; [reflexivity|].
      now apply elem_of_map_to_list.
Qed.

Lemma index_lookup_without_duplicates_witness :
  exists d1 d2,
    update_custom_data_value_to_task_map_for_task Sample.B Sample.document = Ok d1
    /\ update_custom_data_value_to_task_map_for_task Sample.C d1 = Ok d2
    /\ Sample.B ∈ tasks_for_custom_data_value d2 "k" "X"
    /\ Sample.C ∈ tasks_for_custom_data_value d2 "k" "X"
    /\ NoDup (tasks_for_custom_data_value d2 "k" "X").
Proof.
  destruct index_lookup_without_duplicates as (_ & Hload & _ & _ & Hidem & Htwo).
  pose proof (Hload _ _ _ sample_document_loaded) as Hnd.
  assert (Hu : update_custom_data_value_to_task_map_for_task Sample.B Sample.document
               = Ok Sample.document) by (vm_compute; reflexivity).
  assert (Hu' : update_custom_data_value_to_task_map_for_task Sample.C Sample.document
                = Ok Sample.document) by (vm_compute; reflexivity).
  exists Sample.document, Sample.document.
  split; [exact Hu|]. split; [exact Hu'|].
  refine (Htwo Sample.document Sample.document Sample.document Sample.B Sample.C
            Sample.task_B Sample.task_C "k"%string "X"%string Hnd _ _ _ _ _ Hu Hu').
  - discriminate.
  - vm_compute. reflexivity.
  - vm_compute. reflexivity.
  - vm_compute. reflexivity.
  - vm_compute. reflexivity.
Defined.

(** ** The constructor's checks *)

Lemma in_simple_properties_spec key :
  in_simple_properties key = true <-> key ∈ simple_properties.
Proof.
  unfold in_simple_properties. rewrite existsb_exists. split.
  - intros (x & Hx & Heq). apply String.eqb_eq in Heq. subst x.
    now apply list_elem_of_In.
  - intros H. exists key. split; [now apply list_elem_of_In | apply String.eqb_refl].
Qed.

(** Only simple properties have a converter. *)
Lemma converter_is_for_simple_property key c :
  value_converter_for_property key = Some c -> in_simple_properties key = true.
Proof.
  unfold value_converter_for_property.
  repeat match goal with
         | |- context [String.eqb key ?s] =>
             destruct (String.eqb_spec key s) as [->|_]; [intros _; reflexivity|]
         end.
  discriminate.
Qed.

Lemma Task_init_items_app T self pre rest : forall d,
  Task_init_items T self (pre ++ rest) d
  = d1 ← Task_init_items T self pre d; Task_init_items T self rest d1.
Proof.
  induction pre as [|[key value] pre IH]; intros d; cbn [app Task_init_items].
  - reflexivity.
  - destruct (match value_converter_for_property key with
              | Some c => decode_omniplan_value c value
              | None => Ok (PyWire value)
              end) as [v|]; cbn [mbind result_bind]; [|reflexivity].
    destruct (in_simple_properties key); [apply IH|].
    destruct (String.eqb key "child_tasks"); [|reflexivity].
    destruct (match value with
              | PlArray l => add_tasks_for_task_data_list T (Some self) l d
              | PlDict [] => Ok d
              | PlStr EmptyString => Ok d
              | PlDict _ => Raise AttributeError
              | PlStr _ => Raise AttributeError
              | _ => Raise TypeError
              end) as [d1|]; cbn [mbind result_bind]; [apply IH | reflexivity].
Qed.

(** An unknown key stops the loop with the error that names it. *)
Lemma Task_init_items_unknown_head T self key value rest d :
  unknown_key key ->
  Task_init_items T self ((key, value) :: rest) d = Raise (UnknownKey key).
Proof.
  intros [Hsimple Hchild]. cbn [Task_init_items].
  destruct (value_converter_for_property key) as [c|] eqn:Hc.
  - apply converter_is_for_simple_property in Hc. congruence.
  - cbn [mbind result_bind]. rewrite Hsimple.
    destruct (String.eqb_spec key "child_tasks"); [contradiction | reflexivity].
Qed.

(** A bag with an unknown key never gets through the loop. *)
Lemma Task_init_items_unknown_fails T self items : forall d key,
  key ∈ map fst items -> unknown_key key ->
  exists e, Task_init_items T self items d = Raise e.
Proof.
  induction items as [|[k value] items IH]; intros d key Hin Hunknown.
  - now apply elem_of_nil in Hin.
  - cbn [map fst] in Hin. apply elem_of_cons in Hin.
    destruct (decide (key = k)) as [->|Hne].
    + rewrite Task_init_items_unknown_head by exact Hunknown. eauto.
    + destruct Hin as [Heq | Hin]; [contradiction|].
      cbn [Task_init_items].
      destruct (match value_converter_for_property k with
                | Some c => decode_omniplan_value c value
                | None => Ok (PyWire value)
                end) as [v|]; cbn [mbind result_bind]; [|eauto].
      destruct (in_simple_properties k); [exact (IH _ key Hin Hunknown)|].
      destruct (String.eqb k "child_tasks"); [|eauto].
      destruct (match value with
                | PlArray l => add_tasks_for_task_data_list T (Some self) l d
                | PlDict [] => Ok d
                | PlStr EmptyString => Ok d
                | PlDict _ => Raise AttributeError
                | PlStr _ => Raise AttributeError
                | _ => Raise TypeError
                end) as [d1|]; cbn [mbind result_bind]; [|eauto].
      exact (IH _ key Hin Hunknown).
Qed.

Lemma missing_simple_properties_spec items property :
  property ∈ missing_simple_properties items
  <-> property ∈ simple_properties /\ property ∉ map fst items.
Proof.
  unfold missing_simple_properties.
  rewrite list_elem_of_In, filter_In, negb_true_iff.
  split; intros [Hp Hk].
  - split; [now apply list_elem_of_In|].
    intros Hin. apply list_elem_of_In in Hin.
    assert (existsb (String.eqb property) (map fst items) = true); [|congruence].
    apply existsb_exists. exists property. split; [exact Hin | apply String.eqb_refl].
  - split; [now apply list_elem_of_In|].
    destruct (existsb (String.eqb property) (map fst items)) eqn:He; [|reflexivity].
    apply existsb_exists in He as (x & Hx & Heq). apply String.eqb_eq in Heq. subst x.
    exfalso. apply Hk. now apply list_elem_of_In.
Qed.

(** Objects are never removed from the store while a task is materialized. *)
Lemma Task_init_items_keeps_objects self items d d' r :
  Task_init_items Task_init self items d = Ok d' ->
  is_Some (task_heap d !! r) -> is_Some (task_heap d' !! r).
Proof.
  intros Hitems.
  set (Q := fun d d' : OmniPlanDocument =>
              is_Some (task_heap d !! r) -> is_Some (task_heap d' !! r)).
  assert (Hupd : forall r' f d0, Q d0 (update_task r' f d0)).
  { intros r' f d0 Hr. cbn. destruct (decide (r' = r)) as [Heq|Hne].
    - rewrite Heq, lookup_alter_eq. destruct Hr as [t ->]. eexists. reflexivity.
    - now rewrite lookup_alter_ne. }
  assert (Hadd : forall s task d0 d0', add_task s task d0 = Ok d0' -> Q d0 d0').
  { intros s task d0 d0' H Hr. unfold add_task, task_added in H. ok_inv H.
    destruct (update_index_inv _ _ _ H) as (t0 & m0 & _ & _ & ->).
    cbn [task_heap with_index with_task_map].
    destruct s; [apply Hupd|]; exact Hr. }
  assert (Hnew : forall parent d0, Q d0 (new_task parent d0).2).
  { intros parent d0 Hr. cbn. destruct (decide (next_task d0 = r)) as [Heq|Hne].
    - rewrite Heq, lookup_insert_eq. eexists. reflexivity.
    - now rewrite lookup_insert_ne. }
  refine (Task_init_items_preserves Q (fun _ H => H) (fun a b c Hab Hbc H => Hbc (Hab H))
            (fun s key v d0 => Hupd s _ d0) Hadd Task_init self items _ d d' Hitems).
  apply Forall_forall. intros [k v] _. cbn [snd].
  destruct v; try exact I. apply Forall_forall. intros p _.
  apply (Task_init_preserves Q (fun _ H => H) (fun a b c Hab Hbc H => Hbc (Hab H))
           Hnew (fun s key v d0 => Hupd s _ d0) Hadd (fun s d0 => Hupd s _ d0)).
Qed.

(** C5 (as amended): a bag with an unknown key makes the constructor fail,
    with the error naming that key when the entries before it were processed
    without error; a bag without some required property makes it fail, with
    the error naming every missing property when the loop over the entries
    ended without error; a construction that succeeds has consumed every key
    as a simple property or as [child_tasks], has seen every required
    property, and leaves a task with an empty list of change records. *)
Theorem constructor_checks_the_bag
    (items : list (string * Plist)) (parent : option ref) (d : OmniPlanDocument) :
  (forall key,
      key ∈ map fst items -> unknown_key key ->
      exists e, Task_init (PlDict items) parent d = Raise e)
  /\ (forall pre key value post d1,
         items = pre ++ (key, value) :: post ->
         unknown_key key ->
         Task_init_items Task_init (new_task parent d).1 pre (new_task parent d).2 = Ok d1 ->
         Task_init (PlDict items) parent d = Raise (UnknownKey key))
  /\ (forall property,
         property ∈ simple_properties -> property ∉ map fst items ->
         exists e, Task_init (PlDict items) parent d = Raise e)
  /\ (forall property d1,
         property ∈ simple_properties -> property ∉ map fst items ->
         Task_init_items Task_init (new_task parent d).1 items (new_task parent d).2 = Ok d1 ->
         exists missing,
           Task_init (PlDict items) parent d = Raise (MissingKeys missing)
           /\ property ∈ missing)
  /\ (forall self d',
         Task_init (PlDict items) parent d = Ok (self, d') ->
         (forall key, key ∈ map fst items ->
                      key ∈ simple_properties \/ key = "child_tasks"%string)
         /\ (forall property, property ∈ simple_properties -> property ∈ map fst items)
         /\ exists t, task_heap d' !! self = Some t /\ task_change_records t = Some []).
Proof.
  cbn [Task_init].
  destruct (new_task parent d) as [self d0] eqn:Hnew. cbn [fst snd].
  split; [|split; [|split; [|split]]].
  - intros key Hin Hunknown.
    destruct (Task_init_items_unknown_fails Task_init self items d0 key Hin Hunknown)
      as [e ->]. eauto.
  - intros pre key value post d1 -> Hunknown Hpre.
    rewrite Task_init_items_app, Hpre. cbn [mbind result_bind].
    now rewrite Task_init_items_unknown_head.
  - intros property Hp Hk.
    destruct (Task_init_items Task_init self items d0); cbn [mbind result_bind]; [|eauto].
    destruct (missing_simple_properties items) eqn:Hm; [|eauto].
    assert (H : property ∈ missing_simple_properties items)
      by now apply missing_simple_properties_spec.
    rewrite Hm in H. now apply elem_of_nil in H.
  - intros property d1 Hp Hk ->. cbn [mbind result_bind].
    assert (H : property ∈ missing_simple_properties items)
      by now apply missing_simple_properties_spec.
    destruct (missing_simple_properties items) eqn:Hm; [now apply elem_of_nil in H|].
    eauto.
  - intros self' d'.
    destruct (Task_init_items Task_init self items d0) as [d1|] eqn:Hitems;
      cbn [mbind result_bind]; [|discriminate].
    destruct (missing_simple_properties items) eqn:Hm; [|discriminate].
    intros [= <- <-]. split; [|split].
    + intros key Hin.
      destruct (in_simple_properties key) eqn:Hs;
        [left; now apply in_simple_properties_spec|].
      destruct (decide (key = "child_tasks"%string)) as [->|Hc]; [now right|].
      destruct (Task_init_items_unknown_fails Task_init self items d0 key Hin
                  (conj Hs Hc)) as [e He].
      congruence.
    + intros property Hp.
      destruct (decide (property ∈ map fst items)) as [Hin|Hnot]; [exact Hin|].
      assert (H : property ∈ missing_simple_properties items)
        by now apply missing_simple_properties_spec.
      rewrite Hm in H. now apply elem_of_nil in H.
    + assert (Hself : is_Some (task_heap d1 !! self)).
      { apply (Task_init_items_keeps_objects self items d0 d1 self Hitems).
        injection Hnew as <- <-. cbn. rewrite lookup_insert_eq. eexists. reflexivity. }
      destruct Hself as [t Ht]. eexists. split.
      * rewrite task_heap_update_task_eq, Ht. reflexivity.
      * reflexivity.
Qed.

Lemma constructor_checks_the_bag_witness :
  Task_init (PlDict [("bogus"%string, PlInt 1)]) None (OmniPlanDocument_new "test.oplx")
  = Raise (UnknownKey "bogus").
Proof.
  refine (proj1 (proj2 (constructor_checks_the_bag [("bogus"%string, PlInt 1)] None
                          (OmniPlanDocument_new "test.oplx")))
            [] "bogus"%string (PlInt 1) [] _ eq_refl _ eq_refl).
  split; [reflexivity | discriminate].
Defined.

(** C5, as stated, fails for a bag that has an unknown key and lacks a
    required property: the error names the unknown key and no missing
    property. *)
Lemma missing_property_is_not_always_named : ~ missing_property_is_always_named.
Proof.
  intros H.
  destruct (H [("bogus"%string, PlInt 1)] None (OmniPlanDocument_new "test.oplx")
              "id"%string) as (missing & Hraise & _).
  - apply in_simple_properties_spec. reflexivity.
  - cbn. intros Hin. apply list_elem_of_singleton in Hin. discriminate.
  - discriminate Hraise.
Qed.

(** ** Dependencies *)

Lemma frame_lookup_back d d' r t' :
  frame d d' -> task_heap d' !! r = Some t' ->
  exists t, task_heap d !! r = Some t
            /\ task_attrs t' = task_attrs t
            /\ (forall x, x ∈ dependent_tasks t -> x ∈ dependent_tasks t')
            /\ (forall x, x ∈ prerequisite_tasks t -> x ∈ prerequisite_tasks t').
Proof.
  intros (_ & _ & _ & _ & Hheap) Ht'. specialize (Hheap r). rewrite Ht' in Hheap.
  destruct (task_heap d !! r) as [t|]; cbn in Hheap; [|contradiction].
  destruct Hheap as (Ha & _ & [lp Hp] & [ld Hd]).
  exists t. split; [reflexivity|]. split; [exact Ha|].
  unfold dependent_tasks, prerequisite_tasks. rewrite Hp, Hd, !map_app.
  split; intros x Hx; apply elem_of_app; now left.
Qed.

Lemma TaskDependency_init_lists d prerequisite dependent type tp td :
  task_heap d !! prerequisite = Some tp ->
  task_heap d !! dependent = Some td ->
  exists tp' td',
    task_heap (TaskDependency_init prerequisite dependent type d) !! prerequisite = Some tp'
    /\ task_heap (TaskDependency_init prerequisite dependent type d) !! dependent = Some td'
    /\ dependent_tasks tp' = dependent_tasks tp ++ [dependent]
    /\ prerequisite_tasks td' = prerequisite_tasks td ++ [prerequisite].
Proof.
  intros Hp Hd. unfold TaskDependency_init.
  destruct (decide (dependent = prerequisite)) as [->|Hne].
  - rewrite Hp in Hd. injection Hd as <-.
    rewrite !task_heap_update_task_eq, Hp. cbn [fmap option_fmap option_map].
    eexists. eexists. split; [reflexivity|]. split; [reflexivity|].
    unfold dependent_tasks, prerequisite_tasks. cbn. rewrite !map_app. split; reflexivity.
  - rewrite task_heap_update_task_ne by exact Hne.
    rewrite !task_heap_update_task_eq, Hp.
    rewrite task_heap_update_task_ne by congruence. rewrite Hd.
    cbn [fmap option_fmap option_map].
    eexists. eexists. split; [reflexivity|]. split; [reflexivity|].
    unfold dependent_tasks, prerequisite_tasks. cbn. rewrite !map_app. split; reflexivity.
Qed.

Lemma process_dependency_edge item d d' c b C B tC tB :
  process_dependency item d = Ok d' ->
  plist_item "prerequisite_task_id" item = Ok (PlInt c) ->
  plist_item "dependent_task_id" item = Ok (PlInt b) ->
  task_map d !! c = Some C ->
  task_map d !! b = Some B ->
  task_heap d' !! C = Some tC ->
  task_heap d' !! B = Some tB ->
  C ∈ prerequisite_tasks tB /\ B ∈ dependent_tasks tC.
Proof.
  intros Hproc Hc Hb HC HB HtC HtB.
  pose proof (frame_process_dependency _ _ _ Hproc) as Hframe.
  destruct (frame_lookup_back _ _ _ _ Hframe HtC) as (tC0 & HtC0 & _).
  destruct (frame_lookup_back _ _ _ _ Hframe HtB) as (tB0 & HtB0 & _).
  unfold process_dependency in Hproc. rewrite Hc in Hproc. cbn [mbind result_bind] in Hproc.
  cbn [lookup_id] in Hproc. rewrite HC in Hproc. cbn [of_option mbind result_bind] in Hproc.
  rewrite Hb in Hproc. cbn [mbind result_bind lookup_id] in Hproc.
  rewrite HB in Hproc. cbn [of_option mbind result_bind] in Hproc.
  ok_inv Hproc. injection Hproc as <-.
  destruct (TaskDependency_init_lists d C B a1 tC0 tB0 HtC0 HtB0)
    as (tp' & td' & Hp' & Hd' & Hdeps & Hpres).
  rewrite HtC in Hp'. injection Hp' as <-.
  rewrite HtB in Hd'. injection Hd' as <-.
  rewrite Hdeps, Hpres. split; apply elem_of_app; right; constructor.
Qed.

Lemma process_dependency_items_edge items : forall d d' item c b C B tC tB,
  process_dependency_items items d = Ok d' ->
  item ∈ items ->
  plist_item "prerequisite_task_id" item = Ok (PlInt c) ->
  plist_item "dependent_task_id" item = Ok (PlInt b) ->
  task_map d !! c = Some C ->
  task_map d !! b = Some B ->
  task_heap d' !! C = Some tC ->
  task_heap d' !! B = Some tB ->
  C ∈ prerequisite_tasks tB /\ B ∈ dependent_tasks tC.
Proof.
  induction items as [|i items IH]; intros d d' item c b C B tC tB Hproc Hin Hc Hb HC HB HtC HtB.
  - now apply elem_of_nil in Hin.
  - cbn [process_dependency_items] in Hproc. ok_inv Hproc.
    pose proof (frame_process_dependency _ _ _ E) as Hf1.
    pose proof (frame_process_dependency_items _ _ _ Hproc) as Hf2.
    apply elem_of_cons in Hin as [-> | Hin].
    + destruct (frame_lookup_back _ _ _ _ Hf2 HtC) as (tC1 & HtC1 & _ & HdC & _).
      destruct (frame_lookup_back _ _ _ _ Hf2 HtB) as (tB1 & HtB1 & _ & _ & HpB).
      destruct (process_dependency_edge _ _ _ c b C B tC1 tB1 E Hc Hb HC HB HtC1 HtB1)
        as [H1 H2].
      split; [apply HpB, H1 | apply HdC, H2].
    + destruct Hf1 as (_ & Hmap & _).
      apply (IH a d' item c b C B tC tB Hproc Hin Hc Hb); try assumption;
        rewrite Hmap; assumption.
Qed.

Lemma prerequisites_data_attrs t t' :
  task_attrs t' = task_attrs t -> prerequisites_data t' = prerequisites_data t.
Proof. unfold prerequisites_data, getattr. now intros ->. Qed.

Lemma process_dependencies_of_edge ts : forall d d' task t items item c b C B tC tB,
  process_dependencies_of ts d = Ok d' ->
  task ∈ ts ->
  task_heap d' !! task = Some t ->
  prerequisites_data t = Ok items ->
  item ∈ items ->
  plist_item "prerequisite_task_id" item = Ok (PlInt c) ->
  plist_item "dependent_task_id" item = Ok (PlInt b) ->
  task_map d !! c = Some C ->
  task_map d !! b = Some B ->
  task_heap d' !! C = Some tC ->
  task_heap d' !! B = Some tB ->
  C ∈ prerequisite_tasks tB /\ B ∈ dependent_tasks tC.
Proof.
  induction ts as [|r ts IH];
    intros d d' task t items item c b C B tC tB Hproc Hin Ht Hitems Hitem Hc Hb HC HB HtC HtB.
  - now apply elem_of_nil in Hin.
  - cbn [process_dependencies_of] in Hproc. ok_inv Hproc.
    pose proof (frame_process_dependency_items _ _ _ E1) as Hf1.
    pose proof (frame_process_dependencies_of _ _ _ Hproc) as Hf2.
    apply elem_of_cons in Hin as [-> | Hin].
    + apply get_task_Ok in E.
      destruct (frame_lookup_back _ _ _ _ Hf2 Ht) as (t1 & Ht1 & Ha1 & _).
      destruct (frame_lookup_back _ _ _ _ Hf1 Ht1) as (t0 & Ht0 & Ha0 & _).
      rewrite E in Ht0. injection Ht0 as <-.
      assert (Hsame : prerequisites_data a = Ok items).
      { rewrite <- Hitems. symmetry. apply prerequisites_data_attrs. congruence. }
      rewrite Hsame in E0. injection E0 as <-.
      destruct (frame_lookup_back _ _ _ _ Hf2 HtC) as (tC1 & HtC1 & _ & HdC & _).
      destruct (frame_lookup_back _ _ _ _ Hf2 HtB) as (tB1 & HtB1 & _ & _ & HpB).
      destruct (process_dependency_items_edge items d a1 item c b C B tC1 tB1
                  E1 Hitem Hc Hb HC HB HtC1 HtB1) as [H1 H2].
      split; [apply HpB, H1 | apply HdC, H2].
    + destruct Hf1 as (_ & Hmap & _).
      apply (IH a1 d' task t items item c b C B tC tB Hproc Hin Ht Hitems Hitem Hc Hb);
        try assumption; rewrite Hmap; assumption.
Qed.

(** C6: [TaskDependency(prerequisite, dependent, type)] appends the edge to
    the prerequisite's dependents and to the dependent's prerequisites; so in
    every loaded document, for every task B of the tree and every descriptor
    in B's raw prerequisite data, the task the descriptor names as dependent
    has the named prerequisite among its [prerequisite_tasks()], and that
    prerequisite has the dependent among its [dependent_tasks()]. *)
Theorem dependency_registered_on_both_sides :
  (forall d prerequisite dependent type tp td,
      task_heap d !! prerequisite = Some tp ->
      task_heap d !! dependent = Some td ->
      exists tp' td',
        task_heap (TaskDependency_init prerequisite dependent type d) !! prerequisite
        = Some tp'
        /\ task_heap (TaskDependency_init prerequisite dependent type d) !! dependent
           = Some td'
        /\ dependent_tasks tp' = dependent_tasks tp ++ [dependent]
        /\ prerequisite_tasks td' = prerequisite_tasks td ++ [prerequisite])
  /\ (forall name data d B tB items item c b C B' tC tB',
         OmniPlanDocument_init name data = Ok d ->
         B ∈ all_tasks d ->
         task_heap d !! B = Some tB ->
         prerequisites_data tB = Ok items ->
         item ∈ items ->
         plist_item "prerequisite_task_id" item = Ok (PlInt c) ->
         plist_item "dependent_task_id" item = Ok (PlInt b) ->
         task_for_id d c = Ok C ->
         task_for_id d b = Ok B' ->
         task_heap d !! C = Some tC ->
         task_heap d !! B' = Some tB' ->
         C ∈ prerequisite_tasks tB' /\ B' ∈ dependent_tasks tC).
Proof.
  split; [exact TaskDependency_init_lists|].
  intros name data d B tB items item c b C B' tC tB'
         Hload HB HtB Hitems Hitem Hc Hb HC HB' HtC HtB'.
  unfold OmniPlanDocument_init, parse_document_data in Hload. ok_inv Hload.
  pose proof (frame_parse_selection _ _ _ Hload) as Hsel.
  unfold process_dependencies in E5.
  pose proof (frame_process_dependencies_of _ _ _ E5) as Hdeps.
  rewrite (all_tasks_frame _ _ Hsel), (all_tasks_frame _ _ Hdeps) in HB.
  destruct (frame_lookup_back _ _ _ _ Hsel HtB) as (tB5 & HtB5 & HaB & _).
  destruct (frame_lookup_back _ _ _ _ Hsel HtC) as (tC5 & HtC5 & _ & HdC & _).
  destruct (frame_lookup_back _ _ _ _ Hsel HtB') as (tB5' & HtB5' & _ & _ & HpB).
  unfold task_for_id in HC, HB'.
  destruct Hsel as (_ & Hmap1 & _). destruct Hdeps as (_ & Hmap2 & _).
  rewrite Hmap1, Hmap2 in HC, HB'.
  destruct (task_map a4 !! c) as [C0|] eqn:HC0; cbn in HC; [|discriminate].
  destruct (task_map a4 !! b) as [B0|] eqn:HB0; cbn in HB'; [|discriminate].
  injection HC as ->. injection HB' as ->.
  assert (Hitems5 : prerequisites_data tB5 = Ok items).
  { rewrite <- Hitems. symmetry. now apply prerequisites_data_attrs. }
  destruct (process_dependencies_of_edge (all_tasks a4) a4 a5 B tB5 items item c b C B'
              tC5 tB5' E5 HB HtB5 Hitems5 Hitem Hc Hb HC0 HB0 HtC5 HtB5') as [H1 H2].
  split; [apply HpB, H1 | apply HdC, H2].
Qed.

Lemma dependency_registered_on_both_sides_witness :
  Sample.C ∈ prerequisite_tasks Sample.task_B /\ Sample.B ∈ dependent_tasks Sample.task_C.
Proof.
  refine (proj2 dependency_registered_on_both_sides "test.oplx"%string Sample.document_data
            Sample.document Sample.B Sample.task_B [Sample.dependency 3 2]
            (Sample.dependency 3 2) 3 2 Sample.C Sample.B Sample.task_C Sample.task_B
            sample_document_loaded _ sample_task_B _ _ _ _ _ _ _ sample_task_B).
  - change (Sample.B ∈ [Sample.A; Sample.B; Sample.C]). apply elem_of_cons. right. constructor.
  - reflexivity.
  - constructor.
  - reflexivity.
  - reflexivity.
  - vm_compute. reflexivity.
  - vm_compute. reflexivity.
  - vm_compute. reflexivity.
Defined.


(** * Further properties of the code *)

(** ** Value converters *)

(** X1: the duration converter is an exact inverse pair: encoding the decoded
    seconds gives the seconds back, zero included, and decoding the encoded
    interval gives the interval back. *)
Theorem work_day_converter_round_trip :
  (forall seconds : Z,
      WorkDayTimeIntervalValueConverter.encode_omniplan_value
        (WorkDayTimeIntervalValueConverter.decode_omniplan_value seconds) = seconds)
  /\ (forall w : WorkDayTimeInterval.t,
         WorkDayTimeIntervalValueConverter.decode_omniplan_value
           (WorkDayTimeIntervalValueConverter.encode_omniplan_value w) = w).
Proof.
  unfold WorkDayTimeIntervalValueConverter.encode_omniplan_value,
    WorkDayTimeIntervalValueConverter.decode_omniplan_value,
    WorkDayTimeInterval.init, WorkDayTimeInterval.seconds, WorkDayTimeInterval.truthy.
  split.
  - intros seconds. destruct (Z.eqb_spec seconds 0) as [->|_]; reflexivity.
  - intros [s]. cbn. destruct (Z.eqb_spec s 0) as [->|_]; reflexivity.
Qed.

(** X2: for integer arguments, an interval built from [w] workdays equals,
    by [__eq__], the one built from [w * 28800] seconds, and [days()] gives
    [w] back; for a stored integer number of seconds [days()] rounds down to
    whole workdays. *)
Theorem workdays_and_seconds_agree (w s : Z) :
  WorkDayTimeInterval.eq (WorkDayTimeInterval.init None (Some w))
                         (WorkDayTimeInterval.init (Some (w * 28800)) None) = true
  /\ WorkDayTimeInterval.ne (WorkDayTimeInterval.init None (Some w))
                            (WorkDayTimeInterval.init (Some (w * 28800)) None) = false
  /\ WorkDayTimeInterval.days (WorkDayTimeInterval.init None (Some w)) = w
  /\ WorkDayTimeInterval.days (WorkDayTimeInterval.init (Some s) None) * 28800 <= s
     < WorkDayTimeInterval.days (WorkDayTimeInterval.init (Some s) None) * 28800 + 28800.
Proof.
  assert (Hw : WorkDayTimeInterval.init None (Some w) = WorkDayTimeInterval.mk (w * 28800)).
  { unfold WorkDayTimeInterval.init, WorkDayTimeInterval.truthy. cbn.
    destruct (Z.eqb_spec w 0) as [->|_]; reflexivity. }
  assert (Hs : forall x, WorkDayTimeInterval.init (Some x) None = WorkDayTimeInterval.mk x).
  { intros x. unfold WorkDayTimeInterval.init, WorkDayTimeInterval.truthy. cbn.
    destruct (Z.eqb_spec x 0) as [->|_]; reflexivity. }
  rewrite Hw, !Hs.
  unfold WorkDayTimeInterval.ne, WorkDayTimeInterval.eq, WorkDayTimeInterval.days,
    WorkDayTimeInterval.SECONDS_PER_WORKDAY. cbn.
  rewrite Z.eqb_refl. repeat split; try reflexivity.
  - apply Z.div_mul. discriminate.
  - Z.div_mod_to_equations. lia.
  - Z.div_mod_to_equations. lia.
Qed.

(** X3: four-character codes outside C7's printable range.  Packing fails
    exactly outside the signed 32-bit range and unpacking fails exactly on
    strings that are not four bytes long; wherever one direction succeeds the
    other undoes it, negative values and unprintable bytes included. *)
Theorem four_character_code_domains (v : Z) (s : string) :
  (FourCharacterCode.value_to_string v = None <-> v < - 2 ^ 31 \/ 2 ^ 31 - 1 < v)
  /\ (FourCharacterCode.string_to_value s = None <-> String.length s <> 4%nat)
  /\ (FourCharacterCode.value_to_string v = Some s ->
      String.length s = 4%nat /\ FourCharacterCode.string_to_value s = Some v)
  /\ (FourCharacterCode.string_to_value s = Some v ->
      - 2 ^ 31 <= v <= 2 ^ 31 - 1 /\ FourCharacterCode.value_to_string v = Some s).
Proof.
  split; [|split; [|split]].
  - unfold FourCharacterCode.value_to_string, FourCharacterCode.INT_MIN,
      FourCharacterCode.INT_MAX.
    destruct (Z.leb_spec (- 2 ^ 31) v) as [Hlo|Hlo],
             (Z.leb_spec v (2 ^ 31 - 1)) as [Hhi|Hhi]; cbn;
      split; intros Hv; try discriminate; try lia; reflexivity.
  - destruct s as [|a [|b [|c [|d [|e s]]]]]; cbn; split; intros Hs;
      try discriminate; try reflexivity; try lia; contradiction.
  - intros H. split; [|exact (unpack_pack _ _ H)].
    unfold FourCharacterCode.value_to_string in H.
    destruct (_ && _); [|discriminate]. injection H as <-. reflexivity.
  - intros H. pose proof (pack_unpack _ _ H) as Hp. split; [|exact Hp].
    unfold FourCharacterCode.value_to_string, FourCharacterCode.INT_MIN,
      FourCharacterCode.INT_MAX in Hp.
    destruct (Z.leb_spec (- 2 ^ 31) v) as [Hlo|Hlo],
             (Z.leb_spec v (2 ^ 31 - 1)) as [Hhi|Hhi]; cbn in Hp;
      try discriminate. lia.
Qed.

Lemma four_character_code_domains_witness :
  String.length "OPTS" = 4%nat
  /\ FourCharacterCode.string_to_value "OPTS" = Some 1330664531.
Proof.
  apply (proj1 (proj2 (proj2 (four_character_code_domains 1330664531 "OPTS")))).
  reflexivity.
Defined.

Lemma decode_pairs_custom_pairs kvs : forall acc,
  CustomDataValueConverter.decode_pairs (map custom_pair kvs) acc
  = Ok (foldl (fun acc kv => <[kv.1 := kv.2]> acc) acc kvs).
Proof.
  induction kvs as [|[k v] kvs IH]; intros acc; cbn; [reflexivity | apply IH].
Qed.

Lemma foldl_insert_other (kvs : list (string * string)) :
  forall (acc : gmap string string) k,
  k ∉ kvs.*1 ->
  foldl (fun acc kv => <[kv.1 := kv.2]> acc) acc kvs !! k = acc !! k.
Proof.
  induction kvs as [|[k' v'] kvs IH]; intros acc k Hk; cbn; [reflexivity|].
  cbn in Hk. apply not_elem_of_cons in Hk as [Hne Hk].
  rewrite IH by exact Hk. now apply lookup_insert_ne.
Qed.

Lemma foldl_insert_last (l1 l2 : list (string * string)) (acc : gmap string string) k v :
  k ∉ l2.*1 ->
  foldl (fun acc kv => <[kv.1 := kv.2]> acc) acc (l1 ++ (k, v) :: l2) !! k = Some v.
Proof.
  intros Hk. rewrite foldl_app. cbn.
  rewrite foldl_insert_other by exact Hk. apply lookup_insert_eq.
Qed.

(** X4: decoding the encoding of a custom-data dictionary gives the
    dictionary back. *)
Theorem custom_data_round_trip (data_dict : gmap string string) :
  CustomDataValueConverter.decode_omniplan_value
    (CustomDataValueConverter.encode_omniplan_value data_dict) = Ok data_dict.
Proof.
  unfold CustomDataValueConverter.decode_omniplan_value,
    CustomDataValueConverter.encode_omniplan_value. cbn [plist_array mbind result_bind].
  change (map _ (map_to_list data_dict)) with (map custom_pair (map_to_list data_dict)).
  rewrite decode_pairs_custom_pairs. f_equal. apply map_eq. intros k.
  destruct (data_dict !! k) as [v|] eqn:Hk.
  - apply elem_of_map_to_list in Hk.
    apply list_elem_of_split in Hk as (l1 & l2 & Hsplit).
    pose proof (NoDup_fst_map_to_list data_dict) as Hnd.
    rewrite Hsplit in Hnd |- *. apply foldl_insert_last.
    rewrite fmap_app in Hnd. cbn in Hnd.
    apply NoDup_app in Hnd as (_ & _ & Hnd). now apply NoDup_cons in Hnd as [Hnot _].
  - rewrite foldl_insert_other; [apply lookup_empty|].
    intros Hin. apply list_elem_of_fmap in Hin as ([k' v] & -> & Hin).
    apply elem_of_map_to_list in Hin. cbn in Hk. congruence.
Qed.

(** X5: decoding a list of pair records keeps, for a name that occurs more
    than once, the value of its last pair; a record without a name makes the
    decoding fail with a [KeyError]. *)
Theorem custom_data_decode_last_pair_wins
    (before after : list (string * string)) (name value : string)
    (Hlast : name ∉ after.*1) :
  (exists data_dict,
      CustomDataValueConverter.decode_omniplan_value
        (PlArray (map custom_pair (before ++ (name, value) :: after))) = Ok data_dict
      /\ data_dict !! name = Some value)
  /\ CustomDataValueConverter.decode_omniplan_value
       (PlArray (map custom_pair before ++ PlDict [("value"%string, PlStr value)]
                   :: map custom_pair after)) = Raise KeyError.
Proof.
  unfold CustomDataValueConverter.decode_omniplan_value. cbn [plist_array mbind result_bind].
  split.
  - rewrite decode_pairs_custom_pairs. eexists. split; [reflexivity|].
    now apply foldl_insert_last.
  - generalize (∅ : gmap string string).
    induction before as [|[k v] before IH]; intros acc; cbn; [reflexivity | apply IH].
Qed.

Lemma custom_data_decode_last_pair_wins_witness :
  exists data_dict,
    CustomDataValueConverter.decode_omniplan_value
      (PlArray (map custom_pair ([("k"%string, "X"%string)]
                                  ++ ("k"%string, "Y"%string) :: [("j"%string, "Z"%string)])))
    = Ok data_dict
    /\ data_dict !! "k"%string = Some "Y"%string.
Proof.
  refine (proj1 (custom_data_decode_last_pair_wins [("k"%string, "X"%string)]
                   [("j"%string, "Z"%string)] "k" "Y" _)).
  cbn. intros H. apply list_elem_of_singleton in H. discriminate.
Defined.

(** ** Resources *)

(** X6: a resource assignment is listed on both of its ends: the resource
    gains the task at the end of [assigned_tasks()], the task gains the
    resource at the end of [assigned_resources()]; [assign_to_resource]
    does this with one unit and appends one document-scoped change record to
    the task. *)
Theorem resource_assignment_on_both_sides
    (d : OmniPlanDocument) (resource task : ref) (r : Resource) (t : Task)
    (Hr : resource_heap d !! resource = Some r)
    (Ht : task_heap d !! task = Some t) :
  (forall units,
      let d' := (ResourceAssignment_init resource task units d).2 in
      exists r' t',
        resource_heap d' !! resource = Some r'
        /\ task_heap d' !! task = Some t'
        /\ assigned_tasks r' = assigned_tasks r ++ [task]
        /\ assigned_resources t' = assigned_resources t ++ [resource])
  /\ (forall records,
         task_change_records t = Some records ->
         let d' := assign_to_resource task resource d in
         exists r' t',
           resource_heap d' !! resource = Some r'
           /\ task_heap d' !! task = Some t'
           /\ assigned_tasks r' = assigned_tasks r ++ [task]
           /\ assigned_resources t' = assigned_resources t ++ [resource]
           /\ task_change_records t'
              = Some (records ++ [AddResourceAssignmentTaskChangeRecord
                                    (mkResourceAssignment resource task 1)])
           /\ targets_document (AddResourceAssignmentTaskChangeRecord
                                  (mkResourceAssignment resource task 1)) = true).
Proof.
  split.
  - intros units d'. subst d'. unfold ResourceAssignment_init. cbn [snd].
    rewrite task_heap_update_task_eq. cbn [task_heap resource_heap update_task
      with_task_heap with_resource_heap].
    rewrite lookup_alter_eq, Hr, Ht. cbn [fmap option_fmap option_map].
    eexists. eexists. split; [reflexivity|]. split; [reflexivity|].
    unfold assigned_tasks, assigned_resources. cbn. rewrite !map_app. split; reflexivity.
  - intros records Hrecords d'. subst d'. unfold assign_to_resource, ResourceAssignment_init.
    rewrite !task_heap_update_task_eq. cbn [task_heap resource_heap update_task
      with_task_heap with_resource_heap].
    rewrite lookup_alter_eq, Hr, Ht. cbn [fmap option_fmap option_map].
    eexists. eexists. split; [reflexivity|]. split; [reflexivity|].
    unfold assigned_tasks, assigned_resources, add_change_record. cbn.
    rewrite Hrecords. cbn.
    split; [now rewrite map_app|]. split; [now rewrite map_app|].
    split; reflexivity.
Qed.

Lemma sample_resource_R :
  resource_heap Sample.document !! Sample.R
  = Some (mkResource 7 "R" [mkResourceAssignment Sample.R Sample.B 1]).
Proof. vm_compute. reflexivity. Qed.

Lemma resource_assignment_on_both_sides_witness :
  let d' := (ResourceAssignment_init Sample.R Sample.B 2 Sample.document).2 in
  exists r' t',
    resource_heap d' !! Sample.R = Some r'
    /\ task_heap d' !! Sample.B = Some t'
    /\ assigned_tasks r'
       = assigned_tasks (mkResource 7 "R" [mkResourceAssignment Sample.R Sample.B 1])
         ++ [Sample.B]
    /\ assigned_resources t' = assigned_resources Sample.task_B ++ [Sample.R].
Proof.
  exact (proj1 (resource_assignment_on_both_sides Sample.document Sample.R Sample.B _ _
                  sample_resource_R sample_task_B) 2).
Defined.

(** ** Commit *)

(** X7: a dry run never reaches the bridge, prints exactly the script that a
    real commit of the same document sends, and empties the pending list just
    as a real commit does. *)
Theorem dry_run_prints_what_commit_sends
    (osascript : string -> result string)
    (d : OmniPlanDocument) (self : ref) (t : Task) (records : list TaskChangeRecord)
    (Ht : task_heap d !! self = Some t)
    (Hrecords : task_change_records t = Some records) :
  (forall script, Ran script ∉ trace (commit_changes osascript true self d))
  /\ (forall code,
         trace (commit_changes osascript false self d) = [Ran code]
         <-> trace (commit_changes osascript true self d) = [Printed code])
  /\ state (commit_changes osascript true self d)
     = state (commit_changes osascript false self d).
Proof.
  rewrite !(commit_changes_eq _ _ _ _ _ _ Ht Hrecords). cbv zeta.
  destruct (commit_script _ _ _ _) as [code|e]; cbn.
  - destruct (osascript code); cbn.
    + split; [|split].
      * intros script Hin. apply list_elem_of_singleton in Hin. discriminate.
      * intros c. split; intros [= ->]; reflexivity.
      * reflexivity.
    + split; [|split].
      * intros script Hin. apply list_elem_of_singleton in Hin. discriminate.
      * intros c. split; intros [= ->]; reflexivity.
      * reflexivity.
  - split; [|split].
    + intros script Hin. now apply elem_of_nil in Hin.
    + intros c. split; discriminate.
    + reflexivity.
Qed.

Lemma dry_run_prints_what_commit_sends_witness :
  state (commit_changes Sample.osascript true Sample.B Sample.edited)
  = state (commit_changes Sample.osascript false Sample.B Sample.edited).
Proof.
  exact (proj2 (proj2 (dry_run_prints_what_commit_sends Sample.osascript Sample.edited
                         Sample.B Sample.task_B_edited _ sample_task_B_edited eq_refl))).
Defined.

Lemma task_attrs_add_change_record record t :
  task_attrs (add_change_record record t) = task_attrs t.
Proof. unfold add_change_record. destruct (task_change_records t); reflexivity. Qed.

Lemma task_attrs_Task_setattr self key value t :
  task_attrs (Task_setattr self key value t) = <[key := value]> (task_attrs t).
Proof.
  unfold Task_setattr. destruct (mutable_simple_properties key); cbn;
    [now rewrite task_attrs_add_change_record | reflexivity].
Qed.

(** One assignment to a mutable property of a constructed task. *)
Lemma setattr_record d self t records key value :
  task_heap d !! self = Some t ->
  task_change_records t = Some records ->
  key ∈ ["effort"; "name"; "completed_effort"]%string ->
  task_heap (setattr self key value d) !! self = Some (Task_setattr self key value t)
  /\ task_change_records (Task_setattr self key value t)
     = Some (records ++ [SimplePropertyTaskChangeRecord self key (getattr_or_none t key)]).
Proof.
  intros Ht Hrecords Hkey. split.
  - unfold setattr. rewrite task_heap_update_task_eq, Ht. reflexivity.
  - assert (Hm : is_Some (mutable_simple_properties key)).
    { rewrite !elem_of_cons in Hkey.
      destruct Hkey as [-> | [-> | [-> | H]]]; [eexists; reflexivity ..|].
      now apply elem_of_nil in H. }
    destruct Hm as [desc Hdesc].
    unfold Task_setattr. rewrite Hdesc.
    rewrite (add_change_record_Some _ _ _ Hrecords). reflexivity.
Qed.

Lemma setattr_then_commit osascript d self t id key value text :
  task_heap d !! self = Some t ->
  task_change_records t = Some [] ->
  task_id t = Ok id ->
  brace_free (doc_name d) = true ->
  is_ascii (doc_name d) = true ->
  key ∈ ["effort"; "name"; "completed_effort"]%string ->
  applescript_value_for_property_and_value key value = Ok text ->
  exists applescript_name,
    applescript_name_for_property key = Ok applescript_name
    /\ trace (commit_changes osascript false self (setattr self key value d))
       = [Ran (document_scope (doc_name d)
                 (task_scope id (set_operation applescript_name text))
               ++ document_scope (doc_name d) "")%string].
Proof.
  intros Ht Hclean Hid Hname Hascii Hkey Htext.
  destruct (setattr_record d self t [] key value Ht Hclean Hkey) as [Ht1 Hrs1].
  set (t1 := Task_setattr self key value t) in *.
  assert (Hv1 : task_attrs t1 !! key = Some value).
  { subst t1. rewrite task_attrs_Task_setattr. apply lookup_insert_eq. }
  destruct (render_simple_property (setattr self key value d) self t1 key
              (getattr_or_none t key) value text Ht1 Hkey Hv1 Htext) as (an & Han & Hop).
  exists an. split; [exact Han|].
  assert (Hne : key <> "id"%string).
  { intros ->. rewrite !elem_of_cons in Hkey.
    destruct Hkey as [H | [H | [H | H]]]; try discriminate;
      try (now apply elem_of_nil in H). }
  assert (Hid1 : task_id t1 = Ok id).
  { rewrite <- Hid. unfold task_id, getattr. subst t1.
    rewrite task_attrs_Task_setattr. now rewrite lookup_insert_ne by exact Hne. }
  assert (Hname1 : brace_free (doc_name (setattr self key value d)) = true) by exact Hname.
  assert (Htask : map_result (change_applescript_code (setattr self key value d))
                    (List.filter (fun r => negb (targets_document r))
                       ([] ++ [SimplePropertyTaskChangeRecord self key (getattr_or_none t key)]))
                  = Ok [set_operation an text]).
  { cbn [app List.filter targets_document negb map_result]. rewrite Hop. reflexivity. }
  assert (Hascii1 : is_ascii (doc_name (setattr self key value d)) = true) by exact Hascii.
  assert (Hat : forallb is_ascii [set_operation an text] = true).
  { cbn [forallb]. rewrite is_ascii_set_operation;
      [reflexivity
      | exact (applescript_name_is_ascii key an Hkey Han)
      | exact (applescript_value_is_ascii key value text Hkey Htext)]. }
  pose proof (commit_changes_script osascript (setattr self key value d) self t1 id _
                [set_operation an text] [] Ht1 Hrs1 Hid1 Hname1 Hascii1 Htask eq_refl
                Hat eq_refl) as Hscript.
  exact Hscript.
Qed.

(** A name with a byte above 127 cannot be rendered: the unicode template of
    the quoted value refuses it, and the commit raises before it prints or
    sends anything. *)
Lemma setattr_non_ascii_name_then_commit osascript dry_run d self t s :
  task_heap d !! self = Some t ->
  task_change_records t = Some [] ->
  is_ascii s = false ->
  let o := commit_changes osascript dry_run self (setattr self "name" (PyStr s) d) in
  trace o = [] /\ raised o = Some UnicodeError.
Proof.
  intros Ht Hclean Hs.
  destruct (setattr_record d self t [] "name" (PyStr s) Ht Hclean) as [Ht1 Hrs1];
    [repeat constructor|].
  set (t1 := Task_setattr self "name" (PyStr s) t) in *.
  set (d1 := setattr self "name" (PyStr s) d) in *.
  assert (Hv1 : task_attrs t1 !! "name"%string = Some (PyStr s)).
  { subst t1. rewrite task_attrs_Task_setattr. apply lookup_insert_eq. }
  assert (Hop : forall d2 t2 old,
             task_heap d2 !! self = Some t2 ->
             task_attrs t2 !! "name"%string = Some (PyStr s) ->
             change_applescript_code d2 (SimplePropertyTaskChangeRecord self "name" old)
             = Raise UnicodeError).
  { intros d2 t2 old Ht2 Hv2. cbn [change_applescript_code].
    rewrite (get_task_Some _ _ _ Ht2). cbn [mbind result_bind].
    unfold getattr. rewrite Hv2. cbn [of_option mbind result_bind].
    unfold applescript_value_for_property_and_value,
      converted_value_for_property_and_value. cbn.
    rewrite is_ascii_escape_quotes, Hs. reflexivity. }
  cbv zeta. rewrite (commit_changes_eq _ _ _ _ _ _ Ht1 Hrs1). cbv zeta.
  unfold commit_script. cbn [app List.filter targets_document negb map_result].
  rewrite (Hop _ (clear_change_records t1) _).
  - cbn. auto.
  - rewrite task_heap_update_task_eq. fold d1. rewrite Ht1. reflexivity.
  - now rewrite task_attrs_clear.
Qed.


(** X8: the write path of the three mutable properties.  On a task without
    pending records (integer identifier, document name ASCII without
    braces), assigning the property and committing sends one script whose
    task scope holds one operation: [set effort to] the interval's seconds,
    [set completed effort to] the interval's seconds (the host's name of the
    property differs from the attribute's), or, for an ASCII text, [set name
    to] the text between double quotes with every double quote of the text
    preceded by a backslash.  A name with a byte above 127 makes the commit
    raise a [UnicodeError] before anything is printed or sent. *)
Theorem property_write_path
    (osascript : string -> result string)
    (d : OmniPlanDocument) (self : ref) (t : Task) (id : Z)
    (Ht : task_heap d !! self = Some t)
    (Hclean : task_change_records t = Some [])
    (Hid : task_id t = Ok id)
    (Hname : brace_free (doc_name d) = true)
    (Hascii : is_ascii (doc_name d) = true) :
  (forall w : WorkDayTimeInterval.t,
      trace (commit_changes osascript false self (setattr self "effort" (PyInterval w) d))
      = [Ran (document_scope (doc_name d)
                (task_scope id (set_operation "effort"
                                  (str_int (WorkDayTimeInterval.seconds w))))
              ++ document_scope (doc_name d) "")%string])
  /\ (forall w : WorkDayTimeInterval.t,
         trace (commit_changes osascript false self
                  (setattr self "completed_effort" (PyInterval w) d))
         = [Ran (document_scope (doc_name d)
                   (task_scope id (set_operation "completed effort"
                                     (str_int (WorkDayTimeInterval.seconds w))))
                 ++ document_scope (doc_name d) "")%string])
  /\ (forall s : string,
         is_ascii s = true ->
         trace (commit_changes osascript false self (setattr self "name" (PyStr s) d))
         = [Ran (document_scope (doc_name d)
                   (task_scope id (set_operation "name" (dq ++ escape_quotes s ++ dq)))
                 ++ document_scope (doc_name d) "")%string])
  /\ (forall (s : string) (dry_run : bool),
         is_ascii s = false ->
         let o := commit_changes osascript dry_run self (setattr self "name" (PyStr s) d) in
         trace o = [] /\ raised o = Some UnicodeError).
Proof.
  split; [|split; [|split]].
  - intros w.
    destruct (setattr_then_commit osascript d self t id "effort" (PyInterval w)
                (str_int (WorkDayTimeInterval.seconds w)) Ht Hclean Hid Hname Hascii)
      as (an & Han & Htrace); [constructor | reflexivity |].
    injection Han as <-. exact Htrace.
  - intros w.
    destruct (setattr_then_commit osascript d self t id "completed_effort" (PyInterval w)
                (str_int (WorkDayTimeInterval.seconds w)) Ht Hclean Hid Hname Hascii)
      as (an & Han & Htrace); [repeat constructor | reflexivity |].
    injection Han as <-. exact Htrace.
  - intros s Hs.
    destruct (setattr_then_commit osascript d self t id "name" (PyStr s)
                (dq ++ escape_quotes s ++ dq) Ht Hclean Hid Hname Hascii)
      as (an & Han & Htrace); [repeat constructor | |].
    + unfold applescript_value_for_property_and_value,
        converted_value_for_property_and_value. cbn.
      rewrite is_ascii_escape_quotes, Hs. reflexivity.
    + injection Han as <-. exact Htrace.
  - intros s dry_run Hs.
    exact (setattr_non_ascii_name_then_commit osascript dry_run d self t s Ht Hclean Hs).
Qed.

Lemma property_write_path_witness :
  trace (commit_changes Sample.osascript false Sample.B
           (setattr Sample.B "name" (PyStr "hello") Sample.document))
  = [Ran (document_scope (doc_name Sample.document)
            (task_scope 2 (set_operation "name" (dq ++ escape_quotes "hello" ++ dq)))
          ++ document_scope (doc_name Sample.document) "")%string].
Proof.
  exact (proj1 (proj2 (proj2 (property_write_path Sample.osascript Sample.document Sample.B
                                Sample.task_B 2 sample_task_B eq_refl eq_refl eq_refl
                                eq_refl)))
           "hello"%string eq_refl).
Defined.

(** ** Custom data and untracked attributes *)

(** The constructor assigns, through [setattr], the properties of the
    payload only; none of them is a structural attribute. *)
Lemma simple_properties_are_not_structural key :
  in_simple_properties key = true -> key ∉ structural_attributes.
Proof.
  intros Hkey Hfield. unfold structural_attributes in Hfield.
  rewrite !elem_of_cons in Hfield.
  destruct Hfield as [-> | [-> | [-> | [-> | [-> | [-> | H]]]]]];
    try discriminate Hkey.
  now apply elem_of_nil in H.
Qed.

(** X9: [set_custom_data_value] followed by [custom_data_value] reads the new
    value back; the other fields of the task's custom data, its other
    attributes, every other task and the identifier index are unchanged.  On a
    task that has no custom data attribute the call raises. *)
Theorem set_custom_data_value_reads_back
    (d : OmniPlanDocument) (self : ref) (t : Task) (name value : string) :
  task_heap d !! self = Some t ->
  (forall m,
      task_custom_data t = Ok m ->
      exists d' t',
        set_custom_data_value self name value d = Ok d'
        /\ task_heap d' !! self = Some t'
        /\ custom_data_value t' name = Ok (Some value)
        /\ (forall other, other <> name -> custom_data_value t' other = Ok (m !! other))
        /\ (forall key, key <> "custom_data"%string ->
                        task_attrs t' !! key = task_attrs t !! key)
        /\ (forall r, r <> self -> task_heap d' !! r = task_heap d !! r)
        /\ task_map d' = task_map d)
  /\ (task_attrs t !! "custom_data"%string = None ->
      set_custom_data_value self name value d = Raise AttributeError).
Proof.
  intros Ht. split.
  - intros m Hm.
    destruct (set_custom_data_value_Ok d self t m name value Ht Hm) as [Hset Ht1].
    eexists. eexists. split; [exact Hset|].
    rewrite task_heap_update_task_eq. cbn [task_heap with_index].
    rewrite Ht1. cbn [fmap option_fmap option_map].
    split; [reflexivity|].
    unfold custom_data_value, task_custom_data, getattr.
    rewrite !task_attrs_add_change_record. cbn [task_attrs with_attrs].
    rewrite lookup_insert_eq. cbn.
    split; [now rewrite lookup_insert_eq|].
    split; [intros other Hne; now rewrite lookup_insert_ne by congruence|].
    split; [intros key Hne; now rewrite lookup_insert_ne by congruence|].
    split; [|reflexivity].
    intros r Hne. cbn. now rewrite !lookup_alter_ne by congruence.
  - intros Hnone. unfold set_custom_data_value.
    rewrite (get_task_Some _ _ _ Ht). cbn [mbind result_bind].
    unfold task_custom_data, getattr. rewrite Hnone. reflexivity.
Qed.

Lemma set_custom_data_value_reads_back_witness :
  exists d' t',
    set_custom_data_value Sample.B "k" "Y" Sample.document = Ok d'
    /\ task_heap d' !! Sample.B = Some t'
    /\ custom_data_value t' "k" = Ok (Some "Y"%string).
Proof.
  destruct (proj1 (set_custom_data_value_reads_back Sample.document Sample.B Sample.task_B
                     "k" "Y" sample_task_B) {["k"%string := "X"%string]})
    as (d' & t' & H1 & H2 & H3 & _).
  - vm_compute. reflexivity.
  - exists d', t'. auto.
Defined.

(** X10: assigning an attribute that is neither one of the three mutable
    properties nor one of the structural attributes of the object ([tasks],
    [parent], [change_records] and the like) stores the value and leaves the
    pending records as they are; and a change record for a property that is
    not mutable can never be rendered: rendering raises. *)
Theorem untracked_property_is_not_recorded
    (d : OmniPlanDocument) (self : ref) (t : Task) (key : string) (value : PyVal)
    (Ht : task_heap d !! self = Some t)
    (Hkey : key ∉ ["effort"; "name"; "completed_effort"]%string)
    (Hfield : key ∉ structural_attributes) :
  (exists t',
      task_heap (setattr self key value d) !! self = Some t'
      /\ task_change_records t' = task_change_records t
      /\ task_attrs t' !! key = Some value)
  /\ (forall d0 task old,
         exists e,
           change_applescript_code d0 (SimplePropertyTaskChangeRecord task key old)
           = Raise e).
Proof.
  assert (Hm : mutable_simple_properties key = None).
  { unfold mutable_simple_properties.
    repeat match goal with
           | |- context [String.eqb key ?s] =>
               destruct (String.eqb_spec key s) as [->|_];
               [exfalso; apply Hkey; repeat constructor|]
           end.
    reflexivity. }
  split.
  - exists (Task_setattr self key value t). split.
    + unfold setattr. rewrite task_heap_update_task_eq, Ht. reflexivity.
    + unfold Task_setattr. rewrite Hm. cbn. split; [reflexivity | apply lookup_insert_eq].
  - intros d0 task old. cbn [change_applescript_code].
    destruct (get_task task d0) as [t0|]; cbn [mbind result_bind]; [|eauto].
    destruct (getattr t0 key) as [v|]; cbn [mbind result_bind]; [|eauto].
    unfold applescript_value_for_property_and_value. rewrite Hm.
    destruct (converted_value_for_property_and_value key v); cbn; eauto.
Qed.

Lemma untracked_property_is_not_recorded_witness :
  exists t',
    task_heap (setattr Sample.B "priority" (PyInt 5) Sample.document) !! Sample.B = Some t'
    /\ task_change_records t' = task_change_records Sample.task_B
    /\ task_attrs t' !! "priority"%string = Some (PyInt 5).
Proof.
  refine (proj1 (untracked_property_is_not_recorded Sample.document Sample.B Sample.task_B
                   "priority" (PyInt 5) sample_task_B _ _)).
  - intros H. rewrite !elem_of_cons in H.
    destruct H as [H | [H | [H | H]]]; try discriminate. now apply elem_of_nil in H.
  - intros H. unfold structural_attributes in H. rewrite !elem_of_cons in H.
    destruct H as [H | [H | [H | [H | [H | [H | H]]]]]]; try discriminate.
    now apply elem_of_nil in H.
Defined.

(** ** Every record is rendered once *)

Lemma map_result_partition {A B} (f : A -> result B) (p : A -> bool) l : forall xs ys,
  map_result f (List.filter (fun x => negb (p x)) l) = Ok xs ->
  map_result f (List.filter p l) = Ok ys ->
  exists zs, map_result f l = Ok zs /\ xs ++ ys ≡ₚ zs.
Proof.
  induction l as [|a l IH]; intros xs ys Hx Hy; cbn in *.
  - injection Hx as <-. injection Hy as <-. exists []. split; reflexivity.
  - destruct (p a); cbn in *.
    + destruct (f a) as [b|]; cbn in *; [|discriminate].
      destruct (map_result f (List.filter p l)) as [ys'|] eqn:Hy'; cbn in Hy; [|discriminate].
      injection Hy as <-.
      destruct (IH xs ys' Hx eq_refl) as (zs & -> & Hperm).
      exists (b :: zs). split; [reflexivity|].
      rewrite <- Hperm. symmetry. apply Permutation_middle.
    + destruct (f a) as [b|]; cbn in *; [|discriminate].
      destruct (map_result f (List.filter (fun x => negb (p x)) l)) as [xs'|] eqn:Hx';
        cbn in Hx; [|discriminate].
      injection Hx as <-.
      destruct (IH xs' ys eq_refl Hy) as (zs & -> & Hperm).
      exists (b :: zs). split; [reflexivity|]. cbn. now rewrite Hperm.
Qed.

(** X11: the operations of a commit are, up to the order of the two scopes,
    the renderings of the pending records: each record is rendered exactly
    once, none is dropped or repeated; and when one record cannot be rendered
    the commit renders no script at all. *)
Theorem commit_renders_every_record_once
    (d : OmniPlanDocument) (records : list TaskChangeRecord) :
  (forall ops,
      commit_operations d records = Ok ops ->
      exists rendered,
        map_result (change_applescript_code d) records = Ok rendered
        /\ ops ≡ₚ rendered)
  /\ (forall e,
         map_result (change_applescript_code d) records = Raise e ->
         exists e', commit_operations d records = Raise e').
Proof.
  assert (Hfirst : forall ops,
             commit_operations d records = Ok ops ->
             exists rendered,
               map_result (change_applescript_code d) records = Ok rendered
               /\ ops ≡ₚ rendered).
  { intros ops H. unfold commit_operations in H. ok_inv H. injection H as <-.
    exact (map_result_partition _ targets_document records _ _ E E0). }
  split; [exact Hfirst|].
  intros e He. destruct (commit_operations d records) as [ops|e'] eqn:Hops; [|eauto].
  destruct (Hfirst ops eq_refl) as (rendered & Hr & _). congruence.
Qed.


(** X12: when a pending record cannot be rendered, the commit ends with an
    exception without printing or sending anything, and the pending list is
    empty afterwards all the same: the whole batch is lost. *)
Theorem unrenderable_record_loses_the_batch
    (osascript : string -> result string) (dry_run : bool)
    (d : OmniPlanDocument) (self : ref) (t : Task)
    (records : list TaskChangeRecord) (e : Exn)
    (Ht : task_heap d !! self = Some t)
    (Hrecords : task_change_records t = Some records)
    (Hfail : map_result (change_applescript_code d) records = Raise e) :
  let o := commit_changes osascript dry_run self d in
  trace o = []
  /\ (exists e', raised o = Some e')
  /\ exists t', task_heap (state o) !! self = Some t' /\ task_change_records t' = Some [].
Proof.
  intros o. subst o.
  assert (Hstate : exists t', task_heap (update_task self clear_change_records d) !! self
                              = Some t' /\ task_change_records t' = Some []).
  { rewrite task_heap_update_task_eq, Ht. eexists. split; [reflexivity|].
    unfold clear_change_records. now rewrite Hrecords. }
  rewrite (commit_changes_eq _ _ _ _ _ _ Ht Hrecords). cbv zeta.
  destruct (commit_script _ _ _ _) as [code|e'] eqn:Hscript; cbn.
  - exfalso. unfold commit_script in Hscript. ok_inv Hscript.
    rewrite (map_result_ext _ (change_applescript_code d)) in E
      by (intros r; apply change_applescript_code_clear).
    rewrite (map_result_ext _ (change_applescript_code d)) in E2
      by (intros r; apply change_applescript_code_clear).
    destruct (map_result_partition _ targets_document records _ _ E E2) as (zs & Hzs & _).
    congruence.
  - split; [reflexivity|]. split; [eauto | exact Hstate].
Qed.

Lemma sample_task_B_misassigned :
  task_heap Sample.misassigned !! Sample.B = Some Sample.task_B_misassigned.
Proof. vm_compute. reflexivity. Qed.

Lemma unrenderable_record_loses_the_batch_witness :
  let o := commit_changes Sample.osascript false Sample.B Sample.misassigned in
  trace o = []
  /\ (exists e', raised o = Some e')
  /\ exists t', task_heap (state o) !! Sample.B = Some t'
                /\ task_change_records t' = Some [].
Proof.
  refine (unrenderable_record_loses_the_batch Sample.osascript false Sample.misassigned
            Sample.B Sample.task_B_misassigned _ AttributeError
            sample_task_B_misassigned eq_refl _).
  vm_compute. reflexivity.
Defined.


(** ** A rule for reasoning about the constructor

    [R parent d dc] is what holds of the document [dc] while the constructor
    called on [d] is at work on its new object [next_task d]; [Q] is what
    holds when it returns. *)
Section Task_init_rule.
Variable Q : option ref -> OmniPlanDocument -> ref -> OmniPlanDocument -> Prop.
Variable R : option ref -> OmniPlanDocument -> OmniPlanDocument -> Prop.
Hypothesis R_start : forall parent d, R parent d (new_task parent d).2.
Hypothesis R_setattr :
  forall parent d dc key v, R parent d dc -> R parent d (setattr (next_task d) key v dc).
Hypothesis R_child :
  forall parent d dc c d1 d2,
    R parent d dc ->
    Q (Some (next_task d)) dc c d1 ->
    add_task (Some (next_task d)) c d1 = Ok d2 ->
    R parent d d2.
Hypothesis Q_finish :
  forall parent d d1,
    R parent d d1 ->
    Q parent d (next_task d)
      (update_task (next_task d) (with_change_records (Some [])) d1).

Lemma add_tasks_rule_inner parent d l :
  Forall (constructor_meets Q) l ->
  forall dc d',
    R parent d dc ->
    add_tasks_for_task_data_list Task_init (Some (next_task d)) l dc = Ok d' ->
    R parent d d'.
Proof.
  induction 1 as [|p l Hp Hl IH]; intros dc d' HR H; cbn [add_tasks_for_task_data_list] in H.
  - injection H as <-. exact HR.
  - destruct (Task_init p (Some (next_task d)) dc) as [[c d1]|] eqn:Hnew;
      cbn [mbind result_bind] in H; [|discriminate].
    destruct (add_task (Some (next_task d)) c d1) as [d2|] eqn:Hadd;
      cbn [mbind result_bind] in H; [|discriminate].
    apply (IH d2 d'); [|exact H].
    exact (R_child parent d dc c d1 d2 HR (Hp _ _ _ _ Hnew) Hadd).
Qed.

Lemma Task_init_items_rule parent d items :
  Forall (fun kv => match kv.2 with
                    | PlArray l => Forall (constructor_meets Q) l
                    | _ => True
                    end) items ->
  forall dc d',
    R parent d dc ->
    Task_init_items Task_init (next_task d) items dc = Ok d' ->
    R parent d d'.
Proof.
  induction 1 as [|[key value] items Hkv Hitems IH]; intros dc d' HR H;
    cbn [Task_init_items] in H.
  - injection H as <-. exact HR.
  - destruct (match value_converter_for_property key with
              | Some c => decode_omniplan_value c value
              | None => Ok (PyWire value)
              end) as [v|]; cbn [mbind result_bind] in H; [|discriminate].
    destruct (in_simple_properties key).
    + apply (IH _ _ (R_setattr parent d dc key v HR) H).
    + destruct (String.eqb key "child_tasks"); [|discriminate].
      cbn [snd] in Hkv.
      destruct value as [n | s | b | t | l | entries]; cbn [mbind result_bind] in H;
        try discriminate.
      * destruct s; cbn [mbind result_bind] in H; [|discriminate]. exact (IH _ _ HR H).
      * destruct (add_tasks_for_task_data_list Task_init (Some (next_task d)) l dc)
          as [d1|] eqn:Hadd; cbn [mbind result_bind] in H; [|discriminate].
        apply (IH d1 d'); [|exact H].
        exact (add_tasks_rule_inner parent d l Hkv dc d1 HR Hadd).
      * destruct entries; cbn [mbind result_bind] in H; [|discriminate]. exact (IH _ _ HR H).
Qed.

Lemma Task_init_rule : forall p, constructor_meets Q p.
Proof.
  intros p.
  cut (constructor_meets Q p
       /\ match p with
          | PlArray l => Forall (constructor_meets Q) l
          | _ => True
          end); [tauto|].
  induction p as [n | s | b | t | l IHl | entries IHe] using Plist_nested_ind;
    try (split; [intros parent d r d' H; discriminate H | exact I]).
  - split; [intros parent d r d' H; discriminate H|].
    eapply Forall_impl; [exact IHl|]. intros p' [H _]. exact H.
  - split; [|exact I].
    intros parent d self d' H. cbn [Task_init] in H.
    pose proof (R_start parent d) as HR.
    destruct (new_task parent d) as [self0 d0] eqn:Hnew. cbn [snd] in HR.
    assert (Hself : self0 = next_task d) by (injection Hnew as <- _; reflexivity).
    subst self0.
    destruct (Task_init_items Task_init (next_task d) entries d0) as [d1|] eqn:Hitems;
      cbn [mbind result_bind] in H; [|discriminate].
    destruct (missing_simple_properties entries); [|discriminate].
    injection H as <- <-.
    apply Q_finish.
    refine (Task_init_items_rule parent d entries _ d0 d1 HR Hitems).
    eapply Forall_impl; [exact IHe|]. intros [k v] [_ H]. exact H.
Qed.

End Task_init_rule.

(** The loop of a collection over its children, with [L] kept by every
    child. *)
Lemma add_tasks_loop
    (Q : option ref -> OmniPlanDocument -> ref -> OmniPlanDocument -> Prop)
    (L : OmniPlanDocument -> Prop) self :
  (forall p, constructor_meets Q p) ->
  (forall dc c d1 d2, L dc -> Q self dc c d1 -> add_task self c d1 = Ok d2 -> L d2) ->
  forall l d d',
    L d -> add_tasks_for_task_data_list Task_init self l d = Ok d' -> L d'.
Proof.
  intros HQ Hstep. induction l as [|p l IH]; intros d d' HL H;
    cbn [add_tasks_for_task_data_list] in H.
  - injection H as <-. exact HL.
  - destruct (Task_init p self d) as [[c d1]|] eqn:Hnew;
      cbn [mbind result_bind] in H; [|discriminate].
    destruct (add_task self c d1) as [d2|] eqn:Hadd;
      cbn [mbind result_bind] in H; [|discriminate].
    apply (IH d2 d'); [|exact H].
    exact (Hstep d c d1 d2 HL (HQ p _ _ _ _ Hnew) Hadd).
Qed.


(** ** The traversal *)

Lemma descendants_of_app n heap cs1 cs2 :
  descendants_of n heap (cs1 ++ cs2)
  = descendants_of n heap cs1 ++ descendants_of n heap cs2.
Proof. destruct n; cbn [descendants_of]; [reflexivity | apply flat_map_app]. Qed.

(** The traversal reads the store only at the objects it yields. *)
Lemma descendants_of_agree heap heap' : forall n cs,
  (forall r, r ∈ descendants_of n heap cs -> heap' !! r = heap !! r) ->
  descendants_of n heap' cs = descendants_of n heap cs.
Proof.
  induction n as [|n IHn]; intros cs Hagree; cbn [descendants_of]; [reflexivity|].
  induction cs as [|c cs IHcs]; cbn [flat_map]; [reflexivity|].
  cbn [descendants_of flat_map] in Hagree.
  assert (Hc : heap' !! c = heap !! c) by (apply Hagree; constructor).
  rewrite Hc. f_equal.
  - f_equal. apply IHn. intros r Hr. apply Hagree.
    apply elem_of_cons. right. apply elem_of_app. now left.
  - apply IHcs. intros r Hr. apply Hagree.
    apply elem_of_cons. right. apply elem_of_app. now right.
Qed.

Lemma descendants_of_singleton n heap c t :
  heap !! c = Some t ->
  descendants_of (S n) heap [c] = c :: descendants_of n heap (task_tasks t).
Proof. intros Hc. cbn [descendants_of flat_map]. rewrite Hc. now rewrite app_nil_r. Qed.

Lemma task_tasks_Task_setattr self key value t :
  task_tasks (Task_setattr self key value t) = task_tasks t.
Proof.
  unfold Task_setattr, add_change_record.
  destruct (mutable_simple_properties key); [|reflexivity].
  destruct (task_change_records t); reflexivity.
Qed.

(** What [add_task] changes in the tree. *)
Lemma add_task_tree self c d d' :
  add_task self c d = Ok d' ->
  next_task d' = next_task d
  /\ match self with
     | None => task_heap d' = task_heap d /\ doc_tasks d' = doc_tasks d ++ [c]
     | Some p =>
         task_heap d' = alter (fun t => with_tasks (task_tasks t ++ [c]) t) p (task_heap d)
         /\ doc_tasks d' = doc_tasks d
     end.
Proof.
  unfold add_task, task_added. intros H. ok_inv H.
  destruct (update_index_inv _ _ _ H) as (t0 & m0 & _ & _ & ->).
  destruct self; cbn; auto.
Qed.

(** Updating an object that the traversal of a subtree does not yield. *)
Lemma subtree_enumerated_alter d d' self f :
  next_task d' = next_task d ->
  task_heap d' = alter f self (task_heap d) ->
  (forall t, task_tasks (f t) = task_tasks t) ->
  subtree_enumerated d self -> subtree_enumerated d' self.
Proof.
  intros Hnext Hheap Hf (t & Ht & Henum).
  exists (f t). split; [rewrite Hheap, lookup_alter_eq, Ht; reflexivity|].
  intros n Hn. rewrite Hf, Hnext, Hheap. rewrite Hnext in Hn.
  rewrite <- (Henum n Hn). apply descendants_of_agree.
  intros r Hr. rewrite (Henum n Hn) in Hr. apply elem_of_seq in Hr.
  apply lookup_alter_ne. lia.
Qed.

(** Appending a freshly built child to a list of children whose subtrees
    are enumerated. *)
Lemma enumerated_append heap1 heap2 (first next1 : nat) (c : ref) (cs : list ref) tc n :
  (first <= c)%nat -> (c < next1)%nat -> (next1 - first <= n)%nat ->
  (forall m, (c - first <= m)%nat -> descendants_of m heap1 cs = seq first (c - first)) ->
  (forall r, (first <= r)%nat -> heap2 !! r = heap1 !! r \/ (c <= r)%nat) ->
  heap2 !! c = Some tc ->
  (forall m, (next1 - S c <= m)%nat ->
             descendants_of m heap2 (task_tasks tc) = seq (S c) (next1 - S c)) ->
  descendants_of n heap2 (cs ++ [c]) = seq first (next1 - first).
Proof.
  intros Hfc Hc1 Hn Hcs Hagree Hc Htc.
  rewrite descendants_of_app.
  assert (Hfirst : descendants_of n heap2 cs = seq first (c - first)).
  { rewrite <- (Hcs n) by lia. apply descendants_of_agree.
    intros r Hr. rewrite (Hcs n) in Hr by lia. apply elem_of_seq in Hr.
    destruct (Hagree r) as [H | H]; [lia | exact H | lia]. }
  rewrite Hfirst.
  destruct n as [|n]; [lia|].
  rewrite (descendants_of_singleton n heap2 c tc Hc), Htc by lia.
  replace (next1 - first)%nat with ((c - first) + (S (next1 - S c)))%nat by lia.
  rewrite seq_app. cbn [seq]. repeat f_equal; lia.
Qed.

Lemma subtree_built_rule : forall p, constructor_meets subtree_built p.
Proof.
  apply (Task_init_rule subtree_built subtree_building).
  - (* allocation *)
    intros parent d. unfold subtree_building, new_task. cbn.
    split; [lia|]. split; [|split; [reflexivity|]].
    + intros r Hr. apply lookup_insert_ne. lia.
    + eexists. split; [apply lookup_insert_eq|].
      intros n _. cbn. rewrite Nat.sub_diag. destruct n; reflexivity.
  - (* an attribute is set *)
    intros parent d dc key v (Hnext & Hbelow & Hdoc & Henum).
    split; [exact Hnext|]. split; [|split; [exact Hdoc|]].
    + intros r Hr. unfold setattr. rewrite task_heap_update_task_ne by lia. now apply Hbelow.
    + apply (subtree_enumerated_alter dc _ _ (Task_setattr (next_task d) key v));
        [reflexivity | reflexivity | apply task_tasks_Task_setattr | exact Henum].
  - (* a child is built and added *)
    intros parent d dc c d1 d2 (Hnext & Hbelow & Hdoc & (t & Ht & Henum))
           (Hc & Hc1 & Hbelow1 & Hdoc1 & (tc & Htc & Henumc)) Hadd.
    destruct (add_task_tree _ _ _ _ Hadd) as (Hnext2 & Hheap2 & Hdoc2).
    split; [lia|]. split; [|split; [congruence|]].
    + intros r Hr. rewrite Hheap2, lookup_alter_ne by lia.
      rewrite Hbelow1 by lia. now apply Hbelow.
    + assert (Ht1 : task_heap d1 !! next_task d = Some t).
      { rewrite Hbelow1 by lia. exact Ht. }
      eexists. split; [rewrite Hheap2, lookup_alter_eq, Ht1; reflexivity|].
      intros n Hn. cbn [task_tasks with_tasks]. rewrite Hnext2 in Hn |- *.
      subst c.
      apply (enumerated_append (task_heap dc) _ (S (next_task d)) (next_task d1)
               (next_task dc) (task_tasks t) tc n); try lia; try assumption.
      * intros r Hr. rewrite Hheap2, lookup_alter_ne by lia.
        destruct (decide (r < next_task dc)%nat); [left; now apply Hbelow1 | right; lia].
      * rewrite Hheap2, lookup_alter_ne by lia. exact Htc.
      * intros m Hm. rewrite <- (Henumc m Hm). apply descendants_of_agree.
        intros r Hr. rewrite (Henumc m Hm) in Hr. apply elem_of_seq in Hr.
        rewrite Hheap2. apply lookup_alter_ne. lia.
  - (* the constructor returns *)
    intros parent d d1 (Hnext & Hbelow & Hdoc & Henum).
    split; [reflexivity|]. split; [cbn; lia|]. split; [|split; [exact Hdoc|]].
    + intros r Hr. rewrite task_heap_update_task_ne by lia. now apply Hbelow.
    + apply (subtree_enumerated_alter d1 _ _ (with_change_records (Some [])));
        [reflexivity | reflexivity | reflexivity | exact Henum].
Qed.

Lemma document_enumerated_after_children l d d' :
  document_enumerated d ->
  add_tasks_for_task_data_list Task_init None l d = Ok d' ->
  document_enumerated d'.
Proof.
  apply (add_tasks_loop subtree_built document_enumerated None subtree_built_rule).
  intros dc c d1 d2 Hdc (Hc & Hc1 & Hbelow1 & Hdoc1 & (tc & Htc & Henumc)) Hadd.
  destruct (add_task_tree _ _ _ _ Hadd) as (Hnext2 & Hheap2 & Hdoc2).
  intros n Hn. rewrite Hnext2 in Hn |- *. rewrite Hheap2, Hdoc2, Hdoc1. subst c.
  pose proof (enumerated_append (task_heap dc) (task_heap d1) 0%nat (next_task d1)
                (next_task dc) (doc_tasks dc) tc n) as Happ.
  rewrite !Nat.sub_0_r in Happ.
  apply Happ; [lia | exact Hc1 | exact Hn | exact Hdc | | exact Htc | exact Henumc].
  intros r _. destruct (decide (r < next_task dc)%nat);
    [left; now apply Hbelow1 | right; lia].
Qed.

Lemma objects_are_numbered_update_task r f d :
  objects_are_numbered d -> objects_are_numbered (update_task r f d).
Proof.
  intros Hd r'. rewrite <- (Hd r'). cbn. destruct (decide (r = r')) as [->|Hne].
  - rewrite lookup_alter_eq. destruct (task_heap d !! r'); cbn; split;
      intros [x Hx]; try discriminate; eauto.
  - now rewrite lookup_alter_ne.
Qed.

Lemma objects_are_numbered_add_task self c d d' :
  add_task self c d = Ok d' -> objects_are_numbered d -> objects_are_numbered d'.
Proof.
  intros Hadd Hd r. destruct (add_task_tree _ _ _ _ Hadd) as (Hnext & Htree).
  rewrite Hnext, <- (Hd r). destruct self as [p|].
  - destruct Htree as [-> _]. destruct (decide (p = r)) as [->|Hne].
    + rewrite lookup_alter_eq. destruct (task_heap d !! r); cbn; split;
        intros [x Hx]; try discriminate; eauto.
    + now rewrite lookup_alter_ne.
  - destruct Htree as [-> _]. reflexivity.
Qed.

Lemma objects_are_numbered_Task_init p parent d self d' :
  Task_init p parent d = Ok (self, d') ->
  objects_are_numbered d -> objects_are_numbered d'.
Proof.
  apply (Task_init_preserves
           (fun d d' => objects_are_numbered d -> objects_are_numbered d')); auto.
  - intros parent0 d0 Hd r. cbn. destruct (decide (next_task d0 = r)) as [<-|Hne].
    + rewrite lookup_insert_eq. split; [lia | eauto].
    + rewrite lookup_insert_ne by exact Hne. rewrite (Hd r). lia.
  - intros s key v d0. apply objects_are_numbered_update_task.
  - intros s task d0 d0' Hadd. exact (objects_are_numbered_add_task _ _ _ _ Hadd).
  - intros s d0. apply objects_are_numbered_update_task.
Qed.

Lemma objects_are_numbered_frame d d' :
  frame d d' -> objects_are_numbered d -> objects_are_numbered d'.
Proof.
  intros (_ & _ & _ & Hnext & Hheap) Hd r. rewrite Hnext, <- (Hd r).
  specialize (Hheap r). revert Hheap.
  destruct (task_heap d !! r), (task_heap d' !! r); cbn; intros Hheap;
    try contradiction;
    split; intros [x Hx]; try discriminate; try (eexists; reflexivity).
Qed.

(** X13: in a loaded document [all_tasks()] yields every task object exactly
    once, each task before the tasks created after it (a parent before its
    descendants, siblings in the order of the payload). *)
Theorem all_tasks_yields_every_task_once name data d :
  OmniPlanDocument_init name data = Ok d ->
  all_tasks d = seq 0 (next_task d)
  /\ (forall r, r ∈ all_tasks d <-> is_Some (task_heap d !! r))
  /\ NoDup (all_tasks d).
Proof.
  unfold OmniPlanDocument_init, parse_document_data. intros H. ok_inv H.
  assert (Hframe : frame a1 d).
  { eapply frame_trans; [exact (frame_parse_resources_of _ _ _ E4)|].
    eapply frame_trans; [exact (frame_process_dependencies_of _ _ _ E5)|].
    exact (frame_parse_selection _ _ _ H). }
  assert (Henum : document_enumerated a1).
  { apply (document_enumerated_after_children a0 (OmniPlanDocument_new name)); [|exact E1].
    intros n _. destruct n; reflexivity. }
  assert (Hnum : objects_are_numbered a1).
  { refine (add_tasks_preserves
              (fun d d' => objects_are_numbered d -> objects_are_numbered d')
              (fun d Hd => Hd) (fun a b c Hab Hbc Ha => Hbc (Hab Ha))
              (fun self task d d' Hadd => objects_are_numbered_add_task _ _ _ _ Hadd)
              Task_init None a0 _ _ _ E1 _).
    - apply Forall_forall. intros p _ parent d0 r d0' Hinit.
      exact (objects_are_numbered_Task_init _ _ _ _ _ Hinit).
    - intros r. cbn. rewrite lookup_empty. split; [intros [x Hx]; discriminate | lia]. }
  assert (Hall : all_tasks d = seq 0 (next_task d)).
  { rewrite (all_tasks_frame _ _ Hframe).
    destruct Hframe as (_ & _ & _ & -> & _).
    unfold all_tasks, descendants. cbn [children]. now apply Henum. }
  split; [exact Hall|]. rewrite Hall. split.
  - intros r. rewrite (objects_are_numbered_frame _ _ Hframe Hnum r), elem_of_seq. lia.
  - apply NoDup_seq.
Qed.

Lemma all_tasks_yields_every_task_once_witness :
  all_tasks Sample.document = seq 0 (next_task Sample.document)
  /\ (forall r, r ∈ all_tasks Sample.document <-> is_Some (task_heap Sample.document !! r))
  /\ NoDup (all_tasks Sample.document).
Proof.
  exact (all_tasks_yields_every_task_once _ _ _ sample_document_loaded).
Defined.


(** ** The rule, with freshness built in *)

Section Task_init_fresh_rule.
Variable Q : option ref -> OmniPlanDocument -> ref -> OmniPlanDocument -> Prop.
Variable R : option ref -> OmniPlanDocument -> OmniPlanDocument -> Prop.
Hypothesis R_start : forall parent d, R parent d (new_task parent d).2.
Hypothesis R_setattr :
  forall parent d dc key v,
    fresh_building parent d dc -> R parent d dc ->
    R parent d (setattr (next_task d) key v dc).
Hypothesis R_child :
  forall parent d dc d1 d2,
    fresh_building parent d dc -> R parent d dc ->
    fresh_built (Some (next_task d)) dc (next_task dc) d1 ->
    Q (Some (next_task d)) dc (next_task dc) d1 ->
    add_task (Some (next_task d)) (next_task dc) d1 = Ok d2 ->
    R parent d d2.
Hypothesis Q_finish :
  forall parent d d1,
    fresh_building parent d d1 -> R parent d d1 ->
    Q parent d (next_task d)
      (update_task (next_task d) (with_change_records (Some [])) d1).

Lemma Task_init_fresh_rule :
  forall p, constructor_meets
              (fun parent d self d' => fresh_built parent d self d' /\ Q parent d self d') p.
Proof.
  apply (Task_init_rule
           (fun parent d self d' => fresh_built parent d self d' /\ Q parent d self d')
           (fun parent d dc => fresh_building parent d dc /\ R parent d dc)).
  - intros parent d. split; [|apply R_start].
    unfold fresh_building, new_task. cbn. split; [lia|].
    intros r Hr. apply lookup_insert_ne. lia.
  - intros parent d dc key v [[Hnext Hbelow] HR]. split; [|now apply R_setattr].
    split; [exact Hnext|]. intros r Hr. unfold setattr.
    rewrite task_heap_update_task_ne by lia. now apply Hbelow.
  - intros parent d dc c d1 d2 [[Hnext Hbelow] HR] [(Hc & Hc1 & Hbelow1) HQ] Hadd.
    subst c. split; [|exact (R_child parent d dc d1 d2 (conj Hnext Hbelow) HR
                               (conj eq_refl (conj Hc1 Hbelow1)) HQ Hadd)].
    destruct (add_task_tree _ _ _ _ Hadd) as (Hnext2 & Hheap2 & _).
    split; [lia|]. intros r Hr. rewrite Hheap2, lookup_alter_ne by lia.
    rewrite Hbelow1 by lia. now apply Hbelow.
  - intros parent d d1 [[Hnext Hbelow] HR]. split; [|now apply Q_finish].
    split; [reflexivity|]. split; [exact Hnext|].
    intros r Hr. rewrite task_heap_update_task_ne by lia. now apply Hbelow.
Qed.

End Task_init_fresh_rule.

(** ** The indices of a loaded document *)

Lemma task_added_heap c d d' :
  task_added c d = Ok d' ->
  task_heap d' = task_heap d /\ next_task d' = next_task d.
Proof.
  unfold task_added. intros H. ok_inv H.
  destruct (update_index_inv _ _ _ H) as (t0 & m0 & _ & _ & ->). cbn. auto.
Qed.

Section Index_rule.
Context {K : Type}.
Variables listed covers : OmniPlanDocument -> K -> ref -> Prop.
Variable has : Task -> K -> Prop.
Hypothesis same_indices :
  forall d d',
    task_map d' = task_map d ->
    custom_data_value_to_task_map d' = custom_data_value_to_task_map d ->
    forall k r, (listed d' k r <-> listed d k r) /\ (covers d' k r <-> covers d k r).
Hypothesis has_attrs :
  forall t t' k, task_attrs t' = task_attrs t -> has t k -> has t' k.
Hypothesis task_added_index :
  forall c d d',
    task_added c d = Ok d' ->
    exists t,
      task_heap d !! c = Some t
      /\ (forall k r, listed d' k r -> listed d k r \/ (r = c /\ has t k))
      /\ (forall k r, covers d k r -> covers d' k r)
      /\ (forall k, has t k -> covers d' k c).

Lemma built_between_start d0 lo dc :
  task_map dc = task_map d0 ->
  custom_data_value_to_task_map dc = custom_data_value_to_task_map d0 ->
  (next_task dc <= lo)%nat ->
  built_between listed covers has d0 lo dc.
Proof.
  intros Hm Hi Hlo. split; [|split].
  - intros k r. now apply (same_indices d0 dc Hm Hi).
  - intros r t k Hr. lia.
  - intros k r Hl. left. now apply (same_indices d0 dc Hm Hi).
Qed.

Lemma built_between_same d0 lo dc dc' :
  built_between listed covers has d0 lo dc ->
  task_map dc' = task_map dc ->
  custom_data_value_to_task_map dc' = custom_data_value_to_task_map dc ->
  next_task dc' = next_task dc ->
  (forall r : ref, (lo <= r)%nat -> task_heap dc' !! r = task_heap dc !! r) ->
  built_between listed covers has d0 lo dc'.
Proof.
  intros (H1 & H2 & H3) Hm Hi Hn Hh. split; [|split].
  - intros k r Hc. apply (same_indices dc dc' Hm Hi). now apply H1.
  - intros r t k Hr Ht Hk. apply (same_indices dc dc' Hm Hi).
    apply (H2 r t k); [lia | rewrite <- Hh by lia; exact Ht | exact Hk].
  - intros k r Hl. apply (same_indices dc dc' Hm Hi) in Hl.
    destruct (H3 k r Hl) as [Hold | (Hr & t & Ht & Hk)]; [now left|].
    right. split; [lia|]. exists t. split; [rewrite Hh by lia; exact Ht | exact Hk].
Qed.

(** A child is built on [dc] and then added to the collection [self]. *)
Lemma built_between_child d0 lo dc c d1 d2 self :
  built_between listed covers has d0 lo dc ->
  (lo <= next_task dc)%nat ->
  fresh_built self dc c d1 ->
  built_between listed covers has dc (S c) d1 ->
  match self with Some p => (p < lo)%nat | None => True end ->
  add_task self c d1 = Ok d2 ->
  built_between listed covers has d0 lo d2.
Proof.
  intros (B1 & B2 & B3) Hlo (Hc & Hc1 & Hbelow) Hchild Hself Hadd.
  unfold add_task in Hadd.
  set (dmid := match self with
               | Some r => update_task r (fun t => with_tasks (task_tasks t ++ [c]) t) d1
               | None => with_doc_tasks (doc_tasks d1 ++ [c]) d1
               end) in Hadd.
  assert (Hm : task_map dmid = task_map d1) by (destruct self; reflexivity).
  assert (Hi : custom_data_value_to_task_map dmid = custom_data_value_to_task_map d1)
    by (destruct self; reflexivity).
  assert (Hn : next_task dmid = next_task d1) by (destruct self; reflexivity).
  assert (Hh : forall r : ref, (lo <= r)%nat -> task_heap dmid !! r = task_heap d1 !! r).
  { intros r Hr. destruct self as [p|]; [|reflexivity].
    apply task_heap_update_task_ne. lia. }
  assert (Hmid : built_between listed covers has dc (S c) dmid).
  { apply (built_between_same dc (S c) d1 dmid Hchild Hm Hi Hn).
    intros r Hr. apply Hh. lia. }
  destruct Hmid as (M1 & M2 & M3).
  destruct (task_added_heap _ _ _ Hadd) as (Hh2 & Hn2).
  destruct (task_added_index _ _ _ Hadd) as (tc & Htc & A1 & A2 & A3).
  split; [|split].
  - intros k r Hc0. apply A2, M1, B1, Hc0.
  - intros r t k Hr Ht Hk. rewrite Hh2 in Ht. rewrite Hn2, Hn in Hr.
    destruct (lt_eq_lt_dec r c) as [[Hlt | ->] | Hgt].
    + apply A2, M1. apply (B2 r t k); [lia | | exact Hk].
      rewrite <- Hbelow by lia. rewrite <- Hh by lia. exact Ht.
    + rewrite Htc in Ht. injection Ht as <-. now apply A3.
    + apply A2. apply (M2 r t k); [lia | exact Ht | exact Hk].
  - intros k r Hl. rewrite Hh2, Hn2, Hn.
    destruct (A1 k r Hl) as [Hl1 | [-> Hk]].
    + destruct (M3 k r Hl1) as [Hl0 | (Hr & t & Ht & Hk)].
      * destruct (B3 k r Hl0) as [Hold | (Hr & t & Ht & Hk)]; [now left|].
        right. split; [lia|]. exists t. split; [|exact Hk].
        rewrite Hh by lia. rewrite Hbelow by lia. exact Ht.
      * right. split; [lia|]. exists t. split; [exact Ht | exact Hk].
    + right. split; [lia|]. exists tc. split; [exact Htc | exact Hk].
Qed.

Lemma index_built_rule :
  forall p,
    constructor_meets
      (fun parent d self d' =>
         fresh_built parent d self d'
         /\ built_between listed covers has d (S self) d') p.
Proof.
  apply (Task_init_fresh_rule
           (fun parent d self d' => built_between listed covers has d (S self) d')
           (fun parent d dc => built_between listed covers has d (S (next_task d)) dc)).
  - intros parent d. apply built_between_start; [reflexivity | reflexivity | cbn; lia].
  - intros parent d dc key v _ HR.
    apply (built_between_same d _ dc _ HR); try reflexivity.
    intros r Hr. unfold setattr. apply task_heap_update_task_ne. lia.
  - intros parent d dc d1 d2 [Hnext _] HR Hfresh HQ Hadd.
    apply (built_between_child d _ dc (next_task dc) d1 d2 (Some (next_task d)) HR);
      [lia | exact Hfresh | exact HQ | lia | exact Hadd].
  - intros parent d d1 _ HR.
    apply (built_between_same d _ d1 _ HR); try reflexivity.
    intros r Hr. apply task_heap_update_task_ne. lia.
Qed.

Lemma index_built_document d0 l d' :
  next_task d0 = 0%nat ->
  add_tasks_for_task_data_list Task_init None l d0 = Ok d' ->
  built_between listed covers has d0 0 d'.
Proof.
  intros H0.
  apply (add_tasks_loop
           (fun parent d self d' =>
              fresh_built parent d self d'
              /\ built_between listed covers has d (S self) d')
           (built_between listed covers has d0 0) None index_built_rule).
  - intros dc c d1 d2 HL [Hfresh HQ] Hadd.
    exact (built_between_child d0 0 dc c d1 d2 None HL (Nat.le_0_l _) Hfresh HQ I Hadd).
  - apply built_between_start; [reflexivity | reflexivity | lia].
Qed.

Lemma children_objects_are_numbered name l d :
  add_tasks_for_task_data_list Task_init None l (OmniPlanDocument_new name) = Ok d ->
  objects_are_numbered d.
Proof.
  intros E1.
  refine (add_tasks_preserves
            (fun d d' => objects_are_numbered d -> objects_are_numbered d')
            (fun d Hd => Hd) (fun a b c Hab Hbc Ha => Hbc (Hab Ha))
            (fun self task d d' Hadd => objects_are_numbered_add_task _ _ _ _ Hadd)
            Task_init None l _ _ _ E1 _).
  - apply Forall_forall. intros p _ parent d0 r d0' Hinit.
    exact (objects_are_numbered_Task_init _ _ _ _ _ Hinit).
  - intros r. cbn. rewrite lookup_empty. split; [intros [x Hx]; discriminate | lia].
Qed.

(** After a load, every object is covered under what it holds, and what is
    listed is an object that holds the key. *)
Lemma index_after_load name data d :
  (forall k r, ~ listed (OmniPlanDocument_new name) k r) ->
  OmniPlanDocument_init name data = Ok d ->
  (forall (r : ref) t k, task_heap d !! r = Some t -> has t k -> covers d k r)
  /\ (forall k (r : ref), listed d k r -> exists t, task_heap d !! r = Some t /\ has t k).
Proof.
  intros Hnew. unfold OmniPlanDocument_init, parse_document_data. intros H. ok_inv H.
  assert (Hframe : frame a1 d).
  { eapply frame_trans; [exact (frame_parse_resources_of _ _ _ E4)|].
    eapply frame_trans; [exact (frame_process_dependencies_of _ _ _ E5)|].
    exact (frame_parse_selection _ _ _ H). }
  pose proof (index_built_document (OmniPlanDocument_new name) a0 a1 eq_refl E1)
    as (_ & B2 & B3).
  pose proof (children_objects_are_numbered name a0 a1 E1) as Hnum.
  pose proof Hframe as (Hi & Hm & _ & Hn & Hheap).
  split.
  - intros r t k Ht Hk.
    destruct (frame_lookup_back _ _ _ _ Hframe Ht) as (t0 & Ht0 & Hattrs & _).
    apply (same_indices a1 d Hm Hi).
    apply (B2 r t0 k); [| exact Ht0 | exact (has_attrs t t0 k (eq_sym Hattrs) Hk)].
    split; [lia|]. apply Hnum. now exists t0.
  - intros k r Hl. apply (same_indices a1 d Hm Hi) in Hl.
    destruct (B3 k r Hl) as [Hold | (_ & t0 & Ht0 & Hk)]; [destruct (Hnew k r Hold)|].
    specialize (Hheap r). rewrite Ht0 in Hheap.
    destruct (task_heap d !! r) as [t|]; cbn in Hheap; [|contradiction].
    destruct Hheap as (Hattrs & _).
    exists t. split; [reflexivity | exact (has_attrs t0 t k Hattrs Hk)].
Qed.

End Index_rule.

Lemma task_map_after_load name data d :
  OmniPlanDocument_init name data = Ok d ->
  (forall (r : ref) t id, task_heap d !! r = Some t -> has_id t id -> id_known d id r)
  /\ (forall id (r : ref), id_listed d id r ->
                           exists t, task_heap d !! r = Some t /\ has_id t id).
Proof.
  apply (index_after_load id_listed id_known has_id).
  - intros d0 d0' Hm _ k r. unfold id_listed, id_known. rewrite Hm. tauto.
  - intros t t' k Hattrs. unfold has_id. now rewrite (task_id_attrs t t' Hattrs).
  - intros c d0 d0' H. unfold task_added in H. ok_inv H.
    apply get_task_Ok in E.
    destruct (update_index_inv _ _ _ H) as (t0 & m0 & _ & _ & ->).
    exists a. split; [exact E|]. unfold id_listed, id_known, has_id. cbn.
    split; [|split].
    + intros k r Hl. destruct (decide (a0 = k)) as [<-|Hne].
      * rewrite lookup_insert_eq in Hl. injection Hl as <-. right. auto.
      * rewrite lookup_insert_ne in Hl by exact Hne. now left.
    + intros k r Hk. destruct (decide (a0 = k)) as [<-|Hne].
      * rewrite lookup_insert_eq. eauto.
      * now rewrite lookup_insert_ne by exact Hne.
    + intros k Hk. assert (a0 = k) by congruence. subst k.
      rewrite lookup_insert_eq. eauto.
  - intros k r. unfold id_listed. cbn. now rewrite lookup_empty.
Qed.

Lemma custom_data_index_after_load name data d :
  OmniPlanDocument_init name data = Ok d ->
  (forall (r : ref) t kv, task_heap d !! r = Some t -> has_custom_data t kv ->
                          custom_data_listed d kv r)
  /\ (forall kv (r : ref), custom_data_listed d kv r ->
                           exists t, task_heap d !! r = Some t /\ has_custom_data t kv).
Proof.
  apply (index_after_load custom_data_listed custom_data_listed has_custom_data).
  - intros d0 d0' _ Hi k r. unfold custom_data_listed, tasks_for_custom_data_value.
    rewrite Hi. tauto.
  - intros t t' k Hattrs (m & Hm & Hk). exists m. split; [|exact Hk].
    apply task_custom_data_attrs. rewrite Hattrs. now apply task_custom_data_inv.
  - intros c d0 d0' H. unfold task_added in H. ok_inv H.
    apply get_task_Ok in E.
    destruct (update_index_inv _ _ _ H) as (t0 & m0 & Ht0 & Hm0 & ->).
    cbn [task_heap with_task_map] in Ht0. rewrite E in Ht0. injection Ht0 as <-.
    exists a. split; [exact E|].
    unfold custom_data_listed, tasks_for_custom_data_value, has_custom_data.
    cbn [custom_data_value_to_task_map with_index with_task_map].
    split; [|split].
    + intros [k v] r Hl. cbn [fst snd] in *.
      apply elem_of_register_items in Hl. destruct Hl as [Hl | [-> Hin]]; [now left|].
      right. split; [reflexivity|]. exists m0. split; [exact Hm0|].
      now apply elem_of_map_to_list.
    + intros [k v] r Hl. cbn [fst snd] in *. apply elem_of_register_items. now left.
    + intros [k v] (m & Hm & Hk). cbn [fst snd] in *.
      apply elem_of_register_items. right. split; [reflexivity|].
      assert (m = m0) by congruence. subst m. now apply elem_of_map_to_list.
  - intros [k v] r. unfold custom_data_listed, tasks_for_custom_data_value, index_lookup.
    cbn. rewrite lookup_empty. cbn. apply not_elem_of_nil.
Qed.

(** X14: in a loaded document [task_for_id(id)] returns a task whose
    identifier is [id]; it finds a task for the identifier of every task of
    the document; and it raises [KeyError] for an identifier that no task
    holds. *)
Theorem task_for_id_finds_by_identifier name data d :
  OmniPlanDocument_init name data = Ok d ->
  (forall id r, task_for_id d id = Ok r ->
                exists t, task_heap d !! r = Some t /\ task_id t = Ok id)
  /\ (forall (r : ref) t id,
        task_heap d !! r = Some t -> task_id t = Ok id ->
        exists r' t',
          task_for_id d id = Ok r' /\ task_heap d !! r' = Some t' /\ task_id t' = Ok id)
  /\ (forall id,
        (forall (r : ref) t, task_heap d !! r = Some t -> task_id t <> Ok id) ->
        task_for_id d id = Raise KeyError).
Proof.
  intros Hload. destruct (task_map_after_load name data d Hload) as [Hknown Hlisted].
  unfold id_listed, id_known, has_id in *.
  assert (Hsound : forall id r, task_for_id d id = Ok r ->
                                exists t, task_heap d !! r = Some t /\ task_id t = Ok id).
  { intros id r Hfor. apply Hlisted. unfold task_for_id in Hfor.
    destruct (task_map d !! id); cbn in Hfor; congruence. }
  split; [exact Hsound|]. split.
  - intros r t id Ht Hid. destruct (Hknown r t id Ht Hid) as [r' Hr'].
    assert (Hfor : task_for_id d id = Ok r') by (unfold task_for_id; now rewrite Hr').
    destruct (Hsound id r' Hfor) as (t' & Ht' & Hid'). eauto.
  - intros id Hnone. unfold task_for_id.
    destruct (task_map d !! id) as [r|] eqn:Hr; [|reflexivity].
    destruct (Hlisted id r Hr) as (t & Ht & Hid). destruct (Hnone r t Ht Hid).
Qed.

Lemma task_for_id_finds_by_identifier_witness :
  (forall id r, task_for_id Sample.document id = Ok r ->
                exists t, task_heap Sample.document !! r = Some t /\ task_id t = Ok id)
  /\ (forall (r : ref) t id,
        task_heap Sample.document !! r = Some t -> task_id t = Ok id ->
        exists r' t',
          task_for_id Sample.document id = Ok r'
          /\ task_heap Sample.document !! r' = Some t' /\ task_id t' = Ok id)
  /\ (forall id,
        (forall (r : ref) t, task_heap Sample.document !! r = Some t -> task_id t <> Ok id) ->
        task_for_id Sample.document id = Raise KeyError).
Proof.
  exact (task_for_id_finds_by_identifier _ _ _ sample_document_loaded).
Defined.

(** X15: in a loaded document [tasks_for_custom_data_value(key, value)]
    lists exactly the tasks whose custom data holds [value] under [key]. *)
Theorem custom_data_index_lists_the_holders name data d :
  OmniPlanDocument_init name data = Ok d ->
  forall key value (r : ref),
    r ∈ tasks_for_custom_data_value d key value
    <-> exists t m,
          task_heap d !! r = Some t /\ task_custom_data t = Ok m /\ m !! key = Some value.
Proof.
  intros Hload key value r.
  destruct (custom_data_index_after_load name data d Hload) as [Hcover Hlisted].
  unfold custom_data_listed, has_custom_data in *. split.
  - intros Hin. destruct (Hlisted (key, value) r Hin) as (t & Ht & m & Hm & Hk). eauto.
  - intros (t & m & Ht & Hm & Hk). apply (Hcover r t (key, value) Ht). eauto.
Qed.

Lemma custom_data_index_lists_the_holders_witness :
  Sample.C ∈ tasks_for_custom_data_value Sample.document "k" "X"
  <-> exists t m,
        task_heap Sample.document !! Sample.C = Some t
        /\ task_custom_data t = Ok m /\ m !! "k"%string = Some "X"%string.
Proof.
  exact (custom_data_index_lists_the_holders _ _ _ sample_document_loaded
           "k"%string "X"%string Sample.C).
Defined.

Lemma loaded_index_lists_every_holder name data d :
  OmniPlanDocument_init name data = Ok d -> index_lists_every_holder d.
Proof.
  intros Hload r t m key value Ht Hm Hk.
  destruct (custom_data_index_after_load name data d Hload) as [Hcover _].
  apply (Hcover r t (key, value) Ht). exists m. auto.
Qed.

(** X16: [set_custom_data_value] never takes a task out of a bucket of the
    index, lists the task under the pair it has written, and, when every
    task was listed under each pair it holds, leaves every task listed under
    each pair it holds. *)
Theorem set_custom_data_value_keeps_holders_listed
    (d d' : OmniPlanDocument) (self : ref) (name value : string) :
  set_custom_data_value self name value d = Ok d' ->
  (forall key v (r : ref),
     r ∈ tasks_for_custom_data_value d key v -> r ∈ tasks_for_custom_data_value d' key v)
  /\ self ∈ tasks_for_custom_data_value d' name value
  /\ (index_lists_every_holder d -> index_lists_every_holder d').
Proof.
  intros Hset.
  assert (Hparts : exists t m, task_heap d !! self = Some t /\ task_custom_data t = Ok m).
  { unfold set_custom_data_value in Hset. ok_inv Hset. apply get_task_Ok in E. eauto. }
  destruct Hparts as (t & m & Ht & Hm).
  destruct (set_custom_data_value_Ok d self t m name value Ht Hm) as [Heq Ht1].
  rewrite Heq in Hset. injection Hset as <-.
  unfold tasks_for_custom_data_value.
  cbn [custom_data_value_to_task_map update_task with_index with_task_heap].
  assert (Hgrow : forall key v (r : ref),
             r ∈ index_lookup (custom_data_value_to_task_map d) key v ->
             r ∈ index_lookup
                   (register_items self (map_to_list (<[name := value]> m))
                      (custom_data_value_to_task_map d)) key v).
  { intros key v r Hin. apply elem_of_register_items. now left. }
  split; [exact Hgrow|]. split.
  - apply elem_of_register_items. right. split; [reflexivity|].
    apply elem_of_map_to_list. apply lookup_insert_eq.
  - intros Hall r t' m' key v Ht' Hm' Hk.
    unfold index_lists_every_holder, tasks_for_custom_data_value in Hall.
    cbn [custom_data_value_to_task_map update_task with_index with_task_heap].
    destruct (decide (self = r)) as [<-|Hne].
    + rewrite task_heap_update_task_eq in Ht'.
      cbn [task_heap with_index] in Ht'. rewrite Ht1 in Ht'.
      cbn [fmap option_fmap option_map] in Ht'. injection Ht' as <-.
      apply task_custom_data_inv in Hm'.
      rewrite task_attrs_add_change_record in Hm'. cbn [task_attrs with_attrs] in Hm'.
      rewrite lookup_insert_eq in Hm'. injection Hm' as <-.
      apply elem_of_register_items. right. split; [reflexivity|].
      now apply elem_of_map_to_list.
    + rewrite task_heap_update_task_ne in Ht' by exact Hne.
      cbn [task_heap with_index] in Ht'.
      rewrite task_heap_update_task_ne in Ht' by exact Hne.
      apply Hgrow. exact (Hall r t' m' key v Ht' Hm' Hk).
Qed.

Lemma set_custom_data_value_keeps_holders_listed_witness :
  (forall key v (r : ref),
     r ∈ tasks_for_custom_data_value Sample.document key v ->
     r ∈ tasks_for_custom_data_value Sample.retagged key v)
  /\ Sample.B ∈ tasks_for_custom_data_value Sample.retagged "k" "Y"
  /\ index_lists_every_holder Sample.document
  /\ index_lists_every_holder Sample.retagged.
Proof.
  destruct (set_custom_data_value_keeps_holders_listed
              Sample.document Sample.retagged Sample.B "k" "Y" sample_retagged)
    as (Hgrow & Hself & Hkeep).
  pose proof (loaded_index_lists_every_holder _ _ _ sample_document_loaded) as Hall.
  split; [exact Hgrow|]. split; [exact Hself|]. split; [exact Hall | exact (Hkeep Hall)].
Defined.

(** ** The selection *)

Lemma map_result_Forall2 {A B} (f : A -> result B) : forall l l',
  map_result f l = Ok l' -> Forall2 (fun x y => f x = Ok y) l l'.
Proof.
  induction l as [|x l IH]; intros l' H; cbn [map_result] in H.
  - injection H as <-. constructor.
  - ok_inv H. injection H as <-. constructor; [exact E | now apply IH].
Qed.

Lemma selected_tasks_add_task self task d d' :
  add_task self task d = Ok d' -> selected_tasks d' = selected_tasks d.
Proof.
  unfold add_task, task_added. intros H. ok_inv H.
  destruct (update_index_inv _ _ _ H) as (t0 & m0 & _ & _ & ->).
  destruct self; reflexivity.
Qed.

Lemma selected_tasks_Task_init p parent d self d' :
  Task_init p parent d = Ok (self, d') -> selected_tasks d' = selected_tasks d.
Proof.
  apply (Task_init_preserves (fun d d' => selected_tasks d' = selected_tasks d));
    try reflexivity.
  - intros a b c Hab Hbc. congruence.
  - intros s task d0 d0' Hadd. exact (selected_tasks_add_task _ _ _ _ Hadd).
Qed.

Lemma selected_tasks_add_tasks self l d d' :
  add_tasks_for_task_data_list Task_init self l d = Ok d' ->
  selected_tasks d' = selected_tasks d.
Proof.
  apply (add_tasks_preserves (fun d d' => selected_tasks d' = selected_tasks d)).
  - reflexivity.
  - intros a b c Hab Hbc. congruence.
  - intros s task d0 d0' Hadd. exact (selected_tasks_add_task _ _ _ _ Hadd).
  - apply Forall_forall. intros p _ parent d0 r d0' Hinit.
    exact (selected_tasks_Task_init _ _ _ _ _ Hinit).
Qed.

Lemma selected_tasks_parse_assignments resource items : forall d d',
  parse_assignments resource items d = Ok d' -> selected_tasks d' = selected_tasks d.
Proof.
  induction items as [|item items IH]; intros d d' H; cbn [parse_assignments] in H.
  - now injection H as <-.
  - ok_inv H. rewrite (IH _ _ H). reflexivity.
Qed.

Lemma selected_tasks_parse_resources_of items : forall d d',
  parse_resources_of items d = Ok d' -> selected_tasks d' = selected_tasks d.
Proof.
  induction items as [|item items IH]; intros d d' H; cbn [parse_resources_of] in H.
  - now injection H as <-.
  - ok_inv H. rewrite (IH _ _ H).
    rewrite (selected_tasks_parse_assignments _ _ _ _ E5). reflexivity.
Qed.

Lemma selected_tasks_process_dependency_items items : forall d d',
  process_dependency_items items d = Ok d' -> selected_tasks d' = selected_tasks d.
Proof.
  induction items as [|item items IH]; intros d d' H; cbn [process_dependency_items] in H.
  - now injection H as <-.
  - ok_inv H. rewrite (IH _ _ H). unfold process_dependency in E. ok_inv E.
    now injection E as <-.
Qed.

Lemma selected_tasks_process_dependencies_of ts : forall d d',
  process_dependencies_of ts d = Ok d' -> selected_tasks d' = selected_tasks d.
Proof.
  induction ts as [|task ts IH]; intros d d' H; cbn [process_dependencies_of] in H.
  - now injection H as <-.
  - ok_inv H. rewrite (IH _ _ H).
    exact (selected_tasks_process_dependency_items _ _ _ E1).
Qed.

(** X17: the selection of a loaded document is, entry by entry and in the
    order of [selected_task_ids], the task that the identifier index holds
    under that entry; each one is a task of the document, and for an integer
    entry it is a task with that identifier. *)
Theorem selected_tasks_follow_selected_ids name data d :
  OmniPlanDocument_init name data = Ok d ->
  exists ids keys,
    plist_item "selected_task_ids" data = Ok ids
    /\ plist_iter ids = Ok keys
    /\ Forall2 (fun key (r : ref) =>
                  lookup_id (task_map d) key = Ok r
                  /\ exists t, task_heap d !! r = Some t
                               /\ forall id, key = PlInt id -> task_id t = Ok id)
               keys (selected_tasks d).
Proof.
  intros Hload.
  destruct (task_map_after_load name data d Hload) as [_ Hlisted].
  unfold id_listed, has_id in Hlisted.
  unfold OmniPlanDocument_init, parse_document_data in Hload. ok_inv Hload.
  assert (Hnone : selected_tasks a5 = []).
  { unfold process_dependencies in E5.
    rewrite (selected_tasks_process_dependencies_of _ _ _ E5).
    rewrite (selected_tasks_parse_resources_of _ _ _ E4).
    exact (selected_tasks_add_tasks _ _ _ _ E1). }
  unfold parse_selection in Hload. ok_inv Hload. injection Hload as <-.
  exists a6, a7. split; [reflexivity|]. split; [exact E7|].
  cbn [selected_tasks with_selection task_map task_heap] in *.
  rewrite Hnone. cbn [app].
  eapply Forall2_impl; [exact (map_result_Forall2 _ _ _ E8)|].
  intros key r Hkey. cbn beta in Hkey. split; [exact Hkey|].
  destruct key as [n | s | b | t | l | entries]; cbn [lookup_id] in Hkey;
    try discriminate Hkey.
  - destruct (task_map a5 !! n) as [r0|] eqn:Hn; cbn in Hkey; [|discriminate].
    injection Hkey as ->. destruct (Hlisted n r Hn) as (t & Ht & Hid).
    exists t. split; [exact Ht|]. intros id [= <-]. exact Hid.
  - destruct (task_map a5 !! (if b then 1 else 0)) as [r0|] eqn:Hn; cbn in Hkey;
      [|discriminate].
    injection Hkey as ->. destruct (Hlisted _ r Hn) as (t & Ht & _).
    exists t. split; [exact Ht|]. intros id Hid. discriminate Hid.
Qed.

Lemma selected_tasks_follow_selected_ids_witness :
  exists ids keys,
    plist_item "selected_task_ids" Sample.document_data = Ok ids
    /\ plist_iter ids = Ok keys
    /\ Forall2 (fun key (r : ref) =>
                  lookup_id (task_map Sample.document) key = Ok r
                  /\ exists t, task_heap Sample.document !! r = Some t
                               /\ forall id, key = PlInt id -> task_id t = Ok id)
               keys (selected_tasks Sample.document).
Proof.
  exact (selected_tasks_follow_selected_ids _ _ _ sample_document_loaded).
Defined.

(** ** Parents and children *)

Lemma same_links_refl o : same_links o o.
Proof. destruct o; cbn; auto. Qed.

Lemma same_links_update_task d r f :
  (forall t, task_parent (f t) = task_parent t /\ task_tasks (f t) = task_tasks t) ->
  forall r' : ref, same_links (task_heap d !! r') (task_heap (update_task r f d) !! r').
Proof.
  intros Hf r'. destruct (decide (r = r')) as [<-|Hne].
  - rewrite task_heap_update_task_eq.
    destruct (task_heap d !! r) as [t|]; cbn [fmap option_fmap option_map same_links];
      [apply Hf | exact I].
  - rewrite task_heap_update_task_ne by exact Hne. apply same_links_refl.
Qed.

Lemma children_same_links d d' :
  doc_tasks d' = doc_tasks d ->
  (forall r : ref, same_links (task_heap d !! r) (task_heap d' !! r)) ->
  forall p, children d' p = children d p.
Proof.
  intros Hdoc Hlinks [q|]; cbn [children]; [|exact Hdoc].
  specialize (Hlinks q).
  destruct (task_heap d !! q), (task_heap d' !! q); cbn in Hlinks;
    try contradiction; [apply Hlinks | reflexivity].
Qed.

Lemma tree_between_same lo dc dc' :
  tree_between lo dc ->
  next_task dc' = next_task dc ->
  doc_tasks dc' = doc_tasks dc ->
  (forall r : ref, same_links (task_heap dc !! r) (task_heap dc' !! r)) ->
  tree_between lo dc'.
Proof.
  intros [T2 T3] Hn Hdoc Hlinks.
  pose proof (children_same_links dc dc' Hdoc Hlinks) as Hch.
  split.
  - intros r Hr. rewrite Hn in Hr. destruct (T2 r Hr) as (t & Ht & Hin & Hp).
    pose proof (Hlinks r) as Hl. rewrite Ht in Hl.
    destruct (task_heap dc' !! r) as [t'|]; cbn in Hl; [|contradiction].
    destruct Hl as [Hpar _]. exists t'. rewrite Hpar, Hch. auto.
  - intros p c Hp Hin. rewrite Hn in Hp |- *. rewrite Hch in Hin.
    destruct (T3 p c Hp Hin) as (Hc & t & Ht & Hpar). split; [exact Hc|].
    pose proof (Hlinks c) as Hl. rewrite Ht in Hl.
    destruct (task_heap dc' !! c) as [t'|]; cbn in Hl; [|contradiction].
    destruct Hl as [Hpar' _]. exists t'. split; [reflexivity | congruence].
Qed.

(** What [add_task] does to the children and to the parents. *)
Lemma add_task_children self c d1 d2 :
  add_task self c d1 = Ok d2 ->
  match self with Some p => is_Some (task_heap d1 !! p) | None => True end ->
  next_task d2 = next_task d1
  /\ (forall (r : ref) t,
        task_heap d1 !! r = Some t ->
        exists t', task_heap d2 !! r = Some t' /\ task_parent t' = task_parent t)
  /\ (forall q, q <> self -> children d2 q = children d1 q)
  /\ children d2 self = children d1 self ++ [c].
Proof.
  intros Hadd Hself. destruct (add_task_tree _ _ _ _ Hadd) as (Hn & Htree).
  split; [exact Hn|]. destruct self as [p|].
  - destruct Htree as [Hheap Hdoc]. split; [|split].
    + intros r t Ht. rewrite Hheap. destruct (decide (p = r)) as [<-|Hne].
      * rewrite lookup_alter_eq, Ht. cbn. eauto.
      * rewrite lookup_alter_ne by exact Hne. eauto.
    + intros [q|] Hq; cbn [children]; [|exact Hdoc].
      rewrite Hheap, lookup_alter_ne by congruence. reflexivity.
    + destruct Hself as [tp Htp]. cbn [children].
      rewrite Hheap, lookup_alter_eq, Htp. reflexivity.
  - destruct Htree as [Hheap Hdoc]. split; [|split].
    + intros r t Ht. rewrite Hheap. eauto.
    + intros [q|] Hq; cbn [children]; [|congruence]. now rewrite Hheap.
    + exact Hdoc.
Qed.

(** A child is built on [dc] and then added to the collection [self]. *)
Lemma tree_between_child lo dc c d1 d2 self :
  tree_between lo dc ->
  (lo <= next_task dc)%nat ->
  fresh_built self dc c d1 ->
  task_built self dc c d1 ->
  match self with
  | Some p => lo = S p /\ is_Some (task_heap dc !! p)
  | None => lo = 0%nat
  end ->
  add_task self c d1 = Ok d2 ->
  tree_between lo d2.
Proof.
  intros [T2 T3] Hlo (Hc & Hc1 & Hbelow) ((tc & Htc & Hpc) & Hdoc1 & [C2 C3]) Hself Hadd.
  subst c.
  assert (Hself1 : match self with
                   | Some p => is_Some (task_heap d1 !! p)
                   | None => True
                   end).
  { destruct self as [p|]; [|exact I]. destruct Hself as [-> Hp].
    rewrite Hbelow by lia. exact Hp. }
  destruct (add_task_children _ _ _ _ Hadd Hself1) as (Hn2 & Hpar & Hother & Hown).
  assert (Hsub : forall q (x : ref), x ∈ children d1 q -> x ∈ children d2 q).
  { intros q x Hx. destruct (decide (q = self)) as [->|Hne].
    - rewrite Hown. apply elem_of_app. now left.
    - now rewrite (Hother q Hne). }
  assert (Hold : forall q, match q with
                           | Some x => (x < next_task dc)%nat
                           | None => True
                           end -> children d1 q = children dc q).
  { intros [x|] Hx; cbn [children]; [|exact Hdoc1]. now rewrite Hbelow. }
  assert (Hrange : parent_in_range lo (next_task dc) self).
  { destruct self as [p|]; cbn; [|exact Hself]. destruct Hself as [-> _]. lia. }
  split.
  - intros r Hr. rewrite Hn2 in Hr.
    destruct (lt_eq_lt_dec r (next_task dc)) as [[Hlt | ->] | Hgt].
    + destruct (T2 r (conj (proj1 Hr) Hlt)) as (t & Ht & Hin & Hp).
      rewrite <- Hbelow in Ht by exact Hlt.
      destruct (Hpar r t Ht) as (t' & Ht' & Hpt).
      exists t'. split; [exact Ht'|]. rewrite Hpt. split; [|exact Hp].
      apply Hsub. rewrite Hold; [exact Hin|].
      destruct (task_parent t) as [x|]; [|exact I]. cbn in Hp. lia.
    + destruct (Hpar _ tc Htc) as (t' & Ht' & Hpt).
      exists t'. split; [exact Ht'|]. rewrite Hpt, Hpc. split.
      * rewrite Hown. apply elem_of_app. right. constructor.
      * destruct self as [p|]; cbn; [|exact Hself]. destruct Hself as [-> _]. lia.
    + destruct (C2 r) as (t & Ht & Hin & Hp); [lia|].
      destruct (Hpar r t Ht) as (t' & Ht' & Hpt).
      exists t'. split; [exact Ht'|]. rewrite Hpt. split; [now apply Hsub|].
      destruct (task_parent t) as [x|]; cbn in Hp |- *; lia.
  - intros p c Hp Hin. rewrite Hn2 in Hp |- *.
    assert (Hcases : c = next_task dc \/ c ∈ children d1 p).
    { destruct (decide (p = self)) as [->|Hne].
      - rewrite Hown in Hin. apply elem_of_app in Hin.
        destruct Hin as [Hin | Hin]; [now right|].
        apply list_elem_of_singleton in Hin. now left.
      - right. now rewrite <- (Hother p Hne). }
    destruct Hcases as [-> | Hin1].
    + split; [exact Hc1|]. destruct (Hpar _ tc Htc) as (t' & Ht' & Hpt).
      exists t'. split; [exact Ht'|]. rewrite Hpt, Hpc.
      destruct (decide (p = self)) as [->|Hne]; [reflexivity|].
      rewrite (Hother p Hne) in Hin.
      assert (Hp1 : parent_in_range lo (next_task dc) p
                    \/ parent_in_range (S (next_task dc)) (next_task d1) p).
      { destruct p as [x|]; cbn in Hp |- *; [|now left].
        destruct (lt_dec x (next_task dc)); [left | right]; lia. }
      destruct Hp1 as [Hp1 | Hp1].
      * rewrite Hold in Hin by (destruct p as [x|]; [cbn in Hp1; lia | exact I]).
        destruct (T3 p _ Hp1 Hin) as (Hlt & _). lia.
      * destruct (C3 p _ Hp1 Hin) as (_ & t & Ht & Hpt1).
        rewrite Htc in Ht. injection Ht as <-. congruence.
    + assert (Hp1 : parent_in_range lo (next_task dc) p
                    \/ parent_in_range (S (next_task dc)) (next_task d1) p).
      { destruct p as [x|]; cbn in Hp |- *; [|now left].
        destruct (lt_dec x (next_task dc)); [left | right]; lia. }
      destruct Hp1 as [Hp1 | Hp1].
      * rewrite Hold in Hin1 by (destruct p as [x|]; [cbn in Hp1; lia | exact I]).
        destruct (T3 p c Hp1 Hin1) as (Hlt & t & Ht & Hpt).
        split; [lia|]. rewrite <- Hbelow in Ht by exact Hlt.
        destruct (Hpar c t Ht) as (t' & Ht' & Hpt').
        exists t'. split; [exact Ht' | congruence].
      * destruct (C3 p c Hp1 Hin1) as (Hlt & t & Ht & Hpt).
        split; [exact Hlt|].
        destruct (Hpar c t Ht) as (t' & Ht' & Hpt').
        exists t'. split; [exact Ht' | congruence].
Qed.

Lemma task_parent_Task_setattr self key value t :
  task_parent (Task_setattr self key value t) = task_parent t.
Proof.
  unfold Task_setattr, add_change_record.
  destruct (mutable_simple_properties key); [|reflexivity].
  destruct (task_change_records t); reflexivity.
Qed.

Lemma task_built_rule :
  forall p,
    constructor_meets
      (fun parent d self d' => fresh_built parent d self d' /\ task_built parent d self d') p.
Proof.
  apply (Task_init_fresh_rule task_built
           (fun parent d dc => task_built parent d (next_task d) dc)).
  - intros parent d. unfold task_built, new_task. cbn [snd]. split; [|split].
    + eexists. cbn. split; [apply lookup_insert_eq | reflexivity].
    + reflexivity.
    + split.
      * intros r Hr. cbn in Hr. lia.
      * intros [q|] c Hq Hin; cbn in Hq; [|discriminate Hq].
        assert (q = next_task d) by lia. subst q.
        cbn in Hin. rewrite lookup_insert_eq in Hin. cbn in Hin.
        now apply elem_of_nil in Hin.
  - intros parent d dc key v _ ((t & Ht & Hp) & Hdoc & Htree).
    assert (Hlinks : forall r : ref,
               same_links (task_heap dc !! r)
                          (task_heap (setattr (next_task d) key v dc) !! r)).
    { apply same_links_update_task. intros t0.
      split; [apply task_parent_Task_setattr | apply task_tasks_Task_setattr]. }
    split; [|split].
    + pose proof (Hlinks (next_task d)) as Hl. rewrite Ht in Hl.
      destruct (task_heap (setattr (next_task d) key v dc) !! next_task d) as [t'|];
        cbn in Hl; [|contradiction].
      exists t'. split; [reflexivity | destruct Hl; congruence].
    + exact Hdoc.
    + exact (tree_between_same _ dc (setattr (next_task d) key v dc) Htree
               eq_refl eq_refl Hlinks).
  - intros parent d dc d1 d2 [Hnext Hbelow] ((t & Ht & Hp) & Hdoc & Htree)
           Hfresh Hchild Hadd.
    pose proof Hfresh as (_ & Hc1 & Hbelow1).
    assert (Ht1 : task_heap d1 !! next_task d = Some t) by (rewrite Hbelow1 by lia; exact Ht).
    destruct (add_task_children _ _ _ _ Hadd (ex_intro _ t Ht1)) as (_ & Hpar & Hother & _).
    split; [|split].
    + destruct (Hpar _ t Ht1) as (t' & Ht' & Hpt). exists t'. split; [exact Ht' | congruence].
    + rewrite <- Hdoc. destruct Hchild as (_ & Hdoc1 & _). rewrite <- Hdoc1.
      exact (Hother None ltac:(discriminate)).
    + apply (tree_between_child (S (next_task d)) dc (next_task dc) d1 d2
               (Some (next_task d)) Htree); [lia | exact Hfresh | exact Hchild | | exact Hadd].
      split; [reflexivity | now exists t].
  - intros parent d d1 _ ((t & Ht & Hp) & Hdoc & Htree).
    assert (Hlinks : forall r : ref,
               same_links (task_heap d1 !! r)
                          (task_heap (update_task (next_task d)
                                        (with_change_records (Some [])) d1) !! r)).
    { apply same_links_update_task. intros t0. split; reflexivity. }
    split; [|split].
    + rewrite task_heap_update_task_eq, Ht. cbn. eexists. split; [reflexivity | exact Hp].
    + exact Hdoc.
    + exact (tree_between_same _ d1
               (update_task (next_task d) (with_change_records (Some [])) d1) Htree
               eq_refl eq_refl Hlinks).
Qed.

Lemma tree_built_document name l d :
  add_tasks_for_task_data_list Task_init None l (OmniPlanDocument_new name) = Ok d ->
  tree_between 0 d.
Proof.
  apply (add_tasks_loop
           (fun parent d self d' => fresh_built parent d self d' /\ task_built parent d self d')
           (tree_between 0) None task_built_rule).
  - intros dc c d1 d2 HL [Hfresh Hbuilt] Hadd.
    exact (tree_between_child 0 dc c d1 d2 None HL (Nat.le_0_l _) Hfresh Hbuilt eq_refl Hadd).
  - split.
    + intros r Hr. cbn in Hr. lia.
    + intros [q|] c Hq Hin; cbn in Hq, Hin; [lia | now apply elem_of_nil in Hin].
Qed.

(** The later steps of a load keep the parents. *)
Lemma same_parents_refl d : same_parents d d.
Proof. intros r. reflexivity. Qed.

Lemma same_parents_trans d1 d2 d3 :
  same_parents d1 d2 -> same_parents d2 d3 -> same_parents d1 d3.
Proof. intros H1 H2 r. now rewrite H2, H1. Qed.

Lemma same_parents_update_task d r f :
  (forall t, task_parent (f t) = task_parent t) -> same_parents d (update_task r f d).
Proof.
  intros Hf r'. destruct (decide (r = r')) as [<-|Hne].
  - rewrite task_heap_update_task_eq. destruct (task_heap d !! r); cbn; [|reflexivity].
    now rewrite Hf.
  - now rewrite task_heap_update_task_ne by exact Hne.
Qed.

Lemma same_parents_TaskDependency_init d p q ty :
  same_parents d (TaskDependency_init p q ty d).
Proof.
  unfold TaskDependency_init.
  eapply same_parents_trans; apply same_parents_update_task; intros t; reflexivity.
Qed.

Lemma same_parents_ResourceAssignment_init d resource task units :
  same_parents d (ResourceAssignment_init resource task units d).2.
Proof.
  unfold ResourceAssignment_init. cbn [snd].
  eapply same_parents_trans; [|apply same_parents_update_task; intros t; reflexivity].
  intros r. reflexivity.
Qed.

Lemma same_parents_process_dependency_items items : forall d d',
  process_dependency_items items d = Ok d' -> same_parents d d'.
Proof.
  induction items as [|item items IH]; intros d d' H; cbn [process_dependency_items] in H.
  - injection H as <-. apply same_parents_refl.
  - ok_inv H. eapply same_parents_trans; [|exact (IH _ _ H)].
    unfold process_dependency in E. ok_inv E. injection E as <-.
    apply same_parents_TaskDependency_init.
Qed.

Lemma same_parents_process_dependencies_of ts : forall d d',
  process_dependencies_of ts d = Ok d' -> same_parents d d'.
Proof.
  induction ts as [|task ts IH]; intros d d' H; cbn [process_dependencies_of] in H.
  - injection H as <-. apply same_parents_refl.
  - ok_inv H.
    eapply same_parents_trans; [exact (same_parents_process_dependency_items _ _ _ E1)|].
    exact (IH _ _ H).
Qed.

Lemma same_parents_parse_assignments resource items : forall d d',
  parse_assignments resource items d = Ok d' -> same_parents d d'.
Proof.
  induction items as [|item items IH]; intros d d' H; cbn [parse_assignments] in H.
  - injection H as <-. apply same_parents_refl.
  - ok_inv H. eapply same_parents_trans; [apply same_parents_ResourceAssignment_init|].
    exact (IH _ _ H).
Qed.

Lemma same_parents_parse_resources_of items : forall d d',
  parse_resources_of items d = Ok d' -> same_parents d d'.
Proof.
  induction items as [|item items IH]; intros d d' H; cbn [parse_resources_of] in H.
  - injection H as <-. apply same_parents_refl.
  - ok_inv H. cbv zeta in H. ok_inv H.
    eapply same_parents_trans; [|exact (IH _ _ H)].
    eapply same_parents_trans; [|exact (same_parents_parse_assignments _ _ _ _ E5)].
    intros r. reflexivity.
Qed.

Lemma same_parents_parse_selection data d d' :
  parse_selection data d = Ok d' -> same_parents d d'.
Proof.
  unfold parse_selection. intros H. ok_inv H. injection H as <-. intros r. reflexivity.
Qed.

(** ** The parent chain ends at the document *)

Section Parent_chain.
Variable heap : gmap ref Task.
Variable n : nat.
Hypothesis parent_before :
  forall (r : ref) t (p : ref), heap !! r = Some t -> task_parent t = Some p -> (p < r)%nat.
Hypothesis numbered : forall r : ref, (r < n)%nat -> is_Some (heap !! r).

Lemma root_of_None m : root_of m heap None = Some None.
Proof. destruct m; reflexivity. Qed.

Lemma level_of_None m : level_of m heap None = Some 0%nat.
Proof. destruct m; reflexivity. Qed.

Lemma root_of_document : forall (r : ref) m,
  (r < n)%nat -> (r < m)%nat -> root_of m heap (Some r) = Some None.
Proof.
  induction r as [r IH] using lt_wf_ind. intros m Hn Hm.
  destruct m as [|m]; [lia|]. cbn [root_of].
  destruct (numbered r Hn) as [t Ht]. rewrite Ht.
  destruct (task_parent t) as [p|] eqn:Hp; [|apply root_of_None].
  pose proof (parent_before r t p Ht Hp). apply IH; lia.
Qed.

Lemma level_of_enough : forall r : ref,
  (r < n)%nat ->
  exists l t,
    heap !! r = Some t
    /\ (forall m, (r < m)%nat -> level_of m heap (Some r) = Some (l + 1)%nat)
    /\ (forall m, match task_parent t with Some p => (p < m)%nat | None => True end ->
                  level_of m heap (task_parent t) = Some l).
Proof.
  induction r as [r IH] using lt_wf_ind. intros Hn.
  destruct (numbered r Hn) as [t Ht].
  destruct (task_parent t) as [p|] eqn:Hp.
  - pose proof (parent_before r t p Ht Hp) as Hlt.
    destruct (IH p Hlt ltac:(lia)) as (l' & tp & _ & Hlevel & _).
    exists (l' + 1)%nat, t. split; [exact Ht|]. rewrite Hp. split.
    + intros m Hm. destruct m as [|m]; [lia|]. cbn [level_of].
      rewrite Ht, Hp, (Hlevel m) by lia. reflexivity.
    + intros m Hm. now apply Hlevel.
  - exists 0%nat, t. split; [exact Ht|]. rewrite Hp. split.
    + intros m Hm. destruct m as [|m]; [lia|]. cbn [level_of].
      rewrite Ht, Hp, level_of_None. reflexivity.
    + intros m _. apply level_of_None.
Qed.

End Parent_chain.

(** X18: in a loaded document every task is listed by the collection that
    is its parent, and everything a collection lists has that collection as
    its parent; [document()] of every task is the document; and [level()] of
    every task is the level of its parent plus one. *)
Theorem parents_and_children_agree name data d :
  OmniPlanDocument_init name data = Ok d ->
  (forall (r : ref) t,
     task_heap d !! r = Some t ->
     r ∈ children d (task_parent t)
     /\ document d (Some r) = Some None
     /\ exists l, level d (task_parent t) = Some l
                  /\ level d (Some r) = Some (l + 1)%nat)
  /\ (forall p (c : ref),
        c ∈ children d p -> exists t, task_heap d !! c = Some t /\ task_parent t = p).
Proof.
  unfold OmniPlanDocument_init, parse_document_data. intros H. ok_inv H.
  assert (Hframe : frame a1 d).
  { eapply frame_trans; [exact (frame_parse_resources_of _ _ _ E4)|].
    eapply frame_trans; [exact (frame_process_dependencies_of _ _ _ E5)|].
    exact (frame_parse_selection _ _ _ H). }
  assert (Hparents : same_parents a1 d).
  { eapply same_parents_trans; [exact (same_parents_parse_resources_of _ _ _ E4)|].
    eapply same_parents_trans; [exact (same_parents_process_dependencies_of _ _ _ E5)|].
    exact (same_parents_parse_selection _ _ _ H). }
  pose proof (objects_are_numbered_frame _ _ Hframe
                (children_objects_are_numbered name a0 a1 E1)) as Hnum.
  pose proof Hframe as (_ & _ & Hdoc & Hn & Hheap).
  assert (Hlinks : forall r : ref, same_links (task_heap a1 !! r) (task_heap d !! r)).
  { intros r. specialize (Hheap r). specialize (Hparents r).
    destruct (task_heap a1 !! r) as [t1|], (task_heap d !! r) as [t|];
      cbn in Hheap, Hparents |- *; try contradiction; [|exact I].
    split; [congruence | apply Hheap]. }
  destruct (tree_between_same 0 a1 d (tree_built_document name a0 a1 E1) Hn Hdoc Hlinks)
    as [T2 T3].
  assert (Hbefore : forall (r : ref) t (p : ref),
             task_heap d !! r = Some t -> task_parent t = Some p -> (p < r)%nat).
  { intros r t p Ht Hp.
    assert (Hr : (r < next_task d)%nat) by (apply Hnum; now exists t).
    destruct (T2 r (conj (Nat.le_0_l _) Hr)) as (t' & Ht' & _ & Hrange).
    rewrite Ht in Ht'. injection Ht' as <-. rewrite Hp in Hrange. cbn in Hrange. lia. }
  assert (Hsome : forall r : ref, (r < next_task d)%nat -> is_Some (task_heap d !! r)).
  { intros r Hr. now apply Hnum. }
  split.
  - intros r t Ht.
    assert (Hr : (r < next_task d)%nat) by (apply Hnum; now exists t).
    split; [|split].
    + destruct (T2 r (conj (Nat.le_0_l _) Hr)) as (t' & Ht' & Hin & _).
      rewrite Ht in Ht'. injection Ht' as <-. exact Hin.
    + exact (root_of_document (task_heap d) (next_task d) Hbefore Hsome r _ Hr Hr).
    + destruct (level_of_enough (task_heap d) (next_task d) Hbefore Hsome r Hr)
        as (l & t' & Ht' & Hlevel & Hparent).
      rewrite Ht in Ht'. injection Ht' as <-.
      exists l. unfold level. split; [|now apply Hlevel].
      apply Hparent. destruct (task_parent t) as [p|] eqn:Hp; [|exact I].
      pose proof (Hbefore r t p Ht Hp). lia.
  - intros p c Hin.
    assert (Hp : parent_in_range 0 (next_task d) p).
    { destruct p as [q|]; cbn; [|reflexivity]. split; [lia|].
      apply Hnum. cbn in Hin. destruct (task_heap d !! q); [eauto|].
      now apply elem_of_nil in Hin. }
    destruct (T3 p c Hp Hin) as (_ & t & Ht & Hpar). eauto.
Qed.

Lemma parents_and_children_agree_witness :
  (forall (r : ref) t,
     task_heap Sample.document !! r = Some t ->
     r ∈ children Sample.document (task_parent t)
     /\ document Sample.document (Some r) = Some None
     /\ exists l, level Sample.document (task_parent t) = Some l
                  /\ level Sample.document (Some r) = Some (l + 1)%nat)
  /\ (forall p (c : ref),
        c ∈ children Sample.document p ->
        exists t, task_heap Sample.document !! c = Some t /\ task_parent t = p).
Proof.
  exact (parents_and_children_agree _ _ _ sample_document_loaded).
Defined.
